(** * The multi-phase orchestrator of [src/orchestrator.ts]

    A shallow embedding of the class [MultiPhaseOrchestrator] and of the
    parts of the JavaScript and Node.js run time it calls: strings,
    [Date.prototype.toISOString], [JSON.stringify], [path.join], the
    synchronous [fs] functions and the console.

    Modelling conventions.
    - A JavaScript string is a sequence of code units.  The model uses
      [string], whose units are 8-bit; [length], [substring] and
      concatenation are unit-wise exactly as in JavaScript, and
      [toUpperCase] is the ASCII case mapping (the texts of the program
      are ASCII, apart from pictographs in five progress lines, kept as
      their UTF-8 bytes).
    - The machine ([World]) holds the file system, the system clock as an
      oracle (the i-th reading of [new Date()]), the console output, the
      requests handed to the simulated agent and the instance field
      [phaseResults].  Input and output fail where a directory stands in
      the place of a file or a parent directory is missing; other errors
      of the operating system are not modelled.
    - Paths are joined by concatenation ([NodePath.join]).  Node's
      [path.join] also normalises its result; [PosixPath.join] models
      it in general, and the two agree for a directory in simple form
      and a plain name (lemmas [join_simple] and [paths_faithful]).
    - [fs.mkdirSync] is modelled for a path whose parent exists.
    - A method is a computation in the monad [M]: it threads the machine
      and either returns a value or throws. *)

From Stdlib Require Import ZArith Ascii String List Lia Bool.
From stdpp Require Import gmap strings list fin_maps.

Local Open Scope string_scope.

(** ** JavaScript strings *)

Module JsString.

Definition LF : string := String "010"%char EmptyString.
Definition DQ : string := String "034"%char EmptyString.
Definition BSL : string := String "092"%char EmptyString.

(** [String.prototype.toUpperCase], on ASCII. *)
Definition upper_unit (c : ascii) : ascii :=
  let n := nat_of_ascii c in
  if (97 <=? n)%nat && (n <=? 122)%nat then ascii_of_nat (n - 32) else c.

Fixpoint toUpperCase (s : string) : string :=
  match s with
  | EmptyString => EmptyString
  | String c r => String (upper_unit c) (toUpperCase r)
  end.

(** [s.substring(start, end)]: both indices are clamped to the length
    and swapped when out of order. *)
Definition substring (s : string) (start stop : nat) : string :=
  let a := Nat.min start (String.length s) in
  let b := Nat.min stop (String.length s) in
  String.substring (Nat.min a b) (Nat.max a b - Nat.min a b) s.

(** [s.charAt(0)]: the first unit as a string, empty on the empty string. *)
Definition charAt0 (s : string) : string :=
  match s with
  | EmptyString => EmptyString
  | String c _ => String c EmptyString
  end.

(** [s.slice(1)]. *)
Definition slice1 (s : string) : string :=
  match s with
  | EmptyString => EmptyString
  | String _ r => r
  end.

(** [s.replace(pat, rep)] with a string pattern: only the first
    occurrence is replaced ([rep] holds no [$] here). *)
Fixpoint replace (pat rep s : string) : string :=
  if String.prefix pat s
  then rep ++ String.substring (String.length pat) (String.length s) s
  else match s with
       | EmptyString => EmptyString
       | String c r => String c (replace pat rep r)
       end.

(** [s.replace(/c/g, d)] for a one-unit pattern and replacement. *)
Fixpoint replaceAll (c d : ascii) (s : string) : string :=
  match s with
  | EmptyString => EmptyString
  | String x r => String (if Ascii.eqb x c then d else x) (replaceAll c d r)
  end.

(** [s.repeat(n)]. *)
Fixpoint repeat (s : string) (n : nat) : string :=
  match n with
  | O => EmptyString
  | S k => s ++ repeat s k
  end.

(** [xs.join(sep)]. *)
Fixpoint join (sep : string) (xs : list string) : string :=
  match xs with
  | [] => EmptyString
  | [x] => x
  | x :: r => x ++ sep ++ join sep r
  end.

End JsString.

(** ** [Date.prototype.toISOString] *)

Module JsDate.

Definition msPerDay : Z := 86400000.

(** The proleptic Gregorian date of a day number (days since
    1970-01-01), by eras of 400 years that start on 1 March. *)
Definition civil_from_days (day : Z) : Z * Z * Z :=
  let z := (day + 719468)%Z in
  let era := (z / 146097)%Z in
  let doe := (z - era * 146097)%Z in
  let yoe := ((doe - doe / 1460 + doe / 36524 - doe / 146096) / 365)%Z in
  let doy := (doe - (365 * yoe + yoe / 4 - yoe / 100))%Z in
  let mp := ((5 * doy + 2) / 153)%Z in
  let d := (doy - (153 * mp + 2) / 5 + 1)%Z in
  let m := (if mp <? 10 then mp + 3 else mp - 9)%Z in
  ((yoe + era * 400 + (if m <=? 2 then 1 else 0))%Z, m, d).

Definition digit (n : Z) : ascii := ascii_of_nat (48 + Z.to_nat (n mod 10)).

(** The [w] low decimal digits of [n], most significant first. *)
Fixpoint pad (w : nat) (n : Z) : string :=
  match w with
  | O => EmptyString
  | S k => pad k (n / 10) ++ String (digit n) EmptyString
  end.

(** Years 0 to 9999 print with four digits, the others with a sign and
    six digits. *)
Definition year_string (y : Z) : string :=
  if (0 <=? y)%Z && (y <=? 9999)%Z then pad 4 y
  else if (y <? 0)%Z then "-" ++ pad 6 (- y) else "+" ++ pad 6 y.

(** [new Date(t).toISOString()] for a time value [t] in milliseconds
    since the epoch. *)
Definition toISOString (t : Z) : string :=
  let '(y, m, d) := civil_from_days (t / msPerDay) in
  let r := (t mod msPerDay)%Z in
  year_string y ++ "-" ++ pad 2 m ++ "-" ++ pad 2 d ++ "T" ++
  pad 2 (r / 3600000) ++ ":" ++ pad 2 (r / 60000 mod 60) ++ ":" ++
  pad 2 (r / 1000 mod 60) ++ "." ++ pad 3 (r mod 1000) ++ "Z".

End JsDate.

(** ** [JSON.stringify] *)

Module Json.
Import JsString.

Definition hex_digit (n : nat) : ascii :=
  if (n <? 10)%nat then ascii_of_nat (48 + n) else ascii_of_nat (87 + n).

(** The escape of one unit inside a JSON string literal. *)
Definition escape_unit (c : ascii) : string :=
  let n := nat_of_ascii c in
  if (n =? 34)%nat then BSL ++ DQ
  else if (n =? 92)%nat then BSL ++ BSL
  else if (n =? 8)%nat then BSL ++ "b"
  else if (n =? 9)%nat then BSL ++ "t"
  else if (n =? 10)%nat then BSL ++ "n"
  else if (n =? 12)%nat then BSL ++ "f"
  else if (n =? 13)%nat then BSL ++ "r"
  else if (n <? 32)%nat
       then BSL ++ "u00" ++ String (hex_digit (n / 16)) (String (hex_digit (n mod 16)) EmptyString)
  else String c EmptyString.

Fixpoint escape (s : string) : string :=
  match s with
  | EmptyString => EmptyString
  | String c r => escape_unit c ++ escape r
  end.

Definition quote (s : string) : string := DQ ++ escape s ++ DQ.

(** [JSON.stringify(o, null, 2)] for an object whose own enumerable
    properties, in order, are [props] and whose values are strings. *)
Definition stringify_object (props : list (string * string)) : string :=
  match props with
  | [] => "{}"
  | _ => "{" ++ LF ++
         join ("," ++ LF) (map (fun kv => "  " ++ quote (fst kv) ++ ": " ++ quote (snd kv)) props) ++
         LF ++ "}"
  end.

End Json.

(** ** Node.js: paths, file system, console *)

Inductive node : Type :=
| File (content : string)
| Dir.

Inductive output : Type :=
| Log (line : string)
| Warn (line : string).

Inductive exn : Type :=
| ENOENT (path : string)
| EISDIR (path : string)
| ENOTDIR (path : string)
| EEXIST (path : string)
| TypeError (message : string).

(** What the program hands to the agent.  The source only simulates the
    agent (it prints the first 200 units of the prompt); the model records
    the whole request at that point so that the prompt can be observed. *)
Record AgentRequest : Type := mkAgentRequest {
  req_phase : string;
  req_model : option string;
  req_tools : list string;
  req_prompt : string
}.

(** The machine: the file system, the clock ([clock i] is the i-th
    reading of [new Date()], [ticks] counts the readings taken), the
    console output, the requests handed to the agent, and the field
    [phaseResults] of the orchestrator instance (the specification has one
    instance per run). *)
Record World : Type := mkWorld {
  fs : gmap string node;
  clock : nat -> Z;
  ticks : nat;
  console : list output;
  agent : list AgentRequest;
  phaseResults : gmap string string
}.

Inductive outcome (A : Type) : Type :=
| Ok (a : A)
| Throw (e : exn).
Arguments Ok {A} a.
Arguments Throw {A} e.

Definition M (A : Type) : Type := World -> outcome A * World.

#[global] Instance M_ret : MRet M := fun A a w => (Ok a, w).
#[global] Instance M_bind : MBind M := fun A B k m w =>
  match m w with
  | (Ok a, w') => k a w'
  | (Throw e, w') => (Throw e, w')
  end.

Definition throw {A : Type} (e : exn) : M A := fun w => (Throw e, w).

Module NodePath.
(** The part of a path before its last separator, if it has one. *)
Fixpoint split_last (p : string) : option string :=
  match p with
  | EmptyString => None
  | String c r =>
      match split_last r with
      | Some d => Some (String c d)
      | None => if Ascii.eqb c "/" then Some EmptyString else None
      end
  end.

(** The directory that holds [p]; a bare name lies in the working
    directory. *)
Definition dirname (p : string) : string :=
  match split_last p with
  | Some d => d
  | None => "."
  end.

(** [path.join(dir, name)].  Node also normalises [.] and [..] segments
    and repeated separators; the directories and names of this program
    contain none, so the join is the concatenation.  ([PosixPath.join]
    below is the function in general; lemma [join_simple] proves the
    two equal for a directory in simple form and a plain name.) *)
Definition join (dir name : string) : string := dir ++ "/" ++ name.
End NodePath.

(** [path.join] in general (the POSIX flavour of Node.js): the
    arguments that are not empty are joined by a separator and the
    result is normalised. *)
Module PosixPath.

(** The segments of a path, between its separators. *)
Fixpoint segments (p : string) : list string :=
  match p with
  | EmptyString => [EmptyString]
  | String c r =>
      if Ascii.eqb c "/" then EmptyString :: segments r
      else match segments r with
           | s :: t => String c s :: t
           | [] => [String c EmptyString]
           end
  end.

(** [normalizeString]: the segments kept so far, last first, and the
    next segment.  Empty segments and [.] are dropped; [..] removes the
    segment before it, and is kept only in a relative path that has
    nothing left to remove. *)
Definition keep (allowAboveRoot : bool) (kept : list string) (s : string) : list string :=
  if String.eqb s EmptyString || String.eqb s "." then kept
  else if String.eqb s ".." then
    match kept with
    | top :: rest =>
        if String.eqb top ".." then (if allowAboveRoot then s :: kept else kept)
        else rest
    | [] => if allowAboveRoot then [s] else []
    end
  else s :: kept.

Fixpoint ends_with_separator (p : string) : bool :=
  match p with
  | EmptyString => false
  | String c EmptyString => Ascii.eqb c "/"
  | String _ r => ends_with_separator r
  end.

(** [path.posix.normalize]. *)
Definition normalize (p : string) : string :=
  match p with
  | EmptyString => "."
  | String c _ =>
      let isAbsolute := Ascii.eqb c "/" in
      let trailingSeparator := ends_with_separator p in
      let body :=
        JsString.join "/" (rev (fold_left (keep (negb isAbsolute)) (segments p) [])) in
      if (String.length body =? 0)%nat then
        if isAbsolute then "/" else if trailingSeparator then "./" else "."
      else
        (if isAbsolute then "/" else EmptyString) ++ body ++
        (if trailingSeparator then "/" else EmptyString)
  end.

(** [path.posix.join(a, b)]. *)
Definition join (a b : string) : string :=
  match a, b with
  | EmptyString, EmptyString => "."
  | EmptyString, _ => normalize b
  | _, EmptyString => normalize a
  | _, _ => normalize (a ++ "/" ++ b)
  end.

(** A segment that normalisation keeps as it is. *)
Definition plain (s : string) : bool :=
  negb (String.eqb s EmptyString) && negb (String.eqb s ".") && negb (String.eqb s "..").

(** A path of the form [a/b/c] or [/a/b/c] with plain segments: it is
    its own normal form, and it is neither the root nor the working
    directory. *)
Definition simple (d : string) : bool :=
  match segments d with
  | EmptyString :: (_ :: _) as rest => forallb plain rest
  | l => forallb plain l
  end.

End PosixPath.

Module NodeFs.

Definition existsSync (p : string) : M bool :=
  fun w => (Ok (match fs w !! p with Some _ => true | None => false end), w).

Definition readFileSync (p : string) : M string :=
  fun w => match fs w !! p with
           | Some (File c) => (Ok c, w)
           | Some Dir => (Throw (EISDIR p), w)
           | None => (Throw (ENOENT p), w)
           end.

Definition set_fs (f : gmap string node) (w : World) : World :=
  mkWorld f (clock w) (ticks w) (console w) (agent w) (phaseResults w).

(** A write creates or replaces the file; it fails on a directory and
    when the parent is not a directory. *)
Definition writeFileSync (p content : string) : M unit :=
  fun w => match fs w !! p with
           | Some Dir => (Throw (EISDIR p), w)
           | _ => match fs w !! NodePath.dirname p with
                  | Some Dir => (Ok tt, set_fs (<[p := File content]> (fs w)) w)
                  | Some (File _) => (Throw (ENOTDIR p), w)
                  | None => (Throw (ENOENT p), w)
                  end
           end.

(** [fs.mkdirSync(p, { recursive: true })]; the ancestors of [p] are
    taken to exist. *)
Definition mkdirSync (p : string) : M unit :=
  fun w => match fs w !! p with
           | Some (File _) => (Throw (EEXIST p), w)
           | Some Dir => (Ok tt, w)
           | None => (Ok tt, set_fs (<[p := Dir]> (fs w)) w)
           end.

End NodeFs.

(** [console.log] and [console.warn] append one line to the output. *)
Definition print (o : output) (w : World) : World :=
  mkWorld (fs w) (clock w) (ticks w) (console w ++ [o]) (agent w) (phaseResults w).

Module Console.
Definition log (s : string) : M unit := fun w => (Ok tt, print (Log s) w).
Definition warn (s : string) : M unit := fun w => (Ok tt, print (Warn s) w).
End Console.

(** [new Date()]: the next reading of the clock. *)
Definition tick (w : World) : World :=
  mkWorld (fs w) (clock w) (S (ticks w)) (console w) (agent w) (phaseResults w).

Definition Date_now : M Z := fun w => (Ok (clock w (ticks w)), tick w).

(** ** JavaScript objects with string values

    The own properties in insertion order, which is the order of
    [Object.entries] and of [JSON.stringify] for keys that are not array
    indices. *)

Module JsObject.
(** [o[k] = v]: an existing property keeps its place. *)
Fixpoint set (o : list (string * string)) (k v : string) : list (string * string) :=
  match o with
  | [] => [(k, v)]
  | (k', v') :: r =>
      if String.eqb k' k then (k', v) :: r else (k', v') :: set r k v
  end.

Definition keys (o : list (string * string)) : list string := map fst o.

(** The properties every object literal inherits from
    [Object.prototype]; reading one of them from an object that has no
    own property of that name yields the inherited function (or, for
    [__proto__], the prototype itself), never [undefined]. *)
Definition Object_prototype : list string :=
  ["constructor"; "__proto__"; "hasOwnProperty"; "isPrototypeOf";
   "propertyIsEnumerable"; "toLocaleString"; "toString"; "valueOf";
   "__defineGetter__"; "__defineSetter__"; "__lookupGetter__";
   "__lookupSetter__"].

Definition inherited (k : string) : bool :=
  existsb (String.eqb k) Object_prototype.
End JsObject.

(** ** The class [MultiPhaseOrchestrator] *)

Module Orchestrator.
Import JsString.

Record AgentConfig : Type := mkAgentConfig {
  description : string;
  tools : list string;
  model : option string
}.

Record PhaseOutput : Type := mkPhaseOutput {
  phase : string;
  timestamp : string;
  result : string;
  error : option string
}.

Record MultiPhaseOrchestrator : Type := mkOrchestrator {
  instructionsDir : string;
  outputDir : string
}.

(** What [configs[phase] || default] evaluates to: a configuration, or
    a member of [Object.prototype] (all of them are truthy). *)
Inductive ConfigValue : Type :=
| Config (c : AgentConfig)
| Inherited (member : string).

(** [JSON.stringify(phaseOutput, null, 2)]: an absent [error] is left out. *)
Definition stringify_PhaseOutput (po : PhaseOutput) : string :=
  Json.stringify_object
    ([("phase", phase po); ("timestamp", timestamp po); ("result", result po)] ++
     match error po with
     | Some e => [("error", e)]
     | None => []
     end).

Definition set_phaseResults (r : gmap string string) : M unit :=
  fun w => (Ok tt, mkWorld (fs w) (clock w) (ticks w) (console w) (agent w) r).

Definition get_phaseResults : M (gmap string string) :=
  fun w => (Ok (phaseResults w), w).

(** The simulated agent is handed the request (see [AgentRequest]). *)
Definition simulate_agent (r : AgentRequest) : M unit :=
  fun w => (Ok tt, mkWorld (fs w) (clock w) (ticks w) (console w) (agent w ++ [r])
                            (phaseResults w)).

Definition constructor (instructionsDir outputDir : string) : M MultiPhaseOrchestrator :=
  set_phaseResults ∅;;
  b ← NodeFs.existsSync outputDir;
  (if negb b then NodeFs.mkdirSync outputDir else mret tt);;
  mret (mkOrchestrator instructionsDir outputDir).

Definition loadInstructionFile (this : MultiPhaseOrchestrator) (filename : string) : M string :=
  let filepath := NodePath.join (instructionsDir this) filename in
  b ← NodeFs.existsSync filepath;
  if negb b then
    Console.warn ("Instruction file not found: " ++ filepath ++ ", using default instructions");;
    mret ("Execute the " ++ replace "-phase.instructions.md" EmptyString filename ++
          " phase of the workflow.")
  else NodeFs.readFileSync filepath.

Definition configs : gmap string AgentConfig :=
  list_to_map
    [("research",
      mkAgentConfig "Research specialist for thorough analysis and requirement gathering"
        ["Read"; "Grep"; "Glob"; "WebSearch"; "WebFetch"; "Task"] (Some "opus"));
     ("plan",
      mkAgentConfig "Planning expert for creating detailed implementation plans"
        ["Read"; "Write"; "Grep"; "Glob"; "Task"] (Some "opus"));
     ("implement",
      mkAgentConfig "Expert developer for implementing code following specifications"
        ["Read"; "Write"; "Edit"; "Bash"; "Grep"; "Glob"; "TodoWrite"] (Some "sonnet"));
     ("correct",
      mkAgentConfig "Quality assurance expert for reviewing and correcting implementations"
        ["Read"; "Edit"; "Bash"; "Grep"; "Glob"; "TodoWrite"] (Some "opus"))].

Definition getAgentConfig (phase : string) : ConfigValue :=
  match configs !! phase with
  | Some c => Config c
  | None =>
      if JsObject.inherited phase then Inherited phase
      else Config (mkAgentConfig
                     (toUpperCase (charAt0 phase) ++ slice1 phase ++ " phase specialist")
                     ["Read"; "Write"; "Grep"; "Glob"]
                     (Some "sonnet"))
  end.

Definition savePhaseOutput (this : MultiPhaseOrchestrator) (phaseOutput : PhaseOutput) : M string :=
  now ← Date_now;
  let timestamp := replaceAll ":" "-" (JsDate.toISOString now) in
  let filename := phase phaseOutput ++ "_" ++ timestamp ++ ".json" in
  let filepath := NodePath.join (outputDir this) filename in
  NodeFs.writeFileSync filepath (stringify_PhaseOutput phaseOutput);;
  mret filepath.

(** Line 103: the part of an earlier result that enters the prompt. *)
Definition preview (result : string) : string :=
  if (1000 <? String.length result)%nat
  then substring result 0 1000 ++ "..."
  else result.

(** Lines 99 to 108: the prompt, built by appending to [fullPrompt].
    [previousResults] is [None] for [undefined] and otherwise the
    entries of the object. *)
Definition fullPrompt (taskDescription : string)
    (previousResults : option (list (string * string)))
    (phaseInstructions : string) : string :=
  let fullPrompt := taskDescription in
  let fullPrompt :=
    match previousResults with
    | Some entries =>
        if (0 <? length (JsObject.keys entries))%nat then
          fold_left
            (fun acc '(prevPhase, result) =>
               acc ++ LF ++ "### " ++ toUpperCase prevPhase ++ " Phase:" ++ LF ++
               preview result ++ LF)
            entries
            (fullPrompt ++ LF ++ LF ++ "## Context from Previous Phases:" ++ LF)
        else fullPrompt
    | None => fullPrompt
    end in
  fullPrompt ++ LF ++ LF ++ "## Phase Instructions:" ++ LF ++ phaseInstructions.

(** Line 125: the text stored as the result of a phase. *)
Definition placeholder (phaseName : string) : string :=
  "[" ++ toUpperCase phaseName ++ " PHASE COMPLETE]" ++ LF ++ LF ++
  "This is where the agent's response would be captured." ++ LF ++ LF ++
  "In a real implementation, this would use the Claude Agent SDK to:" ++ LF ++
  "1. Spawn a sub-agent with the specified model and tools" ++ LF ++
  "2. Pass the full prompt with instructions" ++ LF ++
  "3. Capture the agent's response" ++ LF ++
  "4. Return the results".

(** [agentConfig.model] inside a template: a missing property prints as
    [undefined]. *)
Definition model_text (v : ConfigValue) : string :=
  match v with
  | Config c => match model c with Some m => m | None => "undefined" end
  | Inherited _ => "undefined"
  end.

(** [agentConfig.tools.join(", ")]: [tools] of an inherited member is
    [undefined], and reading [join] from it throws. *)
Definition tools_text (v : ConfigValue) : M string :=
  match v with
  | Config c => mret (join ", " (tools c))
  | Inherited _ => throw (TypeError "Cannot read properties of undefined (reading 'join')")
  end.

Definition config_model (v : ConfigValue) : option string :=
  match v with Config c => model c | Inherited _ => None end.

Definition config_tools (v : ConfigValue) : list string :=
  match v with Config c => tools c | Inherited _ => [] end.

Definition runPhase (this : MultiPhaseOrchestrator) (phaseName taskDescription : string)
    (previousResults : option (list (string * string))) : M string :=
  Console.log (LF ++ repeat "=" 70);;
  Console.log ("Starting " ++ toUpperCase phaseName ++ " Phase");;
  Console.log (repeat "=" 70 ++ LF);;
  phaseInstructions ← loadInstructionFile this (phaseName ++ "-phase.instructions.md");
  let agentConfig := getAgentConfig phaseName in
  let prompt := fullPrompt taskDescription previousResults phaseInstructions in
  now ← Date_now;
  let phaseOutput := mkPhaseOutput phaseName (JsDate.toISOString now) EmptyString None in
  Console.log ("Executing " ++ phaseName ++ " phase with:");;
  Console.log ("- Model: " ++ model_text agentConfig);;
  toolsLine ← tools_text agentConfig;
  Console.log ("- Tools: " ++ toolsLine);;
  Console.log (LF ++ "Prompt preview (first 200 chars):");;
  Console.log (substring prompt 0 200 ++ "..." ++ LF);;
  simulate_agent (mkAgentRequest phaseName (config_model agentConfig)
                    (config_tools agentConfig) prompt);;
  let phaseOutput := mkPhaseOutput (phase phaseOutput) (timestamp phaseOutput)
                       (placeholder phaseName) (error phaseOutput) in
  outputFile ← savePhaseOutput this phaseOutput;
  Console.log ("Phase output saved to: " ++ outputFile);;
  saved ← get_phaseResults;
  set_phaseResults (if String.eqb phaseName "__proto__" then saved
                    else <[phaseName := result phaseOutput]> saved);;
  mret (result phaseOutput).

Definition orchestrate (this : MultiPhaseOrchestrator) (task : string)
    : M (list (string * string)) :=
  Console.log (LF ++ repeat "=" 70);;
  Console.log "Multi-Phase Orchestrator Started";;
  Console.log (repeat "=" 70);;
  Console.log ("Task: " ++ task);;
  Console.log ("Output Directory: " ++ outputDir this);;
  Console.log (repeat "=" 70 ++ LF);;
  let results : list (string * string) := [] in
  let previousResults : list (string * string) := [] in
  Console.log (LF ++ "📚 Phase 1: Research");;
  researchResult ← runPhase this "research"
    ("Task: " ++ task ++ LF ++ LF ++
     "Conduct thorough research for this task. Verify assumptions, explore multiple approaches, and document findings.")
    None;
  let results := JsObject.set results "research" researchResult in
  let previousResults := JsObject.set previousResults "research" researchResult in
  Console.log (LF ++ "📋 Phase 2: Planning");;
  planningResult ← runPhase this "plan"
    ("Task: " ++ task ++ LF ++ LF ++
     "Based on the research above, create a detailed implementation plan.")
    (Some previousResults);
  let results := JsObject.set results "plan" planningResult in
  let previousResults := JsObject.set previousResults "plan" planningResult in
  Console.log (LF ++ "⚙️  Phase 3: Implementation");;
  implementationResult ← runPhase this "implement"
    ("Task: " ++ task ++ LF ++ LF ++
     "Implement the solution following the plan above.")
    (Some previousResults);
  let results := JsObject.set results "implement" implementationResult in
  let previousResults := JsObject.set previousResults "implement" implementationResult in
  Console.log (LF ++ "✅ Phase 4: Review & Correction");;
  correctionResult ← runPhase this "correct"
    ("Task: " ++ task ++ LF ++ LF ++
     "Review the implementation and create a corrective plan if issues are found.")
    (Some previousResults);
  let results := JsObject.set results "correct" correctionResult in
  now ← Date_now;
  let timestamp := replaceAll ":" "-" (JsDate.toISOString now) in
  let summaryFile :=
    NodePath.join (outputDir this) ("workflow_summary_" ++ timestamp ++ ".json") in
  NodeFs.writeFileSync summaryFile (Json.stringify_object results);;
  Console.log (LF ++ repeat "=" 70);;
  Console.log "✨ Workflow Complete!";;
  Console.log ("Summary saved to: " ++ summaryFile);;
  Console.log (repeat "=" 70 ++ LF);;
  mret results.

End Orchestrator.

(** ** The command line: [main] *)

Module Cli.
Import JsString Orchestrator.

(** How [main] ends: with [process.exit(code)], or its promise is
    resolved or rejected. *)
Inductive ending : Type :=
| Exit (code : Z)
| Resolved
| Rejected (e : exn).

(** Lines 198 to 214.  [argv] is [process.argv]; [dirname] is
    [__dirname], an absolute path in normal form, so that
    [path.join(__dirname, "..", name)] is [name] inside the directory
    that holds [__dirname]. *)
Definition main (dirname : string) (argv : list string) (w : World) : ending * World :=
  let args := skipn 2 argv in
  if (length args =? 0)%nat then
    let '(_, w') :=
      (Console.log ("Usage: ts-node orchestrator.ts " ++ DQ ++ "<task description>" ++ DQ);;
       Console.log (LF ++ "Example:");;
       Console.log ("  ts-node orchestrator.ts " ++ DQ ++
                    "Create a REST API with authentication" ++ DQ)) w in
    (Exit 1, w')
  else
    let task := join " " args in
    let instructionsDir := NodePath.join (NodePath.dirname dirname) "instructions" in
    let outputDir := NodePath.join (NodePath.dirname dirname) "outputs" in
    match (orchestrator ← constructor instructionsDir outputDir;
           orchestrate orchestrator task) w with
    | (Ok _, w') => (Resolved, w')
    | (Throw e, w') => (Rejected e, w')
    end.

(** Lines 216 to 221, when the file is the main module: the exit code
    of the process.  [console.error] writes to the standard error
    stream, as [console.warn] does; [inspect] is the text it prints for
    an error. *)
Definition start (inspect : exn -> string) (dirname : string) (argv : list string)
    (w : World) : Z * World :=
  match main dirname argv w with
  | (Exit code, w') => (code, w')
  | (Resolved, w') => (0%Z, w')
  | (Rejected e, w') => (1%Z, print (Warn ("Error: " ++ inspect e)) w')
  end.

End Cli.

(** * Specification vocabulary

    The definitions below are not part of the program: they name what
    the statements about it speak of. *)

(** ** The context accumulator (lines 99 to 108), as the specification
    words it *)

Module Accumulator.
Import JsString Orchestrator.

(** The block of one earlier phase. *)
Definition block (e : string * string) : string :=
  LF ++ "### " ++ toUpperCase (fst e) ++ " Phase:" ++ LF ++ preview (snd e) ++ LF.

Fixpoint blocks (prior : list (string * string)) : string :=
  match prior with
  | [] => EmptyString
  | e :: r => block e ++ blocks r
  end.

(** The payload: the task text, then the blocks of the earlier phases
    under one heading (nothing at all when there is no earlier phase),
    then the instructions. *)
Definition assemble (task : string) (prior : list (string * string))
    (instructions : string) : string :=
  task ++
  match prior with
  | [] => EmptyString
  | _ => LF ++ LF ++ "## Context from Previous Phases:" ++ LF ++ blocks prior
  end ++
  LF ++ LF ++ "## Phase Instructions:" ++ LF ++ instructions.

Definition entries_of (previousResults : option (list (string * string)))
    : list (string * string) :=
  match previousResults with
  | Some entries => entries
  | None => []
  end.

End Accumulator.

(** ** Paths and time stamps *)

Fixpoint no_slash (s : string) : bool :=
  match s with
  | EmptyString => true
  | String c r => negb (Ascii.eqb c "/") && no_slash r
  end.

(** The last unit of a string. *)
Fixpoint last_unit (s : string) : option ascii :=
  match s with
  | EmptyString => None
  | String c r => match last_unit r with Some x => Some x | None => Some c end
  end.

(** The time stamp inside a file name. *)
Definition stamp (t : Z) : string :=
  JsString.replaceAll ":" "-" (JsDate.toISOString t).

(** ** The phase executor *)

Module Executor.
Import JsString Orchestrator.

Definition instructionPath (this : MultiPhaseOrchestrator) (ph : string) : string :=
  NodePath.join (instructionsDir this) (ph ++ "-phase.instructions.md").

(** The locator of the record of phase [ph] persisted at time [t]. *)
Definition locator (this : MultiPhaseOrchestrator) (ph : string) (t : Z) : string :=
  NodePath.join (outputDir this) (ph ++ "_" ++ stamp t ++ ".json").

Definition defaultInstructions (ph : string) : string :=
  "Execute the " ++
  replace "-phase.instructions.md" EmptyString (ph ++ "-phase.instructions.md") ++
  " phase of the workflow.".

Definition missingWarning (this : MultiPhaseOrchestrator) (ph : string) : output :=
  Warn ("Instruction file not found: " ++ instructionPath this ph ++
        ", using default instructions").

(** The instructions a phase gets from a file system in which its
    instruction path is not a directory. *)
Definition instructionsFor (this : MultiPhaseOrchestrator) (ph : string)
    (f : gmap string node) : string :=
  match f !! instructionPath this ph with
  | Some (File c) => c
  | _ => defaultInstructions ph
  end.

(** The record of phase [ph] created at time [t]. *)
Definition record (ph : string) (t : Z) : PhaseOutput :=
  mkPhaseOutput ph (JsDate.toISOString t) (placeholder ph) None.

Definition persisted (ph : string) (t : Z) : node :=
  File (stringify_PhaseOutput (record ph t)).

(** A path that [writeFileSync] accepts. *)
Definition writable (f : gmap string node) (p : string) : Prop :=
  f !! p <> Some Dir /\ f !! NodePath.dirname p = Some Dir.

(** The request of phase [ph] to the agent. *)
Definition request (ph prompt : string) : AgentRequest :=
  mkAgentRequest ph (config_model (getAgentConfig ph)) (config_tools (getAgentConfig ph))
    prompt.

(** The state in which a successful [runPhase] leaves the machine. *)
Record post (this : MultiPhaseOrchestrator) (ph desc : string)
    (prev : option (list (string * string))) (w w' : World) : Prop :=
  mkPost {
    post_fs : fs w' = <[locator this ph (clock w (S (ticks w))) :=
                        persisted ph (clock w (ticks w))]> (fs w);
    post_clock : clock w' = clock w;
    post_ticks : ticks w' = S (S (ticks w));
    post_agent : agent w' = (agent w ++
                   [request ph (fullPrompt desc prev (instructionsFor this ph (fs w)))])%list;
    post_console : exists lines, console w' = (console w ++ lines)%list /\
                     (fs w !! instructionPath this ph = None ->
                      In (missingWarning this ph) lines);
    post_phaseResults :
      phaseResults w' = if String.eqb ph "__proto__" then phaseResults w
                        else <[ph := placeholder ph]> (phaseResults w)
  }.

End Executor.

(** ** The controller *)

Module Controller.
Import JsString Orchestrator Executor.

(** The phases of [orchestrate], in the order of its four calls. *)
Definition phases : list string := ["research"; "plan"; "implement"; "correct"].

(** The task descriptions [orchestrate] passes to [runPhase]. *)
Definition researchTask (task : string) : string :=
  "Task: " ++ task ++ LF ++ LF ++
  "Conduct thorough research for this task. Verify assumptions, explore multiple approaches, and document findings.".

Definition planTask (task : string) : string :=
  "Task: " ++ task ++ LF ++ LF ++
  "Based on the research above, create a detailed implementation plan.".

Definition implementTask (task : string) : string :=
  "Task: " ++ task ++ LF ++ LF ++ "Implement the solution following the plan above.".

Definition correctTask (task : string) : string :=
  "Task: " ++ task ++ LF ++ LF ++
  "Review the implementation and create a corrective plan if issues are found.".

(** The entry of a phase in the result maps. *)
Definition entry (ph : string) : string * string := (ph, placeholder ph).

(** A file system on which the phases [phs] meet no input or output
    error: the output directory exists and holds no directory, and the
    instruction path of none of the phases is a directory. *)
Record healthy (this : MultiPhaseOrchestrator) (phs : list string)
    (f : gmap string node) : Prop := mkHealthy {
  out_dir : f !! outputDir this = Some Dir;
  out_flat : forall p, f !! p = Some Dir -> String.prefix (outputDir this ++ "/") p = false;
  instr_ok : forall ph, In ph phs -> f !! instructionPath this ph <> Some Dir
}.

Definition summaryPath (this : MultiPhaseOrchestrator) (t : Z) : string :=
  NodePath.join (outputDir this) ("workflow_summary_" ++ stamp t ++ ".json").

(** The i-th clock reading after the state [w]. *)
Definition reading (w : World) (i : nat) : Z := clock w (ticks w + i).

(** The state in which a successful [orchestrate] leaves the machine:
    phase number k (from 0) reads the clock for its record (reading 2k)
    and for its locator (reading 2k+1), the summary takes reading 8. *)
Record run_post (this : MultiPhaseOrchestrator) (task : string) (w w' : World) : Prop :=
  mkRunPost {
    run_fs :
      fs w' =
      <[summaryPath this (reading w 8) := File (Json.stringify_object (map entry phases))]>
      (<[locator this "correct" (reading w 7) := persisted "correct" (reading w 6)]>
      (<[locator this "implement" (reading w 5) := persisted "implement" (reading w 4)]>
      (<[locator this "plan" (reading w 3) := persisted "plan" (reading w 2)]>
      (<[locator this "research" (reading w 1) := persisted "research" (reading w 0)]>
         (fs w)))));
    run_clock : clock w' = clock w;
    run_ticks : ticks w' = (ticks w + 9)%nat;
    run_agent :
      agent w' =
      (agent w ++
       [request "research"
          (fullPrompt (researchTask task) None
             (instructionsFor this "research" (fs w)));
        request "plan"
          (fullPrompt (planTask task) (Some [entry "research"])
             (instructionsFor this "plan" (fs w)));
        request "implement"
          (fullPrompt (implementTask task) (Some [entry "research"; entry "plan"])
             (instructionsFor this "implement" (fs w)));
        request "correct"
          (fullPrompt (correctTask task)
             (Some [entry "research"; entry "plan"; entry "implement"])
             (instructionsFor this "correct" (fs w)))])%list
  }.

End Controller.

(** ** The calendar *)

Module Calendar.
Import JsDate.
Local Open Scope Z_scope.

(** The date of the day number [doe] of an era, years counted from the
    start of the era. *)
Definition era_date (doe : Z) : Z * Z * Z :=
  let yoe := (doe - doe / 1460 + doe / 36524 - doe / 146096) / 365 in
  let doy := doe - (365 * yoe + yoe / 4 - yoe / 100) in
  let mp := (5 * doy + 2) / 153 in
  let d := doy - (153 * mp + 2) / 5 + 1 in
  let m := if mp <? 10 then mp + 3 else mp - 9 in
  (yoe + (if m <=? 2 then 1 else 0), m, d).

Definition date_ltb (a b : Z * Z * Z) : bool :=
  let '(y1, m1, d1) := a in
  let '(y2, m2, d2) := b in
  (y1 <? y2) || ((y1 =? y2) && ((m1 <? m2) || ((m1 =? m2) && (d1 <? d2)))).

Definition add_years (k : Z) (a : Z * Z * Z) : Z * Z * Z :=
  let '(y, m, d) := a in (y + k, m, d).

(** The date of the day after day [doe] of an era. *)
Definition next_in_era (doe : Z) : Z * Z * Z :=
  if doe + 1 <? 146097 then era_date (doe + 1) else add_years 400 (era_date 0).

(** What is checked of each of the 146097 days of an era: the next day
    has a later date, and month and day are in range. *)
Definition era_check (doe : Z) : bool :=
  let '(y, m, d) := era_date doe in
  date_ltb (era_date doe) (next_in_era doe)
  && (0 <=? y) && (y <=? 400) && (1 <=? m) && (m <=? 12) && (1 <=? d) && (d <=? 31).

Fixpoint all_from (fuel : nat) (x : Z) (f : Z -> bool) : bool :=
  match fuel with
  | O => true
  | S k => f x && all_from k (x + 1) f
  end.

Definition then_ (c k : comparison) : comparison :=
  match c with Eq => k | _ => c end.

(** The fields of a time stamp printed with fixed widths. *)
Definition render (sep : ascii) (y m d h mi s ms : Z) : string :=
  (pad 4 y ++ "-" ++ pad 2 m ++ "-" ++ pad 2 d ++ "T" ++
   pad 2 h ++ String sep (pad 2 mi ++ String sep (pad 2 s ++ "." ++ pad 3 ms ++ "Z")))%string.

(** The instants of the years 0 to 9999, which print with a four-digit
    year. *)
Definition valid_time (t : Z) : Prop :=
  -62167219200000 <= t < 253402300800000.

Definition fields (t : Z) : Z * Z * Z * (Z * Z * Z * Z) :=
  let r := t mod msPerDay in
  (civil_from_days (t / msPerDay), (r / 3600000, r / 60000 mod 60, r / 1000 mod 60, r mod 1000)).

Definition render_fields (sep : ascii) (f : Z * Z * Z * (Z * Z * Z * Z)) : string :=
  let '((y, m, d), (h, mi, s, ms)) := f in render sep y m d h mi s ms.

Definition fields_compare (f g : Z * Z * Z * (Z * Z * Z * Z)) : comparison :=
  let '((y1, m1, d1), (h1, mi1, s1, ms1)) := f in
  let '((y2, m2, d2), (h2, mi2, s2, ms2)) := g in
  then_ (y1 ?= y2) (then_ (m1 ?= m2) (then_ (d1 ?= d2)
    (then_ (h1 ?= h2) (then_ (mi1 ?= mi2) (then_ (s1 ?= s2) (ms1 ?= ms2)))))).

Definition fields_ok (f : Z * Z * Z * (Z * Z * Z * Z)) : Prop :=
  let '((y, m, d), (h, mi, s, ms)) := f in
  0 <= y <= 9999 /\ 0 <= m <= 99 /\ 0 <= d <= 99 /\ 0 <= h <= 99 /\
  0 <= mi <= 99 /\ 0 <= s <= 99 /\ 0 <= ms <= 999.

End Calendar.

(** ** Sample machines *)

Module Demo.
Import Orchestrator.

Definition this : MultiPhaseOrchestrator := mkOrchestrator "instructions" "outputs".

(** A clock that advances by one millisecond per reading, and one that
    stands still (all readings within one millisecond). *)
Definition ticking (i : nat) : Z := (Z.of_nat i + 1767875400123)%Z.

Definition frozen (i : nat) : Z := 1767875400123%Z.

(** The machine after [new MultiPhaseOrchestrator("instructions",
    "outputs")] on an empty file system. *)
Definition world (clk : nat -> Z) : World :=
  mkWorld {["outputs" := Dir]} clk 0 [] [] ∅.

(** The same with a directory where the instructions of [implement] are
    looked for. *)
Definition unreadable (clk : nat -> Z) : World :=
  mkWorld (<["instructions/implement-phase.instructions.md" := Dir]> {["outputs" := Dir]})
    clk 0 [] [] ∅.

End Demo.

(** ** Runs and their failures *)

Module Run.
Import JsString Orchestrator Executor Controller.

(** The errors of the file system that a read or a write can raise. *)
Definition io_error (e : exn) : Prop :=
  match e with
  | EISDIR _ | ENOTDIR _ | ENOENT _ => True
  | _ => False
  end.

(** The three ways in which [runPhase] fails, with what has happened by
    then. *)
Inductive failure (this : MultiPhaseOrchestrator) (ph desc : string)
    (prev : option (list (string * string))) (w : World) (e : exn) (w' : World) : Prop :=
| unreadable_instructions :
    e = EISDIR (instructionPath this ph) ->
    fs w !! instructionPath this ph = Some Dir ->
    ticks w' = ticks w -> agent w' = agent w ->
    failure this ph desc prev w e w'
| inherited_configuration :
    e = TypeError "Cannot read properties of undefined (reading 'join')" ->
    fs w !! instructionPath this ph <> Some Dir ->
    JsObject.inherited ph = true ->
    ticks w' = S (ticks w) -> agent w' = agent w ->
    failure this ph desc prev w e w'
| unwritable_record :
    let loc := locator this ph (clock w (S (ticks w))) in
    ((e = EISDIR loc /\ fs w !! loc = Some Dir) \/
     (e = ENOTDIR loc /\ exists x, fs w !! NodePath.dirname loc = Some (File x)) \/
     (e = ENOENT loc /\ fs w !! NodePath.dirname loc = None)) ->
    fs w !! instructionPath this ph <> Some Dir ->
    JsObject.inherited ph = false ->
    ticks w' = S (S (ticks w)) ->
    agent w' = (agent w ++
                [request ph (fullPrompt desc prev (instructionsFor this ph (fs w)))])%list ->
    failure this ph desc prev w e w'.

(** The records a run persists, with their locators, in the order of the
    writes. *)
Definition record_writes (this : MultiPhaseOrchestrator) (w : World) : list (string * node) :=
  [(locator this "research" (reading w 1), persisted "research" (reading w 0));
   (locator this "plan" (reading w 3), persisted "plan" (reading w 2));
   (locator this "implement" (reading w 5), persisted "implement" (reading w 4));
   (locator this "correct" (reading w 7), persisted "correct" (reading w 6))].

Definition write_all (f : gmap string node) (l : list (string * node)) : gmap string node :=
  fold_left (fun f kv => <[fst kv := snd kv]> f) l f.

(** The five paths a run writes to. *)
Definition targets (this : MultiPhaseOrchestrator) (w : World) : list string :=
  map fst (record_writes this w) ++ [summaryPath this (reading w 8)].

(** What a run needs of the machine it starts on: the output directory
    is a directory, and neither the four instruction paths nor the five
    paths written to are directories. *)
Record ready (this : MultiPhaseOrchestrator) (w : World) : Prop := mkReady {
  ready_out : fs w !! outputDir this = Some Dir;
  ready_instr : forall ph, In ph phases -> fs w !! instructionPath this ph <> Some Dir;
  ready_targets : forall p, In p (targets this w) -> fs w !! p <> Some Dir
}.

(** The same conditions as the run meets them, each on the file system
    left by the writes before. *)
Definition step_ok (this : MultiPhaseOrchestrator) (w : World) (k : nat) (ph : string) : Prop :=
  let f := write_all (fs w) (take k (record_writes this w)) in
  f !! instructionPath this ph <> Some Dir /\
  writable f (locator this ph (reading w (2 * k + 1))).

Definition steps_ok (this : MultiPhaseOrchestrator) (w : World) : Prop :=
  step_ok this w 0 "research" /\ step_ok this w 1 "plan" /\
  step_ok this w 2 "implement" /\ step_ok this w 3 "correct" /\
  writable (write_all (fs w) (record_writes this w)) (summaryPath this (reading w 8)).

(** Directories for which the paths of the program are what
    [path.join] returns (see [paths_faithful]). *)
Definition plain_dirs (this : MultiPhaseOrchestrator) : Prop :=
  PosixPath.simple (instructionsDir this) = true /\
  PosixPath.simple (outputDir this) = true.

(** The orchestrator that [main] constructs. *)
Definition orchestrator (dirname : string) : MultiPhaseOrchestrator :=
  mkOrchestrator (NodePath.join (NodePath.dirname dirname) "instructions")
                 (NodePath.join (NodePath.dirname dirname) "outputs").

End Run.

(** ** Texts *)

Module Text.

(** [s.includes(pat)]. *)
Fixpoint occurs (pat s : string) : bool :=
  String.prefix pat s ||
  match s with
  | EmptyString => false
  | String _ r => occurs pat r
  end.

Fixpoint has_unit (a : ascii) (s : string) : bool :=
  match s with
  | EmptyString => false
  | String c r => Ascii.eqb c a || has_unit a r
  end.

(** The room that the blocks of the earlier phases take at most in a
    prompt: for each, its name in upper case and 1017 units for the
    frame and the preview. *)
Fixpoint budget (prior : list (string * string)) : nat :=
  match prior with
  | [] => 0
  | e :: r => String.length (JsString.toUpperCase (fst e)) + 1017 + budget r
  end.

End Text.

(** ** More sample machines *)

Module Trial.
Import Orchestrator.

(** A machine with an empty file system. *)
Definition bare (clk : nat -> Z) : World := mkWorld ∅ clk 0 [] [] ∅.

(** A machine with a file in the place of the output directory. *)
Definition blocked (clk : nat -> Z) : World :=
  mkWorld {["outputs" := File "x"]} clk 0 [] [] ∅.

(** The same for the program installed in [/app/src]. *)
Definition blocked_app (clk : nat -> Z) : World :=
  mkWorld {["/app/outputs" := File "x"]} clk 0 [] [] ∅.

(** A machine on which the record of [implement] cannot be written: a
    directory stands at its locator (the sixth reading of the ticking
    clock). *)
Definition unwritable : World :=
  mkWorld (<["outputs/implement_2026-01-08T12-30-00.128Z.json" := Dir]> {["outputs" := Dir]})
    Demo.ticking 0 [] [] ∅.

(** A machine that has a working directory and nothing else. *)
Definition fresh (clk : nat -> Z) : World := mkWorld {["." := Dir]} clk 0 [] [] ∅.

Definition argv : list string := ["node"; "orchestrator.ts"; "build"; "X"].

Definition inspect (e : exn) : string :=
  match e with
  | ENOENT p => "ENOENT: no such file or directory, open '" ++ p ++ "'"
  | EISDIR p => "EISDIR: illegal operation on a directory, open '" ++ p ++ "'"
  | ENOTDIR p => "ENOTDIR: not a directory, open '" ++ p ++ "'"
  | EEXIST p => "EEXIST: file already exists, mkdir '" ++ p ++ "'"
  | TypeError m => "TypeError: " ++ m
  end.

End Trial.

(** * Facts *)

(** ** Facts about strings *)

Section StringFacts.

Lemma app_cons (x : ascii) (a b : string) : String x a ++ b = String x (a ++ b).
Proof. reflexivity. Qed.

Lemma app_nil_l (s : string) : EmptyString ++ s = s.
Proof. reflexivity. Qed.

Lemma app_nil_r (s : string) : s ++ EmptyString = s.
Proof. induction s as [|c s IH]; [done | by rewrite app_cons, IH]. Qed.

Lemma app_assoc (a b c : string) : (a ++ b) ++ c = a ++ b ++ c.
Proof. induction a as [|x a IH]; [done | by rewrite !app_cons, IH]. Qed.

Lemma length_app (a b : string) :
  String.length (a ++ b) = (String.length a + String.length b)%nat.
Proof. induction a as [|x a IH]; [done | by rewrite app_cons; cbn; rewrite IH]. Qed.

Lemma substring_0_all (n : nat) (s : string) :
  (String.length s <= n)%nat -> String.substring 0 n s = s.
Proof.
  revert n. induction s as [|c s IH]; intros [|n] H; cbn in *; try done; try lia.
  rewrite IH; [done | lia].
Qed.

Lemma length_substring_0 (n : nat) (s : string) :
  String.length (String.substring 0 n s) = Nat.min n (String.length s).
Proof.
  revert n. induction s as [|c s IH]; intros [|n]; cbn; try done.
  by rewrite IH.
Qed.

Lemma prefix_app (a b : string) : String.prefix a (a ++ b) = true.
Proof.
  induction a as [|x a IH]; [by destruct b |].
  rewrite app_cons. cbn. destruct (ascii_dec x x); [done | congruence].
Qed.

Lemma prefix_substring_0 (n : nat) (s : string) :
  String.prefix (String.substring 0 n s) s = true.
Proof.
  revert n. induction s as [|c s IH]; intros [|n]; cbn; try done.
  destruct (ascii_dec c c); [apply IH | congruence].
Qed.

Lemma app_neq_self (a b : string) : b <> EmptyString -> a ++ b <> a.
Proof.
  intros Hb H. apply (f_equal String.length) in H. rewrite length_app in H.
  destruct b; [done | cbn in H; lia].
Qed.

End StringFacts.

(** ** The context accumulator *)

Section AccumulatorFacts.
Import JsString Orchestrator Accumulator.

Lemma fold_blocks (prior : list (string * string)) (acc : string) :
  fold_left
    (fun acc '(prevPhase, result) =>
       acc ++ LF ++ "### " ++ toUpperCase prevPhase ++ " Phase:" ++ LF ++
       preview result ++ LF)
    prior acc
  = acc ++ blocks prior.
Proof.
  revert acc. induction prior as [|[p r] prior IH]; intros acc; cbn [fold_left blocks].
  - by rewrite app_nil_r.
  - rewrite IH. unfold block. cbn [fst snd]. by rewrite app_assoc.
Qed.

Lemma fullPrompt_assemble (taskDescription : string)
    (previousResults : option (list (string * string))) (phaseInstructions : string) :
  fullPrompt taskDescription previousResults phaseInstructions
  = assemble taskDescription (entries_of previousResults) phaseInstructions.
Proof.
  unfold fullPrompt, assemble.
  destruct previousResults as [[|e r]|]; try reflexivity.
  change (0 <? length (JsObject.keys (e :: r)))%nat with true. cbv iota.
  rewrite fold_blocks. unfold entries_of. by rewrite !app_assoc.
Qed.

End AccumulatorFacts.

(** ** Paths *)

Section PathFacts.

Lemma no_slash_app (a b : string) : no_slash (a ++ b) = no_slash a && no_slash b.
Proof.
  induction a as [|x a IH]; [done |].
  rewrite app_cons. cbn. rewrite IH. by rewrite andb_assoc.
Qed.

Lemma split_last_no_slash (s : string) :
  no_slash s = true -> NodePath.split_last s = None.
Proof.
  induction s as [|c s IH]; [done |]. cbn. intros [Hc Hs]%andb_prop.
  rewrite (IH Hs). by destruct (Ascii.eqb c "/").
Qed.

Lemma split_last_join (d n : string) :
  no_slash n = true -> NodePath.split_last (d ++ "/" ++ n) = Some d.
Proof.
  intros Hn. induction d as [|c d IH].
  - rewrite app_nil_l, app_cons, app_nil_l. cbn. by rewrite (split_last_no_slash n Hn).
  - rewrite app_cons. cbn. by rewrite IH.
Qed.

Lemma dirname_join (d n : string) :
  no_slash n = true -> NodePath.dirname (NodePath.join d n) = d.
Proof.
  intros Hn. unfold NodePath.dirname, NodePath.join. by rewrite split_last_join.
Qed.

Lemma join_neq_dir (d n : string) : NodePath.join d n <> d.
Proof. unfold NodePath.join. by apply app_neq_self. Qed.

Lemma join_inj (d a b : string) : NodePath.join d a = NodePath.join d b -> a = b.
Proof.
  unfold NodePath.join. intros H. apply String.app_inj in H.
  rewrite !app_cons, !app_nil_l in H. congruence.
Qed.

Lemma prefix_join (d n : string) : String.prefix (d ++ "/") (NodePath.join d n) = true.
Proof. unfold NodePath.join. rewrite <- app_assoc. apply prefix_app. Qed.

End PathFacts.

(** ** Time stamps *)

Section StampFacts.
Import JsDate.

Lemma digit_range (n : Z) : exists k, (k < 10)%nat /\ digit n = ascii_of_nat (48 + k).
Proof.
  exists (Z.to_nat (n mod 10)). split; [|done].
  pose proof (Z.mod_pos_bound n 10 ltac:(lia)). lia.
Qed.

Lemma no_slash_pad (w : nat) (n : Z) : no_slash (pad w n) = true.
Proof.
  revert n. induction w as [|w IH]; intros n; [done |].
  cbn [pad]. rewrite no_slash_app, IH.
  destruct (digit_range n) as (k & Hk & ->).
  do 10 (destruct k as [|k]; [done |]). lia.
Qed.

Lemma no_slash_year (y : Z) : no_slash (year_string y) = true.
Proof.
  unfold year_string. repeat case_match; by rewrite ?no_slash_app, ?no_slash_pad.
Qed.

Lemma no_slash_toISOString (t : Z) : no_slash (toISOString t) = true.
Proof.
  unfold toISOString. destruct (civil_from_days _) as [[y m] d].
  repeat (rewrite ?no_slash_app, ?no_slash_pad, ?no_slash_year; cbn [andb]).
  done.
Qed.

Lemma no_slash_replaceAll (c : ascii) (s : string) :
  no_slash s = true -> no_slash (JsString.replaceAll c "-" s) = true.
Proof.
  induction s as [|x s IH]; [done |]. cbn. intros [Hx Hs]%andb_prop.
  rewrite (IH Hs), andb_true_r. by destruct (Ascii.eqb x c).
Qed.

Lemma no_slash_stamp (t : Z) : no_slash (stamp t) = true.
Proof. apply no_slash_replaceAll, no_slash_toISOString. Qed.

End StampFacts.

(** ** The phase executor: [loadInstructionFile], [savePhaseOutput], [runPhase] *)

Lemma bind_ok {A B : Type} (m : M A) (k : A -> M B) (w w' : World) (a : A) :
  m w = (Ok a, w') -> (m ≫= k) w = k a w'.
Proof. intros H. unfold mbind, M_bind. by rewrite H. Qed.

Lemma bind_throw {A B : Type} (m : M A) (k : A -> M B) (w w' : World) (e : exn) :
  m w = (Throw e, w') -> (m ≫= k) w = (Throw e, w').
Proof. intros H. unfold mbind, M_bind. by rewrite H. Qed.

(** A computation whose outcome evaluates to a value returns it. *)
Lemma returns_eq {A : Type} (m : M A) (w : World) (a : A) :
  fst (m w) = Ok a -> m w = (Ok a, snd (m w)).
Proof. destruct (m w) as [o w']. cbn. by intros ->. Qed.

(** One step of a computation whose first action returns by computation. *)
Ltac step := erewrite bind_ok by reflexivity.

Section ExecutorFacts.
Import JsString Orchestrator Executor.

Local Arguments JsDate.toISOString : simpl never.
Local Arguments replaceAll : simpl never.
Local Arguments replace : simpl never.
Local Arguments toUpperCase : simpl never.
Local Arguments repeat : simpl never.
Local Arguments placeholder : simpl never.
Local Arguments fullPrompt : simpl never.
Local Arguments stringify_PhaseOutput : simpl never.
Local Arguments NodePath.join : simpl never.
Local Arguments NodePath.dirname : simpl never.
Local Arguments getAgentConfig : simpl never.
Local Arguments substring : simpl never.
Local Arguments String.eqb : simpl never.
Local Arguments join : simpl never.

Lemma loadInstructionFile_missing this ph w :
  fs w !! instructionPath this ph = None ->
  loadInstructionFile this (ph ++ "-phase.instructions.md") w
  = (Ok (defaultInstructions ph), print (missingWarning this ph) w).
Proof.
  intros H. unfold loadInstructionFile. fold (instructionPath this ph).
  unfold mbind, M_bind, NodeFs.existsSync. rewrite H. reflexivity.
Qed.

Lemma loadInstructionFile_file this ph w c :
  fs w !! instructionPath this ph = Some (File c) ->
  loadInstructionFile this (ph ++ "-phase.instructions.md") w = (Ok c, w).
Proof.
  intros H. unfold loadInstructionFile. fold (instructionPath this ph).
  unfold mbind, M_bind, NodeFs.existsSync, NodeFs.readFileSync. rewrite H. cbn.
  by rewrite H.
Qed.

Lemma loadInstructionFile_dir this ph w :
  fs w !! instructionPath this ph = Some Dir ->
  loadInstructionFile this (ph ++ "-phase.instructions.md") w
  = (Throw (EISDIR (instructionPath this ph)), w).
Proof.
  intros H. unfold loadInstructionFile. fold (instructionPath this ph).
  unfold mbind, M_bind, NodeFs.existsSync, NodeFs.readFileSync. rewrite H. cbn.
  by rewrite H.
Qed.

(** The load never changes anything but the console, and yields
    [instructionsFor] whenever it returns. *)
Lemma loadInstructionFile_cases this ph w :
  (fs w !! instructionPath this ph <> Some Dir /\
   exists w', loadInstructionFile this (ph ++ "-phase.instructions.md") w
              = (Ok (instructionsFor this ph (fs w)), w') /\
     fs w' = fs w /\ clock w' = clock w /\ ticks w' = ticks w /\
     agent w' = agent w /\ phaseResults w' = phaseResults w /\
     exists lines, console w' = (console w ++ lines)%list /\
       (fs w !! instructionPath this ph = None -> In (missingWarning this ph) lines))
  \/ (fs w !! instructionPath this ph = Some Dir /\
      loadInstructionFile this (ph ++ "-phase.instructions.md") w
      = (Throw (EISDIR (instructionPath this ph)), w)).
Proof.
  unfold instructionsFor.
  destruct (fs w !! instructionPath this ph) as [[c|]|] eqn:H.
  - left. split; [done |]. exists w. rewrite (loadInstructionFile_file _ _ _ c H).
    repeat split; try done. exists []. by rewrite List.app_nil_r.
  - right. split; [done |]. by apply loadInstructionFile_dir.
  - left. split; [done |]. eexists. rewrite (loadInstructionFile_missing _ _ _ H).
    repeat split; try done. eexists. split; [reflexivity |]. intros _. by left.
Qed.

(** [savePhaseOutput] reads the clock once and writes to the locator of
    that reading, or fails at the write. *)
Lemma savePhaseOutput_cases this po w :
  let loc := locator this (phase po) (clock w (ticks w)) in
  (writable (fs w) loc /\
   savePhaseOutput this po w
   = (Ok loc, NodeFs.set_fs (<[loc := File (stringify_PhaseOutput po)]> (fs w)) (tick w)))
  \/ (~ writable (fs w) loc /\
      exists e, savePhaseOutput this po w = (Throw e, tick w)).
Proof.
  intros loc.
  assert (Hsave : savePhaseOutput this po w =
    match NodeFs.writeFileSync loc (stringify_PhaseOutput po) (tick w) with
    | (Ok _, w') => (Ok loc, w')
    | (Throw e, w') => (Throw e, w')
    end).
  { unfold savePhaseOutput, mbind, M_bind, Date_now, mret, M_ret.
    subst loc. unfold locator, stamp. cbv beta iota zeta. reflexivity. }
  rewrite Hsave. unfold NodeFs.writeFileSync, writable. cbn [fs tick].
  destruct (fs w !! loc) as [[c|]|] eqn:Hl;
    destruct (fs w !! NodePath.dirname loc) as [[c'|]|] eqn:Hd;
    first [ left; split; [split; congruence | reflexivity]
          | right; split; [intros [? ?]; congruence | eexists; reflexivity] ].
Qed.

(** The lookup gives a configuration, or the inherited member for one of
    the names of [Object.prototype]. *)
Lemma getAgentConfig_cases (ph : string) :
  (exists c, getAgentConfig ph = Config c /\ JsObject.inherited ph = false)
  \/ (getAgentConfig ph = Inherited ph /\ JsObject.inherited ph = true).
Proof.
  unfold getAgentConfig. destruct (configs !! ph) as [c|] eqn:H.
  - left. exists c. split; [done |].
    unfold configs in H. apply elem_of_list_to_map_2 in H.
    repeat (apply elem_of_cons in H as [H|H]; [by simplify_eq |]).
    by apply elem_of_nil in H.
  - destruct (JsObject.inherited ph) eqn:Hi; [by right | left; eauto].
Qed.

(** Every run of [runPhase]: it returns the placeholder and leaves the
    machine as [post] says, or it throws and leaves the file system as
    it was. *)
Lemma runPhase_cases this ph desc prev w :
  let loc := locator this ph (clock w (S (ticks w))) in
  (exists c w',
      fs w !! instructionPath this ph <> Some Dir /\
      getAgentConfig ph = Config c /\ JsObject.inherited ph = false /\
      writable (fs w) loc /\
      runPhase this ph desc prev w = (Ok (placeholder ph), w') /\
      post this ph desc prev w w')
  \/ (exists e w',
        runPhase this ph desc prev w = (Throw e, w') /\ fs w' = fs w /\
        (fs w !! instructionPath this ph = Some Dir \/
         JsObject.inherited ph = true \/
         ~ writable (fs w) loc)).
Proof.
  intros loc. unfold runPhase. do 3 step.
  match goal with |- context [(_ ≫= _) ?x] => set (w3 := x) end.
  destruct (loadInstructionFile_cases this ph w3)
    as [(Hnd & w4 & Hload & Hfs & Hclock & Hticks & Hagent & Hres & lines & Hcon & Hwarn)
       |(Hd & Hload)].
  2:{ right. erewrite bind_throw by exact Hload. do 2 eexists.
      split; [reflexivity |]. split; [done |]. by left. }
  erewrite bind_ok by exact Hload. do 3 step.
  change (fs w3) with (fs w) in *. change (clock w3) with (clock w) in *.
  change (ticks w3) with (ticks w) in *. change (agent w3) with (agent w) in *.
  change (phaseResults w3) with (phaseResults w) in *.
  destruct (getAgentConfig_cases ph) as [(c & Hc & Hinh)|(Hc & Hinh)]; rewrite Hc.
  2:{ right. erewrite bind_throw by reflexivity. do 2 eexists.
      split; [reflexivity |]. split; [done |]. right. by left. }
  do 5 step.
  match goal with |- context [(savePhaseOutput _ ?po ≫= _) ?w5] =>
    destruct (savePhaseOutput_cases this po w5) as [[Hw Hsave]|[Hw [e Hsave]]];
    cbn [phase fs clock ticks tick print simulate_agent] in Hw
  end.
  all: rewrite ?Hfs, ?Hclock, ?Hticks in Hw.
  2:{ right. erewrite bind_throw by exact Hsave. do 2 eexists.
      split; [reflexivity |]. cbn. split; [done |]. right. by right. }
  left. erewrite bind_ok by exact Hsave. do 3 step.
  exists c. eexists. do 4 (split; [done |]). split; [reflexivity |].
  split; cbn; rewrite ?Hfs, ?Hclock, ?Hticks, ?Hagent, ?Hres; try done.
  { unfold request. by rewrite Hc. }
  rewrite Hcon. cbn. eexists. split.
  - rewrite <- !List.app_assoc. reflexivity.
  - intros Hn. specialize (Hwarn Hn). rewrite !in_app_iff. tauto.
Qed.

End ExecutorFacts.

(** ** The controller: [orchestrate] *)

Section ControllerFacts.
Import JsString Orchestrator Executor Controller.

Lemma healthy_writable this phs f name :
  healthy this phs f -> no_slash name = true ->
  writable f (NodePath.join (outputDir this) name).
Proof.
  intros [Hd Hflat _] Hn. split.
  - intros H. apply Hflat in H. by rewrite prefix_join in H.
  - by rewrite dirname_join.
Qed.

(** Writing a file into the output directory keeps the file system
    healthy. *)
Lemma healthy_insert this phs f name c :
  healthy this phs f ->
  healthy this phs (<[NodePath.join (outputDir this) name := File c]> f).
Proof.
  intros [Hd Hflat Hi]. split.
  - rewrite lookup_insert_ne; [done | apply join_neq_dir].
  - intros p. rewrite lookup_insert. case_decide; [done | apply Hflat].
  - intros ph Hph. rewrite lookup_insert. case_decide; [done | by apply Hi].
Qed.

Lemma no_slash_record_name ph t :
  no_slash ph = true -> no_slash (ph ++ "_" ++ stamp t ++ ".json") = true.
Proof. intros H. by rewrite !no_slash_app, H, no_slash_stamp. Qed.

Lemma phases_inherited ph : In ph phases -> JsObject.inherited ph = false.
Proof. intros H. repeat (destruct H as [<-|H]; [done |]). done. Qed.

Lemma phases_no_slash ph : In ph phases -> no_slash ph = true.
Proof. intros H. repeat (destruct H as [<-|H]; [done |]). done. Qed.

(** On a healthy file system a phase of the pipeline runs to its end. *)
Lemma runPhase_healthy this phs ph desc prev w :
  healthy this phs (fs w) -> In ph phs -> In ph phases ->
  exists w', runPhase this ph desc prev w = (Ok (placeholder ph), w') /\
             post this ph desc prev w w' /\ healthy this phs (fs w').
Proof.
  intros Hh Hin Hph.
  destruct (runPhase_cases this ph desc prev w)
    as [(c & w' & _ & _ & _ & _ & Hrun & Hpost)|(e & w' & _ & _ & [H|[H|H]])].
  - exists w'. do 2 (split; [done |]). rewrite (post_fs _ _ _ _ _ _ Hpost).
    by apply healthy_insert.
  - by apply (instr_ok _ _ _ Hh) in H.
  - by rewrite (phases_inherited _ Hph) in H.
  - destruct H. apply (healthy_writable _ phs); [done |].
    by apply no_slash_record_name, phases_no_slash.
Qed.

Lemma last_unit_app (a b : string) :
  b <> EmptyString -> last_unit (a ++ b) = last_unit b.
Proof.
  intros Hb. induction a as [|x a IH]; [done |].
  rewrite app_cons. cbn. rewrite IH. destruct b; [done |]. cbn.
  by destruct (last_unit b).
Qed.

(** A record ends in [.json], an instruction file in [.md]. *)
Lemma locator_neq_instructionPath this ph t ph' :
  locator this ph t <> instructionPath this ph'.
Proof.
  unfold locator, instructionPath, NodePath.join. intros H.
  apply (f_equal last_unit) in H.
  rewrite <- !app_assoc in H.
  rewrite (last_unit_app _ ".json"), (last_unit_app _ "-phase.instructions.md") in H; done.
Qed.

Lemma instructionsFor_insert this ph ph' t n f :
  instructionsFor this ph' (<[locator this ph t := n]> f) = instructionsFor this ph' f.
Proof.
  unfold instructionsFor. rewrite lookup_insert_ne; [done |].
  apply locator_neq_instructionPath.
Qed.

Lemma writeFileSync_ok p c w :
  writable (fs w) p ->
  NodeFs.writeFileSync p c w = (Ok tt, NodeFs.set_fs (<[p := File c]> (fs w)) w).
Proof.
  intros [Hp Hd]. unfold NodeFs.writeFileSync. rewrite Hd.
  by destruct (fs w !! p) as [[|]|].
Qed.

Local Arguments JsDate.toISOString : simpl never.
Local Arguments placeholder : simpl never.
Local Arguments fullPrompt : simpl never.

(** On a healthy file system [orchestrate] runs to its end. *)
Lemma orchestrate_healthy this task w :
  healthy this phases (fs w) ->
  exists w', orchestrate this task w = (Ok (map entry phases), w') /\
             run_post this task w w'.
Proof.
  intros Hh. unfold orchestrate. do 7 step.
  match goal with |- context [(runPhase _ _ ?d ?p ≫= _) ?x] =>
    destruct (runPhase_healthy this phases "research" d p x) as (w1 & Hrun1 & Hp1 & Hh1);
      [exact Hh | cbn; tauto | cbn; tauto |]
  end.
  erewrite bind_ok by exact Hrun1. step.
  match goal with |- context [(runPhase _ _ ?d ?p ≫= _) ?x] =>
    destruct (runPhase_healthy this phases "plan" d p x) as (w2 & Hrun2 & Hp2 & Hh2);
      [exact Hh1 | cbn; tauto | cbn; tauto |]
  end.
  erewrite bind_ok by exact Hrun2. step.
  match goal with |- context [(runPhase _ _ ?d ?p ≫= _) ?x] =>
    destruct (runPhase_healthy this phases "implement" d p x) as (w3 & Hrun3 & Hp3 & Hh3);
      [exact Hh2 | cbn; tauto | cbn; tauto |]
  end.
  erewrite bind_ok by exact Hrun3. step.
  match goal with |- context [(runPhase _ _ ?d ?p ≫= _) ?x] =>
    destruct (runPhase_healthy this phases "correct" d p x) as (w4 & Hrun4 & Hp4 & Hh4);
      [exact Hh3 | cbn; tauto | cbn; tauto |]
  end.
  erewrite bind_ok by exact Hrun4. step.
  erewrite bind_ok.
  2:{ apply writeFileSync_ok. apply (healthy_writable _ phases); [exact Hh4 |].
      exact (no_slash_record_name "workflow_summary" _ eq_refl). }
  do 4 step.
  destruct Hp1 as [F1 C1 T1 A1 _ _], Hp2 as [F2 C2 T2 A2 _ _],
           Hp3 as [F3 C3 T3 A3 _ _], Hp4 as [F4 C4 T4 A4 _ _].
  cbn [fs clock ticks agent print] in *.
  eexists. split; [reflexivity |].
  split; unfold reading; cbn [fs clock ticks agent print tick NodeFs.set_fs].
  - rewrite F4, F3, F2, F1, C4, C3, C2, C1, T4, T3, T2, T1.
    unfold summaryPath, persisted.
    replace (ticks w + 0)%nat with (ticks w) by lia.
    replace (ticks w + 1)%nat with (S (ticks w)) by lia.
    replace (ticks w + 2)%nat with (S (S (ticks w))) by lia.
    replace (ticks w + 3)%nat with (S (S (S (ticks w)))) by lia.
    replace (ticks w + 4)%nat with (S (S (S (S (ticks w))))) by lia.
    replace (ticks w + 5)%nat with (S (S (S (S (S (ticks w)))))) by lia.
    replace (ticks w + 6)%nat with (S (S (S (S (S (S (ticks w))))))) by lia.
    replace (ticks w + 7)%nat with (S (S (S (S (S (S (S (ticks w)))))))) by lia.
    replace (ticks w + 8)%nat with (S (S (S (S (S (S (S (S (ticks w))))))))) by lia.
    reflexivity.
  - by rewrite C4, C3, C2, C1.
  - rewrite T4, T3, T2, T1. lia.
  - rewrite A4, A3, A2, A1, F3, F2, F1, !instructionsFor_insert.
    rewrite <- !List.app_assoc. reflexivity.
Qed.

End ControllerFacts.

(** ** The calendar: printed instants are ordered as the instants *)

Section CalendarFacts.
Import JsDate Calendar.
Local Open Scope Z_scope.

Lemma all_from_spec fuel x f :
  all_from fuel x f = true -> forall r, x <= r < x + Z.of_nat fuel -> f r = true.
Proof.
  revert x. induction fuel as [|k IH]; intros x H r Hr; [lia |].
  cbn [all_from] in H. apply andb_prop in H as [Hx Hk].
  destruct (Z.eq_dec r x) as [->|Hne]; [done |].
  apply (IH (x + 1)); [done | lia].
Qed.

(** Every day of an era passes [era_check]; by evaluation. *)
Lemma era_table : all_from (Z.to_nat 146097) 0 era_check = true.
Proof. vm_cast_no_check (eq_refl true). Qed.

Lemma era_check_all r : 0 <= r < 146097 -> era_check r = true.
Proof. intros H. apply (all_from_spec _ _ _ era_table). lia. Qed.

(** A date is the date within its era, moved by 400 years per era. *)
Lemma civil_eq day :
  civil_from_days day
  = add_years ((day + 719468) / 146097 * 400) (era_date ((day + 719468) mod 146097)).
Proof.
  unfold civil_from_days. cbv zeta.
  replace ((day + 719468) mod 146097)
    with (day + 719468 - (day + 719468) / 146097 * 146097) by (rewrite Z.mod_eq; lia).
  unfold era_date, add_years. cbv zeta. f_equal. f_equal. lia.
Qed.

Lemma date_ltb_add_years k a b : date_ltb (add_years k a) (add_years k b) = date_ltb a b.
Proof.
  destruct a as [[y1 m1] d1], b as [[y2 m2] d2]. unfold date_ltb, add_years.
  replace (y1 + k <? y2 + k) with (y1 <? y2) by lia.
  replace (y1 + k =? y2 + k) with (y1 =? y2) by lia. done.
Qed.

Lemma add_years_add j k a : add_years j (add_years k a) = add_years (k + j) a.
Proof. destruct a as [[y m] d]. unfold add_years. f_equal. f_equal. lia. Qed.

Lemma date_ltb_trans a b c : date_ltb a b = true -> date_ltb b c = true -> date_ltb a c = true.
Proof.
  destruct a as [[y1 m1] d1], b as [[y2 m2] d2], c as [[y3 m3] d3]. unfold date_ltb.
  rewrite !orb_true_iff, !andb_true_iff, !orb_true_iff, !andb_true_iff,
    !Z.ltb_lt, !Z.eqb_eq. lia.
Qed.

(** The day after has a later date. *)
Lemma civil_succ day : date_ltb (civil_from_days day) (civil_from_days (day + 1)) = true.
Proof.
  rewrite !civil_eq.
  pose proof (Z.mod_pos_bound (day + 719468) 146097 ltac:(lia)) as Hr.
  pose proof (era_check_all _ Hr) as Hc. unfold era_check in Hc.
  destruct (era_date ((day + 719468) mod 146097)) as [[y m] d] eqn:He.
  rewrite !andb_true_iff in Hc. destruct Hc as [[[[[[Hc _] _] _] _] _] _].
  unfold next_in_era in Hc.
  destruct (Z.ltb_spec ((day + 719468) mod 146097 + 1) 146097) as [Hlt|Hge].
  - replace ((day + 1 + 719468) / 146097) with ((day + 719468) / 146097)
      by (Z.to_euclidean_division_equations; lia).
    replace ((day + 1 + 719468) mod 146097) with ((day + 719468) mod 146097 + 1)
      by (Z.to_euclidean_division_equations; lia).
    by rewrite date_ltb_add_years.
  - replace ((day + 1 + 719468) / 146097) with ((day + 719468) / 146097 + 1)
      by (Z.to_euclidean_division_equations; lia).
    replace ((day + 1 + 719468) mod 146097) with 0
      by (Z.to_euclidean_division_equations; lia).
    replace (((day + 719468) / 146097 + 1) * 400)
      with (400 + (day + 719468) / 146097 * 400) by lia.
    rewrite <- add_years_add. by rewrite date_ltb_add_years.
Qed.

(** Dates are ordered as day numbers. *)
Lemma civil_mono a b : a < b -> date_ltb (civil_from_days a) (civil_from_days b) = true.
Proof.
  intros H. replace b with (a + 1 + (b - a - 1)) by lia.
  assert (Hn : 0 <= b - a - 1) by lia. revert Hn. generalize (b - a - 1).
  apply natlike_ind.
  - rewrite Z.add_0_r. apply civil_succ.
  - intros n Hn IH. apply (date_ltb_trans _ _ _ IH).
    replace (a + 1 + Z.succ n) with (a + 1 + n + 1) by lia. apply civil_succ.
Qed.

Lemma civil_month_day day :
  let '(y, m, d) := civil_from_days day in 1 <= m <= 12 /\ 1 <= d <= 31.
Proof.
  rewrite civil_eq.
  pose proof (Z.mod_pos_bound (day + 719468) 146097 ltac:(lia)) as Hr.
  pose proof (era_check_all _ Hr) as Hc. unfold era_check in Hc.
  destruct (era_date ((day + 719468) mod 146097)) as [[y m] d] eqn:He.
  rewrite !andb_true_iff, !Z.leb_le in Hc. unfold add_years. lia.
Qed.

(** The days from 0000-01-01 to 9999-12-31 have a year of four digits. *)
Lemma civil_year day :
  -719528 <= day <= 2932896 -> let '(y, m, d) := civil_from_days day in 0 <= y <= 9999.
Proof.
  intros [Hlo Hhi].
  assert (Hy0 : forall y m d, civil_from_days day = (y, m, d) -> 0 <= y).
  { intros y m d E. destruct (Z.eq_dec day (-719528)) as [->|Hne].
    - vm_compute in E. injection E as <- _ _. lia.
    - pose proof (civil_mono (-719528) day ltac:(lia)) as H. rewrite E in H.
      change (civil_from_days (-719528)) with (0, 1, 1) in H. unfold date_ltb in H.
      rewrite !orb_true_iff, !andb_true_iff, !Z.ltb_lt, !Z.eqb_eq in H. lia. }
  assert (Hy1 : forall y m d, civil_from_days day = (y, m, d) -> y <= 9999).
  { intros y m d E. destruct (Z.eq_dec day 2932896) as [->|Hne].
    - vm_compute in E. injection E as <- _ _. lia.
    - pose proof (civil_mono day 2932896 ltac:(lia)) as H. rewrite E in H.
      change (civil_from_days 2932896) with (9999, 12, 31) in H. unfold date_ltb in H.
      rewrite !orb_true_iff, !andb_true_iff, !Z.ltb_lt, !Z.eqb_eq in H. lia. }
  destruct (civil_from_days day) as [[y m] d]. split; eauto.
Qed.

Local Open Scope string_scope.

Lemma length_pad w n : String.length (pad w n) = w.
Proof.
  revert n. induction w as [|w IH]; intros n; [done |].
  cbn [pad]. rewrite length_app, IH. cbn. lia.
Qed.

Lemma ascii_compare_refl c : Ascii.compare c c = Eq.
Proof. unfold Ascii.compare. apply N.compare_refl. Qed.

Lemma compare_cons c x y : String.compare (String c x) (String c y) = String.compare x y.
Proof. cbn. by rewrite ascii_compare_refl. Qed.

Lemma digit_compare a b :
  Ascii.compare (digit a) (digit b) = (a mod 10 ?= b mod 10)%Z.
Proof.
  unfold digit.
  pose proof (Z.mod_pos_bound a 10 ltac:(lia)) as Ha.
  pose proof (Z.mod_pos_bound b 10 ltac:(lia)) as Hb.
  rewrite <- (Z2Nat.id (a mod 10)) at 2 by lia.
  rewrite <- (Z2Nat.id (b mod 10)) at 2 by lia.
  assert (Hi : (Z.to_nat (a mod 10) < 10)%nat) by lia.
  assert (Hj : (Z.to_nat (b mod 10) < 10)%nat) by lia.
  revert Hi Hj. generalize (Z.to_nat (a mod 10)) (Z.to_nat (b mod 10)).
  intros i j Hi Hj.
  do 10 (destruct i as [|i]; [do 10 (destruct j as [|j]; [reflexivity |]); lia |]).
  lia.
Qed.

(** Numbers printed with the same width compare as the numbers. *)
Lemma compare_pad w a b x y :
  (0 <= a < 10 ^ Z.of_nat w)%Z -> (0 <= b < 10 ^ Z.of_nat w)%Z ->
  String.compare (pad w a ++ x) (pad w b ++ y)
  = match (a ?= b)%Z with Eq => String.compare x y | Lt => Lt | Gt => Gt end.
Proof.
  revert a b x y. induction w as [|w IH]; intros a b x y Ha Hb.
  - cbn [pad]. change (10 ^ Z.of_nat 0)%Z with 1%Z in *.
    replace a with 0%Z by lia. replace b with 0%Z by lia. done.
  - cbn [pad]. rewrite !app_assoc, !app_cons, !app_nil_l.
    rewrite Nat2Z.inj_succ, Z.pow_succ_r in Ha, Hb by lia.
    rewrite IH by (Z.to_euclidean_division_equations; lia).
    cbn [String.compare]. rewrite digit_compare.
    destruct (Z.compare_spec (a / 10) (b / 10)) as [E|E|E];
      destruct (Z.compare_spec (a mod 10) (b mod 10)) as [F|F|F];
      destruct (Z.compare_spec a b) as [G|G|G];
      try reflexivity; exfalso; Z.to_euclidean_division_equations; lia.
Qed.

(** Printed fields compare field by field. *)
Lemma render_compare sep f g :
  fields_ok f -> fields_ok g ->
  String.compare (render_fields sep f) (render_fields sep g) = fields_compare f g.
Proof.
  destruct f as [[[y1 m1] d1] [[[h1 mi1] s1] ms1]], g as [[[y2 m2] d2] [[[h2 mi2] s2] ms2]].
  unfold fields_ok, render_fields, fields_compare, render. intros Hf Hg.
  rewrite !app_cons, !app_nil_l.
  rewrite (compare_pad 4), compare_cons, (compare_pad 2), compare_cons,
    (compare_pad 2), compare_cons, (compare_pad 2), compare_cons,
    (compare_pad 2), compare_cons, (compare_pad 2), compare_cons, (compare_pad 3);
    try (change (10 ^ Z.of_nat 4)%Z with 10000%Z; lia);
    try (change (10 ^ Z.of_nat 3)%Z with 1000%Z; lia);
    try (change (10 ^ Z.of_nat 2)%Z with 100%Z; lia).
  unfold then_. repeat (destruct (_ ?= _)%Z; try reflexivity).
Qed.

Lemma fields_valid t : valid_time t -> fields_ok (fields t).
Proof.
  intros Ht. unfold fields, fields_ok, msPerDay.
  pose proof (civil_month_day (t / 86400000)) as Hmd.
  pose proof (civil_year (t / 86400000)) as Hy.
  destruct (civil_from_days (t / 86400000)) as [[y m] d].
  unfold valid_time in Ht.
  assert (-719528 <= t / 86400000 <= 2932896)%Z
    by (Z.to_euclidean_division_equations; lia).
  specialize (Hy ltac:(done)).
  repeat split; try lia; Z.to_euclidean_division_equations; lia.
Qed.

(** The fields of a later instant are later in the order of the fields. *)
Lemma fields_mono t1 t2 : (t1 < t2)%Z -> fields_compare (fields t1) (fields t2) = Lt.
Proof.
  intros Hlt. unfold fields, fields_compare, msPerDay.
  assert (Hd : (t1 / 86400000 < t2 / 86400000 \/
                (t1 / 86400000 = t2 / 86400000 /\ t1 mod 86400000 < t2 mod 86400000))%Z)
    by (Z.to_euclidean_division_equations; lia).
  destruct Hd as [Hd|[Hd Hr]].
  - pose proof (civil_mono _ _ Hd) as H.
    destruct (civil_from_days (t1 / 86400000)) as [[y1 m1] d1],
             (civil_from_days (t2 / 86400000)) as [[y2 m2] d2].
    unfold date_ltb in H.
    rewrite !orb_true_iff, !andb_true_iff, !Z.ltb_lt, !Z.eqb_eq in H. unfold then_.
    destruct (Z.compare_spec y1 y2); try lia; try done.
    destruct (Z.compare_spec m1 m2); try lia; try done.
    destruct (Z.compare_spec d1 d2); try lia; try done.
  - rewrite Hd. destruct (civil_from_days (t2 / 86400000)) as [[y m] d].
    rewrite !Z.compare_refl. unfold then_.
    pose proof (Z.mod_pos_bound t1 86400000 ltac:(lia)) as H1.
    pose proof (Z.mod_pos_bound t2 86400000 ltac:(lia)) as H2.
    revert Hr H1 H2. generalize (t1 mod 86400000)%Z (t2 mod 86400000)%Z. intros r1 r2 Hr H1 H2.
    destruct (Z.compare_spec (r1 / 3600000) (r2 / 3600000)) as [E1|E1|E1]; try done.
    2:{ exfalso. Z.to_euclidean_division_equations; lia. }
    destruct (Z.compare_spec (r1 / 60000 mod 60) (r2 / 60000 mod 60)) as [E2|E2|E2]; try done.
    2:{ exfalso. Z.to_euclidean_division_equations; lia. }
    destruct (Z.compare_spec (r1 / 1000 mod 60) (r2 / 1000 mod 60)) as [E3|E3|E3]; try done.
    2:{ exfalso. Z.to_euclidean_division_equations; lia. }
    destruct (Z.compare_spec (r1 mod 1000) (r2 mod 1000)) as [E4|E4|E4]; try done;
      exfalso; Z.to_euclidean_division_equations; lia.
Qed.

Lemma toISOString_render t : valid_time t -> toISOString t = render_fields ":" (fields t).
Proof.
  intros Ht. pose proof (fields_valid t Ht) as Hok.
  unfold toISOString, fields, render_fields, fields_ok in *.
  destruct (civil_from_days (t / msPerDay)) as [[y m] d]. cbv zeta.
  unfold render, year_string.
  replace ((0 <=? y)%Z && (y <=? 9999)%Z) with true by lia.
  reflexivity.
Qed.

Lemma replaceAll_app c d a b :
  JsString.replaceAll c d (a ++ b) = JsString.replaceAll c d a ++ JsString.replaceAll c d b.
Proof. induction a as [|x a IH]; [done |]. rewrite app_cons. cbn. by rewrite IH, app_cons. Qed.

Lemma replaceAll_pad w n : JsString.replaceAll ":" "-" (pad w n) = pad w n.
Proof.
  revert n. induction w as [|w IH]; intros n; [done |].
  cbn [pad]. rewrite replaceAll_app, IH. f_equal.
  destruct (digit_range n) as (k & Hk & ->).
  do 10 (destruct k as [|k]; [done |]). lia.
Qed.

Lemma cons_app c x : String c x = String c EmptyString ++ x.
Proof. reflexivity. Qed.

Lemma replaceAll_render f :
  JsString.replaceAll ":" "-" (render_fields ":" f) = render_fields "-" f.
Proof.
  destruct f as [[[y m] d] [[[h mi] s] ms]]. unfold render_fields, render.
  rewrite (cons_app ":" (pad 2 mi ++ _)), (cons_app ":" (pad 2 s ++ _)).
  by rewrite !replaceAll_app, !replaceAll_pad.
Qed.

Lemma stamp_render t : valid_time t -> stamp t = render_fields "-" (fields t).
Proof. intros Ht. unfold stamp. by rewrite toISOString_render, replaceAll_render. Qed.

Lemma length_render sep f : String.length (render_fields sep f) = 24%nat.
Proof.
  destruct f as [[[y m] d] [[[h mi] s] ms]]. unfold render_fields, render.
  rewrite (cons_app sep (pad 2 mi ++ _)), (cons_app sep (pad 2 s ++ _)).
  by rewrite !length_app, !length_pad.
Qed.

Lemma compare_refl s : String.compare s s = Eq.
Proof. induction s as [|c s IH]; [done |]. by rewrite compare_cons. Qed.

(** Within the years 0 to 9999 the printed instants are ordered as the
    instants. *)
Lemma toISOString_lt t1 t2 :
  valid_time t1 -> valid_time t2 -> (t1 < t2)%Z ->
  String.compare (toISOString t1) (toISOString t2) = Lt.
Proof.
  intros H1 H2 Hlt. rewrite !toISOString_render by done.
  rewrite render_compare by by apply fields_valid. by apply fields_mono.
Qed.

Lemma stamp_lt t1 t2 :
  valid_time t1 -> valid_time t2 -> (t1 < t2)%Z ->
  String.compare (stamp t1) (stamp t2) = Lt.
Proof.
  intros H1 H2 Hlt. rewrite !stamp_render by done.
  rewrite render_compare by by apply fields_valid. by apply fields_mono.
Qed.

Lemma stamp_inj t1 t2 :
  valid_time t1 -> valid_time t2 -> stamp t1 = stamp t2 -> t1 = t2.
Proof.
  intros H1 H2 E.
  destruct (Z.lt_trichotomy t1 t2) as [H|[H|H]]; [|done|].
  - pose proof (stamp_lt _ _ H1 H2 H) as C. by rewrite E, compare_refl in C.
  - pose proof (stamp_lt _ _ H2 H1 H) as C. by rewrite E, compare_refl in C.
Qed.

Lemma toISOString_inj t1 t2 :
  valid_time t1 -> valid_time t2 -> toISOString t1 = toISOString t2 -> t1 = t2.
Proof.
  intros H1 H2 E.
  destruct (Z.lt_trichotomy t1 t2) as [H|[H|H]]; [|done|].
  - pose proof (toISOString_lt _ _ H1 H2 H) as C. by rewrite E, compare_refl in C.
  - pose proof (toISOString_lt _ _ H2 H1 H) as C. by rewrite E, compare_refl in C.
Qed.

Lemma length_stamp t : valid_time t -> String.length (stamp t) = 24%nat.
Proof. intros Ht. by rewrite stamp_render, length_render. Qed.

(** Strings with a common prefix compare as their remainders. *)
Lemma compare_app_l p x y : String.compare (p ++ x) (p ++ y) = String.compare x y.
Proof. induction p as [|c p IH]; [done |]. by rewrite !app_cons, compare_cons. Qed.

Lemma compare_app_lt a b x y :
  String.length a = String.length b -> String.compare a b = Lt ->
  String.compare (a ++ x) (b ++ y) = Lt.
Proof.
  revert b. induction a as [|c a IH]; intros [|c' b] Hl Hc; try done.
  rewrite !app_cons. cbn in *. destruct (Ascii.compare c c'); try done.
  apply IH; [lia | done].
Qed.

Lemma app_inv_same_length a b x y :
  String.length x = String.length y -> a ++ x = b ++ y -> a = b /\ x = y.
Proof.
  intros Hl. revert b. induction a as [|c a IH]; intros [|c' b] E.
  - done.
  - rewrite app_nil_l in E. apply (f_equal String.length) in E.
    rewrite length_app in E. cbn in E. lia.
  - rewrite app_nil_l in E. apply (f_equal String.length) in E.
    rewrite length_app in E. cbn in E. lia.
  - rewrite !app_cons in E. injection E as -> E. destruct (IH _ E) as [-> ->]. done.
Qed.

End CalendarFacts.

(** ** Sample evaluations *)

Example toISOString_epoch : JsDate.toISOString 0 = "1970-01-01T00:00:00.000Z".
Proof. reflexivity. Qed.

Example toISOString_2026 :
  JsDate.toISOString 1767875400123 = "2026-01-08T12:30:00.123Z".
Proof. reflexivity. Qed.

Example toISOString_leap :
  JsDate.toISOString 951782400000 = "2000-02-29T00:00:00.000Z".
Proof. reflexivity. Qed.

Example toISOString_before_epoch :
  JsDate.toISOString (-1) = "1969-12-31T23:59:59.999Z".
Proof. reflexivity. Qed.

Example dirname_example : NodePath.dirname "a/b/c.json" = "a/b".
Proof. reflexivity. Qed.

(** ** Substrings and names *)

Section NameFacts.
Import JsString Orchestrator Executor Controller.

Lemma js_substring_0 (s : string) (n : nat) :
  JsString.substring s 0 n = String.substring 0 (Nat.min n (String.length s)) s.
Proof.
  unfold JsString.substring. cbn [Nat.min].
  by rewrite Nat.max_0_l, Nat.sub_0_r.
Qed.

Lemma locators_of_phases_differ this ph1 ph2 t1 t2 :
  In ph1 phases -> In ph2 phases -> ph1 <> ph2 -> locator this ph1 t1 <> locator this ph2 t2.
Proof.
  intros H1 H2 Hne E. apply join_inj in E.
  repeat (destruct H1 as [<-|H1]); repeat (destruct H2 as [<-|H2]);
    try done; rewrite ?app_cons in E; discriminate.
Qed.

End NameFacts.

(** ** [path.join]: where it is the concatenation *)

Section PosixFacts.
Import JsString.

Lemma segments_nonempty p : PosixPath.segments p <> [].
Proof.
  destruct p as [|c r]; [done |]. cbn.
  destruct (Ascii.eqb c "/"); [done |]. by destruct (PosixPath.segments r).
Qed.

Lemma join_cons_cons sep x y r : join sep (x :: y :: r) = x ++ sep ++ join sep (y :: r).
Proof. reflexivity. Qed.

Lemma join_segments p : join "/" (PosixPath.segments p) = p.
Proof.
  induction p as [|c r IH]; [done |]. cbn [PosixPath.segments].
  destruct (Ascii.eqb_spec c "/") as [->|Hc].
  - pose proof (segments_nonempty r) as Hne.
    destruct (PosixPath.segments r) as [|s t]; [done |].
    by rewrite join_cons_cons, IH, app_nil_l, app_cons, app_nil_l.
  - pose proof (segments_nonempty r) as Hne.
    destruct (PosixPath.segments r) as [|s t]; [done |].
    destruct t as [|y t]; [cbn in *; by rewrite IH |].
    rewrite join_cons_cons, app_cons. rewrite join_cons_cons in IH. by rewrite IH.
Qed.

Lemma segments_app_slash a b :
  PosixPath.segments (a ++ "/" ++ b) = (PosixPath.segments a ++ PosixPath.segments b)%list.
Proof.
  induction a as [|c r IH].
  - by rewrite app_nil_l, app_cons, app_nil_l.
  - rewrite app_cons. cbn [PosixPath.segments]. rewrite IH.
    destruct (Ascii.eqb c "/"); [done |].
    pose proof (segments_nonempty r) as Hne.
    by destruct (PosixPath.segments r).
Qed.

Lemma segments_no_slash n : no_slash n = true -> PosixPath.segments n = [n].
Proof.
  induction n as [|c r IH]; [done |]. cbn. intros H.
  apply andb_prop in H as [Hc Hr]. apply negb_true_iff in Hc. rewrite Hc, (IH Hr). done.
Qed.

Lemma keep_plain b kept s : PosixPath.plain s = true -> PosixPath.keep b kept s = s :: kept.
Proof.
  unfold PosixPath.plain, PosixPath.keep. intros H.
  apply andb_prop in H as [H H3]. apply andb_prop in H as [H1 H2].
  apply negb_true_iff in H1, H2, H3. by rewrite H1, H2, H3.
Qed.

Lemma fold_keep_plain b l kept :
  forallb PosixPath.plain l = true ->
  fold_left (PosixPath.keep b) l kept = (rev l ++ kept)%list.
Proof.
  revert kept. induction l as [|s l IH]; intros kept H; [done |].
  cbn in H. apply andb_prop in H as [Hs Hl]. cbn [fold_left rev].
  by rewrite (keep_plain _ _ _ Hs), (IH _ Hl), <- List.app_assoc.
Qed.

Lemma join_snoc l n : l <> [] -> join "/" (l ++ [n]) = join "/" l ++ "/" ++ n.
Proof.
  induction l as [|x l IH]; [done |]. intros _.
  destruct l as [|y l]; [reflexivity |].
  change ((x :: y :: l) ++ [n])%list with (x :: y :: (l ++ [n]))%list.
  rewrite !join_cons_cons. change (y :: (l ++ [n]))%list with ((y :: l) ++ [n])%list.
  rewrite IH by done. by rewrite !app_assoc.
Qed.

Lemma ends_with_separator_app a n :
  n <> EmptyString -> PosixPath.ends_with_separator (a ++ n) = PosixPath.ends_with_separator n.
Proof.
  intros Hn. induction a as [|c a IH]; [by rewrite app_nil_l |].
  rewrite app_cons. cbn. destruct (a ++ n) eqn:E; [| exact IH].
  destruct a; [rewrite app_nil_l in E; done | rewrite app_cons in E; done].
Qed.

Lemma ends_with_separator_no_slash n :
  no_slash n = true -> PosixPath.ends_with_separator n = false.
Proof.
  induction n as [|c r IH]; [done |]. cbn. intros H.
  apply andb_prop in H as [Hc Hr]. apply negb_true_iff in Hc.
  destruct r; [done | by apply IH].
Qed.

(** For a directory in simple form and a plain name without separator,
    [path.join] is the concatenation. *)
Lemma join_simple d n :
  PosixPath.simple d = true -> no_slash n = true -> PosixPath.plain n = true ->
  PosixPath.join d n = NodePath.join d n.
Proof.
  intros Hd Hn Hp. unfold NodePath.join.
  assert (Hn0 : n <> EmptyString) by (by destruct n).
  assert (Hd0 : d <> EmptyString) by (by destruct d).
  unfold PosixPath.join. destruct d as [|c d']; [done |]. destruct n as [|c' n']; [done |].
  set (d := String c d') in *. set (n := String c' n') in *.
  unfold PosixPath.normalize.
  assert (E : d ++ "/" ++ n = String c (d' ++ "/" ++ n)) by (subst d; by rewrite app_cons).
  rewrite E. rewrite <- E.
  rewrite segments_app_slash, (segments_no_slash n Hn).
  assert (Ht : PosixPath.ends_with_separator (d ++ "/" ++ n) = false).
  { rewrite <- app_assoc, ends_with_separator_app by done.
    by apply ends_with_separator_no_slash. }
  rewrite Ht.
  unfold PosixPath.simple in Hd. pose proof (join_segments d) as Hj.
  assert (Hc : Ascii.eqb c "/" = true -> exists rest, PosixPath.segments d = EmptyString :: rest /\ rest <> []).
  { intros Hc. subst d. cbn [PosixPath.segments]. rewrite Hc. eexists. split; [done |].
    apply segments_nonempty. }
  destruct (Ascii.eqb c "/") eqn:Hslash.
  - destruct (Hc eq_refl) as (rest & Hs & Hrest). rewrite Hs in Hd, Hj |- *.
    destruct rest as [|r0 rest]; [done |].
    rewrite join_cons_cons, app_nil_l in Hj.
    rewrite fold_left_app.
    change (fold_left (PosixPath.keep (negb true)) (EmptyString :: r0 :: rest) [])
      with (fold_left (PosixPath.keep false) (r0 :: rest) []).
    rewrite (fold_keep_plain _ _ _ Hd), List.app_nil_r.
    cbn [fold_left]. rewrite (keep_plain _ _ _ Hp).
    change (rev (n :: rev (r0 :: rest))) with (rev (rev (r0 :: rest)) ++ [n])%list.
    rewrite rev_involutive, join_snoc by done.
    rewrite app_nil_r.
    destruct (String.length _ =? 0)%nat eqn:Hlen.
    { apply Nat.eqb_eq in Hlen. rewrite !length_app in Hlen. cbn in Hlen. lia. }
    by rewrite <- Hj, !app_assoc.
  - assert (Hpl : forallb PosixPath.plain (PosixPath.segments d) = true).
    { clear Hj Hc Ht E. subst d. cbn [PosixPath.segments] in Hd |- *.
      rewrite Hslash in Hd |- *. by destruct (PosixPath.segments d'). }
    rewrite fold_left_app.
    rewrite (fold_keep_plain _ _ _ Hpl), List.app_nil_r.
    cbn [fold_left]. rewrite (keep_plain _ _ _ Hp).
    change (rev (n :: rev (PosixPath.segments d)))
      with (rev (rev (PosixPath.segments d)) ++ [n])%list.
    rewrite rev_involutive, join_snoc by apply segments_nonempty.
    rewrite app_nil_r, app_nil_l, Hj.
    destruct (String.length _ =? 0)%nat eqn:Hlen; [| done].
    apply Nat.eqb_eq in Hlen. rewrite !length_app in Hlen. cbn in Hlen. lia.
Qed.

Lemma plain_long (s : string) : (2 < String.length s)%nat -> PosixPath.plain s = true.
Proof.
  intros H. unfold PosixPath.plain.
  rewrite !andb_true_iff, !negb_true_iff, !String.eqb_neq.
  repeat split; intros ->; cbn in H; lia.
Qed.

(** The paths of a phase whose name has no separator, in directories
    of simple form, are those that [path.join] returns. *)
Lemma paths_faithful this ph t :
  Run.plain_dirs this -> no_slash ph = true ->
  Executor.instructionPath this ph
  = PosixPath.join (Orchestrator.instructionsDir this) (ph ++ "-phase.instructions.md") /\
  Executor.locator this ph t
  = PosixPath.join (Orchestrator.outputDir this) (ph ++ "_" ++ stamp t ++ ".json") /\
  Controller.summaryPath this t
  = PosixPath.join (Orchestrator.outputDir this) ("workflow_summary_" ++ stamp t ++ ".json").
Proof.
  intros [Hi Ho] Hph.
  unfold Executor.instructionPath, Executor.locator, Controller.summaryPath.
  rewrite !join_simple; try done;
    first [ apply plain_long; rewrite !length_app; cbn [String.length]; lia
          | by rewrite !no_slash_app, ?no_slash_stamp, ?Hph ].
Qed.

End PosixFacts.

(** ** Failures of the phase executor *)

Section FailureFacts.
Import JsString Orchestrator Executor Controller Run.

Local Arguments JsDate.toISOString : simpl never.
Local Arguments replaceAll : simpl never.
Local Arguments replace : simpl never.
Local Arguments toUpperCase : simpl never.
Local Arguments repeat : simpl never.
Local Arguments placeholder : simpl never.
Local Arguments fullPrompt : simpl never.
Local Arguments stringify_PhaseOutput : simpl never.
Local Arguments NodePath.join : simpl never.
Local Arguments NodePath.dirname : simpl never.
Local Arguments getAgentConfig : simpl never.
Local Arguments substring : simpl never.
Local Arguments String.eqb : simpl never.
Local Arguments join : simpl never.

Lemma pair_fst {A B : Type} (x : A * B) (a : A) : fst x = a -> x = (a, snd x).
Proof. destruct x. cbn. by intros ->. Qed.

(** The errors of a write, with what the file system holds at the path
    and at its parent. *)
Lemma writeFileSync_errors p c w e w' :
  NodeFs.writeFileSync p c w = (Throw e, w') ->
  w' = w /\
  ((e = EISDIR p /\ fs w !! p = Some Dir) \/
   (e = ENOTDIR p /\ exists x, fs w !! NodePath.dirname p = Some (File x)) \/
   (e = ENOENT p /\ fs w !! NodePath.dirname p = None)).
Proof.
  unfold NodeFs.writeFileSync.
  destruct (fs w !! p) as [[x|]|] eqn:Hp;
    destruct (fs w !! NodePath.dirname p) as [[y|]|] eqn:Hd;
    intros H; simplify_eq; split; eauto 10.
Qed.

Lemma writeFileSync_cases p c w :
  (writable (fs w) p /\
   NodeFs.writeFileSync p c w = (Ok tt, NodeFs.set_fs (<[p := File c]> (fs w)) w))
  \/ (~ writable (fs w) p /\ exists e, NodeFs.writeFileSync p c w = (Throw e, w)).
Proof.
  unfold NodeFs.writeFileSync, writable.
  destruct (fs w !! p) as [[x|]|] eqn:Hp;
    destruct (fs w !! NodePath.dirname p) as [[y|]|] eqn:Hd;
    first [ left; split; [split; congruence | reflexivity]
          | right; split; [intros [? ?]; congruence | eexists; reflexivity] ].
Qed.

Lemma savePhaseOutput_errors this po w e w' :
  savePhaseOutput this po w = (Throw e, w') ->
  let loc := locator this (phase po) (clock w (ticks w)) in
  w' = tick w /\ ~ writable (fs w) loc /\
  ((e = EISDIR loc /\ fs w !! loc = Some Dir) \/
   (e = ENOTDIR loc /\ exists x, fs w !! NodePath.dirname loc = Some (File x)) \/
   (e = ENOENT loc /\ fs w !! NodePath.dirname loc = None)).
Proof.
  intros H loc.
  assert (Hsave : savePhaseOutput this po w =
    match NodeFs.writeFileSync loc (stringify_PhaseOutput po) (tick w) with
    | (Ok _, w') => (Ok loc, w')
    | (Throw e, w') => (Throw e, w')
    end).
  { unfold savePhaseOutput, mbind, M_bind, Date_now, mret, M_ret.
    subst loc. unfold locator, stamp. cbv beta iota zeta. reflexivity. }
  rewrite Hsave in H.
  destruct (NodeFs.writeFileSync loc (stringify_PhaseOutput po) (tick w)) as [[[]|e0] w0] eqn:Hw;
    [discriminate |].
  injection H as -> ->.
  apply writeFileSync_errors in Hw as [-> Hw]. cbn [fs tick] in Hw.
  split; [done |]. split; [| exact Hw].
  unfold writable. intros [H1 H2].
  destruct Hw as [[_ Hw]|[[_ [x Hw]]|[_ Hw]]]; congruence.
Qed.

Lemma runPhase_throws this ph desc prev w e w' :
  runPhase this ph desc prev w = (Throw e, w') ->
  failure this ph desc prev w e w' /\
  fs w' = fs w /\ clock w' = clock w /\ phaseResults w' = phaseResults w /\
  exists lines, console w' = (console w ++ lines)%list.
Proof.
  unfold runPhase. do 3 step.
  match goal with |- context [(_ ≫= _) ?x] => set (w3 := x) end.
  destruct (loadInstructionFile_cases this ph w3)
    as [(Hnd & w4 & Hload & Hfs & Hclock & Hticks & Hagent & Hres & lines & Hcon & Hwarn)
       |(Hd & Hload)].
  2:{ erewrite bind_throw by exact Hload. intros H. injection H as <- <-.
      split; [by apply unreadable_instructions |]. do 3 (split; [done |]).
      eexists. cbn. rewrite <- !List.app_assoc. reflexivity. }
  erewrite bind_ok by exact Hload. do 3 step.
  change (fs w3) with (fs w) in *. change (clock w3) with (clock w) in *.
  change (ticks w3) with (ticks w) in *. change (agent w3) with (agent w) in *.
  change (phaseResults w3) with (phaseResults w) in *.
  destruct (getAgentConfig_cases ph) as [(c & Hc & Hinh)|(Hc & Hinh)]; rewrite Hc.
  2:{ erewrite bind_throw by reflexivity. intros H. injection H as <- <-.
      split; [apply inherited_configuration; cbn; rewrite ?Hticks, ?Hagent; done |].
      cbn. rewrite Hfs, Hclock, Hres. do 3 (split; [done |]). rewrite Hcon. cbn.
      eexists. rewrite <- !List.app_assoc. reflexivity. }
  do 5 step.
  match goal with |- context [(savePhaseOutput _ ?po ≫= _) ?w5] =>
    destruct (savePhaseOutput this po w5) as [[l|e0] w6] eqn:Hsave
  end.
  { erewrite bind_ok by exact Hsave. do 3 step. discriminate. }
  erewrite bind_throw by exact Hsave. intros H. injection H as <- <-.
  apply savePhaseOutput_errors in Hsave as (-> & _ & Herr).
  cbn [phase fs clock ticks tick print simulate_agent] in Herr.
  rewrite ?Hfs, ?Hclock, ?Hticks in Herr.
  split.
  - apply unwritable_record; cbn; rewrite ?Hticks, ?Hagent; try done.
    unfold request. by rewrite Hc.
  - cbn. rewrite Hfs, Hclock, Hres. do 3 (split; [done |]). rewrite Hcon. cbn.
    eexists. rewrite <- !List.app_assoc. reflexivity.
Qed.

(** A phase of the pipeline returns or fails with an error of the file
    system. *)
Lemma runPhase_phase_cases this ph desc prev w :
  In ph phases ->
  let loc := locator this ph (clock w (S (ticks w))) in
  (fs w !! instructionPath this ph <> Some Dir /\ writable (fs w) loc /\
   exists w', runPhase this ph desc prev w = (Ok (placeholder ph), w') /\
              post this ph desc prev w w')
  \/ (~ (fs w !! instructionPath this ph <> Some Dir /\ writable (fs w) loc) /\
      exists e w', runPhase this ph desc prev w = (Throw e, w') /\
        io_error e /\ fs w' = fs w /\ clock w' = clock w /\
        (map req_phase (agent w') = map req_phase (agent w) \/
         map req_phase (agent w') = (map req_phase (agent w) ++ [ph])%list)).
Proof.
  intros Hph loc.
  destruct (runPhase_cases this ph desc prev w)
    as [(c & w' & I & _ & _ & W & Hrun & Hp)|(e & w' & Hrun & _ & Hwhy)].
  { left. eauto. }
  right. split.
  { intros [I W]. destruct Hwhy as [?|[H|?]]; try done.
    by rewrite (phases_inherited _ Hph) in H. }
  exists e, w'. split; [exact Hrun |].
  apply runPhase_throws in Hrun as (Hf & Hfs & Hclock & _).
  destruct Hf as [-> _ _ Ha| _ _ Hi _ _|loc' He _ _ _ Ha].
  - rewrite Ha. repeat split; auto.
  - by rewrite (phases_inherited _ Hph) in Hi.
  - rewrite Ha, map_app. repeat split; auto.
    by destruct He as [[-> _]|[[-> _]|[-> _]]].
Qed.

Lemma constructor_eq i o w :
  constructor i o w
  = (Ok (mkOrchestrator i o),
     mkWorld (match fs w !! o with None => <[o := Dir]> (fs w) | Some _ => fs w end)
       (clock w) (ticks w) (console w) (agent w) ∅).
Proof.
  unfold constructor, mbind, M_bind, set_phaseResults, NodeFs.existsSync, NodeFs.mkdirSync,
    mret, M_ret.
  cbn [fs clock ticks console agent phaseResults].
  destruct (fs w !! o) as [[x|]|] eqn:Ho; cbn; rewrite ?Ho; reflexivity.
Qed.

End FailureFacts.

(** ** Runs of the controller *)

Section RunFacts.
Import JsString Orchestrator Executor Controller Run.

Local Arguments JsDate.toISOString : simpl never.
Local Arguments placeholder : simpl never.
Local Arguments fullPrompt : simpl never.

(** Every run of [orchestrate]: all five steps find what they need and
    the run returns, or the first step that does not throws, after the
    writes of the phases before it. *)
Lemma orchestrate_trace this task w :
  (steps_ok this w /\
   exists w', orchestrate this task w = (Ok (map entry phases), w') /\
              run_post this task w w' /\
              phaseResults w' =
              <["correct" := placeholder "correct"]>
                (<["implement" := placeholder "implement"]>
                   (<["plan" := placeholder "plan"]>
                      (<["research" := placeholder "research"]> (phaseResults w)))))
  \/ (~ steps_ok this w /\
      exists e w' k j, orchestrate this task w = (Throw e, w') /\
        io_error e /\ (k <= 4)%nat /\ (j = k \/ j = S k /\ (k < 4)%nat) /\
        fs w' = write_all (fs w) (take k (record_writes this w)) /\
        clock w' = clock w /\
        map req_phase (agent w') = (map req_phase (agent w) ++ take j phases)%list).
Proof.
  unfold steps_ok, step_ok, record_writes, reading.
  cbn [take write_all fold_left fst snd Nat.mul Nat.add].
  rewrite ?Nat.add_succ_r, ?Nat.add_0_r.
  unfold orchestrate. do 7 step.
  (* research *)
  match goal with |- context [(runPhase _ _ ?d ?p ≫= _) ?x] =>
    destruct (runPhase_phase_cases this "research" d p x)
      as [(I1 & W1 & w1 & Hrun1 & Hp1)|(Hno & e & w' & Hrun & He & Hfs & Hcl & Hag)];
      [cbn; tauto | |]
  end.
  2:{ right. cbn [fs clock ticks agent print] in *. split; [tauto |].
      erewrite bind_throw by exact Hrun.
      destruct Hag as [Hag|Hag]; [exists e, w', 0%nat, 0%nat | exists e, w', 0%nat, 1%nat];
        rewrite Hag; cbn [take phases]; rewrite ?List.app_nil_r; repeat split; auto; lia. }
  erewrite bind_ok by exact Hrun1. step.
  destruct Hp1 as [F1 C1 T1 A1 _ R1]. cbn [fs clock ticks agent phaseResults print] in *.
  (* plan *)
  match goal with |- context [(runPhase _ _ ?d ?p ≫= _) ?x] =>
    destruct (runPhase_phase_cases this "plan" d p x)
      as [(I2 & W2 & w2 & Hrun2 & Hp2)|(Hno & e & w' & Hrun & He & Hfs & Hcl & Hag)];
      [cbn; tauto | |]
  end.
  2:{ right. cbn [fs clock ticks agent print] in *. rewrite ?F1, ?C1, ?T1 in *.
      split; [tauto |].
      erewrite bind_throw by exact Hrun. rewrite A1, map_app in Hag.
      destruct Hag as [Hag|Hag]; [exists e, w', 1%nat, 1%nat | exists e, w', 1%nat, 2%nat];
        rewrite Hag, <- ?List.app_assoc; repeat split; auto; lia. }
  erewrite bind_ok by exact Hrun2. step.
  destruct Hp2 as [F2 C2 T2 A2 _ R2]. cbn [fs clock ticks agent phaseResults print] in *.
  rewrite ?F1, ?C1, ?T1 in *.
  (* implement *)
  match goal with |- context [(runPhase _ _ ?d ?p ≫= _) ?x] =>
    destruct (runPhase_phase_cases this "implement" d p x)
      as [(I3 & W3 & w3 & Hrun3 & Hp3)|(Hno & e & w' & Hrun & He & Hfs & Hcl & Hag)];
      [cbn; tauto | |]
  end.
  2:{ right. cbn [fs clock ticks agent print] in *. rewrite ?F2, ?C2, ?T2 in *.
      split; [tauto |].
      erewrite bind_throw by exact Hrun. rewrite A2, A1, !map_app in Hag.
      destruct Hag as [Hag|Hag]; [exists e, w', 2%nat, 2%nat | exists e, w', 2%nat, 3%nat];
        rewrite Hag, <- ?List.app_assoc; repeat split; auto; lia. }
  erewrite bind_ok by exact Hrun3. step.
  destruct Hp3 as [F3 C3 T3 A3 _ R3]. cbn [fs clock ticks agent phaseResults print] in *.
  rewrite ?F2, ?C2, ?T2 in *.
  (* correct *)
  match goal with |- context [(runPhase _ _ ?d ?p ≫= _) ?x] =>
    destruct (runPhase_phase_cases this "correct" d p x)
      as [(I4 & W4 & w4 & Hrun4 & Hp4)|(Hno & e & w' & Hrun & He & Hfs & Hcl & Hag)];
      [cbn; tauto | |]
  end.
  2:{ right. cbn [fs clock ticks agent print] in *. rewrite ?F3, ?C3, ?T3 in *.
      split; [tauto |].
      erewrite bind_throw by exact Hrun. rewrite A3, A2, A1, !map_app in Hag.
      destruct Hag as [Hag|Hag]; [exists e, w', 3%nat, 3%nat | exists e, w', 3%nat, 4%nat];
        rewrite Hag, <- ?List.app_assoc; repeat split; auto; lia. }
  erewrite bind_ok by exact Hrun4. step.
  destruct Hp4 as [F4 C4 T4 A4 _ R4]. cbn [fs clock ticks agent phaseResults print] in *.
  rewrite ?F3, ?C3, ?T3 in *.
  (* the summary *)
  match goal with |- context [(NodeFs.writeFileSync ?p ?c ≫= _) ?x] =>
    destruct (writeFileSync_cases p c x) as [[W5 Hw]|[W5 [e Hw]]]
  end.
  2:{ right. cbn [fs clock ticks print tick] in *. rewrite ?F4, ?C4, ?T4 in *.
      split; [tauto |].
      erewrite bind_throw by exact Hw.
      pose proof Hw as Hio. apply writeFileSync_errors in Hio as [_ Hio].
      exists e. eexists. exists 4%nat, 4%nat.
      split; [reflexivity |]. cbn [fs clock agent tick].
      rewrite F4, C4, A4, A3, A2, A1, !map_app, <- !List.app_assoc.
      repeat split; auto.
      by destruct Hio as [[-> _]|[[-> _]|[-> _]]]. }
  left. cbn [fs clock ticks print tick] in *. rewrite ?F4, ?C4, ?T4 in *.
  split; [done |].
  erewrite bind_ok by exact Hw. do 4 step.
  eexists. split; [reflexivity |].
  split; [split |]; unfold reading, summaryPath, persisted;
    rewrite ?Nat.add_succ_r, ?Nat.add_0_r;
    cbn [fs clock ticks agent phaseResults print tick NodeFs.set_fs].
  - rewrite ?F4, ?C4, ?T4. reflexivity.
  - by rewrite ?C4.
  - rewrite ?T4. lia.
  - rewrite ?A4, ?A3, ?A2, ?A1, ?instructionsFor_insert.
    rewrite <- ?List.app_assoc. reflexivity.
  - rewrite R4, R3, R2, R1. reflexivity.
Qed.

Lemma summaryPath_neq_locator this t ph t' :
  In ph phases -> summaryPath this t <> locator this ph t'.
Proof.
  intros H E. apply join_inj in E.
  repeat (destruct H as [<-|H]); try done; rewrite ?app_cons in E; discriminate.
Qed.

Lemma summaryPath_neq_instructionPath this t ph :
  summaryPath this t <> instructionPath this ph.
Proof.
  unfold summaryPath, instructionPath, NodePath.join. intros H.
  apply (f_equal last_unit) in H.
  rewrite <- !app_assoc in H.
  rewrite (last_unit_app _ ".json"), (last_unit_app _ "-phase.instructions.md") in H; done.
Qed.

Lemma dirname_locator this ph t :
  In ph phases -> NodePath.dirname (locator this ph t) = outputDir this.
Proof. intros H. by apply dirname_join, no_slash_record_name, phases_no_slash. Qed.

Lemma dirname_summaryPath this t :
  NodePath.dirname (summaryPath this t) = outputDir this.
Proof. apply dirname_join. by rewrite !no_slash_app, no_slash_stamp. Qed.

(** The five paths of a run are distinct, whatever the clock shows. *)
Lemma targets_NoDup this w : NoDup (targets this w).
Proof.
  unfold targets, record_writes. cbn [map fst app].
  rewrite !NoDup_cons, !not_elem_of_cons.
  repeat split;
    first [ apply locators_of_phases_differ; (cbn; tauto) || discriminate
          | apply not_eq_sym, summaryPath_neq_locator; cbn; tauto
          | apply not_elem_of_nil
          | apply NoDup_nil_2 ].
Qed.

Ltac in_phases := cbn; tauto.

Ltac apart :=
  first [ apply locator_neq_instructionPath
        | apply join_neq_dir
        | apply summaryPath_neq_locator; in_phases
        | apply not_eq_sym, summaryPath_neq_locator; in_phases
        | apply summaryPath_neq_instructionPath
        | apply locators_of_phases_differ; [in_phases | in_phases | discriminate] ].

(** The conditions met step by step are conditions on the file system
    the run starts on. *)
Lemma steps_ok_ready this w : steps_ok this w <-> ready this w.
Proof.
  unfold steps_ok, step_ok, writable, record_writes.
  cbn [take write_all fold_left fst snd Nat.mul Nat.add].
  rewrite dirname_summaryPath, !dirname_locator by in_phases.
  rewrite !lookup_insert_ne by apart.
  split.
  - intros ((I1 & L1 & D) & (I2 & L2 & _) & (I3 & L3 & _) & (I4 & L4 & _) & L5 & _).
    split; [done | |].
    + intros ph H. repeat (destruct H as [<-|H]; [done |]). done.
    + unfold targets, record_writes. cbn [map fst app].
      intros p H. repeat (destruct H as [<-|H]; [done |]). done.
  - intros [D I T]. unfold targets, record_writes in T. cbn [map fst app In] in T.
    repeat split; first [ exact D | apply I; in_phases | apply T; tauto ].
Qed.

(** What a run that returns has done. *)
Lemma orchestrate_ok_inv this task w results w' :
  orchestrate this task w = (Ok results, w') ->
  results = map entry phases /\ ready this w /\ run_post this task w w' /\
  phaseResults w' =
  <["correct" := placeholder "correct"]>
    (<["implement" := placeholder "implement"]>
       (<["plan" := placeholder "plan"]>
          (<["research" := placeholder "research"]> (phaseResults w)))).
Proof.
  intros H.
  destruct (orchestrate_trace this task w)
    as [(Hok & w0 & Hrun & Hpost & Hres)|(_ & e0 & w0 & k & j & Hrun & _)];
    [| congruence].
  rewrite H in Hrun. injection Hrun as -> <-.
  by rewrite <- steps_ok_ready.
Qed.

(** What a run that fails has done. *)
Lemma orchestrate_throw_inv this task w e w' :
  orchestrate this task w = (Throw e, w') ->
  ~ ready this w /\ io_error e /\
  exists k j, (k <= 4)%nat /\ (j = k \/ j = S k /\ (k < 4)%nat) /\
    fs w' = write_all (fs w) (take k (record_writes this w)) /\
    map req_phase (agent w') = (map req_phase (agent w) ++ take j phases)%list.
Proof.
  intros H. rewrite <- steps_ok_ready.
  destruct (orchestrate_trace this task w)
    as [(_ & w0 & Hrun & _)|(Hno & e0 & w0 & k & j & Hrun & He & Hk & Hj & Hfs & _ & Hag)];
    [congruence |].
  rewrite H in Hrun. injection Hrun as <- <-.
  do 2 (split; [done |]). by exists k, j.
Qed.

Lemma orchestrate_ready this task w :
  ready this w -> exists w', orchestrate this task w = (Ok (map entry phases), w').
Proof.
  rewrite <- steps_ok_ready. intros H.
  destruct (orchestrate_trace this task w) as [(_ & w' & Hrun & _)|(Hno & _)]; [eauto | done].
Qed.

(** The records of a run never touch a summary. *)
Lemma summary_untouched this w t k f :
  write_all f (take k (record_writes this w)) !! summaryPath this t
  = f !! summaryPath this t.
Proof.
  unfold record_writes.
  do 4 (destruct k as [|k];
        [cbn [take write_all fold_left fst snd]; by rewrite ?lookup_insert_ne by apart |]).
  cbn [take write_all fold_left fst snd]. rewrite take_nil. cbn [fold_left].
  by rewrite ?lookup_insert_ne by apart.
Qed.

(** The files of a run that returned. *)
Lemma run_post_files this task w w' :
  run_post this task w w' ->
  Forall (fun kv => fs w' !! fst kv = Some (snd kv)) (record_writes this w) /\
  fs w' !! summaryPath this (reading w 8)
  = Some (File (Json.stringify_object (map entry phases))) /\
  forall p, ~ In p (targets this w) -> fs w' !! p = fs w !! p.
Proof.
  intros [Hfs _ _ _]. rewrite Hfs. split; [| split].
  - unfold record_writes. repeat constructor; cbn [fst snd];
      rewrite ?lookup_insert_ne by apart; by rewrite lookup_insert_eq.
  - by rewrite lookup_insert_eq.
  - intros p Hp. unfold targets, record_writes in Hp. cbn [map fst app In] in Hp.
    rewrite !lookup_insert_ne; [done | | | | |]; intros E; apply Hp; tauto.
Qed.

(** What [main] does up to the run. *)
Lemma main_runs d argv w :
  (2 < length argv)%nat ->
  exists w1,
    constructor (instructionsDir (orchestrator d)) (outputDir (orchestrator d)) w
    = (Ok (orchestrator d), w1) /\
    (forall p, p <> outputDir (orchestrator d) -> fs w1 !! p = fs w !! p) /\
    Cli.main d argv w
    = match orchestrate (orchestrator d) (join " " (skipn 2 argv)) w1 with
      | (Ok _, w') => (Cli.Resolved, w')
      | (Throw e, w') => (Cli.Rejected e, w')
      end.
Proof.
  intros Hlen. eexists. split; [apply constructor_eq |]. split.
  - cbn [fs]. intros p Hp. destruct (fs w !! _); [done |]. by rewrite lookup_insert_ne.
  - unfold Cli.main.
    destruct (skipn 2 argv) as [|a args] eqn:E.
    { destruct argv as [|x [|y [|z r]]]; cbn in *; done || lia. }
    cbn [length Nat.eqb].
    erewrite bind_ok by apply constructor_eq. reflexivity.
Qed.

Lemma main_usage d argv w :
  (length argv <= 2)%nat ->
  exists l1 l2 l3,
    Cli.main d argv w = (Cli.Exit 1, print (Log l3) (print (Log l2) (print (Log l1) w))).
Proof.
  intros H. unfold Cli.main.
  assert (E : skipn 2 argv = []) by (destruct argv as [|a [|b [|c r]]]; cbn in *; done || lia).
  rewrite E. cbn [length Nat.eqb]. do 3 eexists. reflexivity.
Qed.

End RunFacts.

(** ** Texts *)

Section TextFacts.
Import JsString Orchestrator Executor Controller Accumulator Text.

Lemma prefix_before_unit (a : ascii) (q y z : string) :
  has_unit a q = false ->
  String.prefix q (y ++ String a z) = true -> String.prefix q y = true.
Proof.
  revert y. induction q as [|b q IH]; intros y Hq H; [by destruct y |].
  cbn in Hq. apply orb_false_elim in Hq as [Hb Hq].
  destruct y as [|d y].
  - rewrite app_nil_l in H. cbn in H. destruct (ascii_dec b a) as [->|]; [| done].
    by rewrite Ascii.eqb_refl in Hb.
  - rewrite app_cons in H. cbn in *. destruct (ascii_dec b d); [| done]. by apply IH.
Qed.

(** A pattern whose first unit occurs nowhere else in it does not
    overlap with itself: it begins inside [x ++ pat] only where it
    begins inside [x], or at the end of [x]. *)
Lemma prefix_no_overlap (a : ascii) (p x : string) :
  has_unit a p = false ->
  String.prefix (String a p) (x ++ String a p) = true ->
  x = EmptyString \/ String.prefix (String a p) x = true.
Proof.
  intros Hp H. destruct x as [|c x]; [by left | right].
  rewrite app_cons in H. cbn in *. destruct (ascii_dec a c); [| done].
  by apply (prefix_before_unit a p x p).
Qed.

Lemma substring_from_length (s : string) (m : nat) :
  String.substring (String.length s) m s = EmptyString.
Proof. induction s as [|c s IH]; [by destruct m | exact IH]. Qed.

Lemma prefix_refl (s : string) : String.prefix s s = true.
Proof. pose proof (prefix_app s EmptyString) as E. by rewrite app_nil_r in E. Qed.

(** Removing the first occurrence of a pattern that was appended to a
    text without any gives the text back. *)
Lemma replace_appended (a : ascii) (p s : string) :
  has_unit a p = false -> occurs (String a p) s = false ->
  replace (String a p) EmptyString (s ++ String a p) = s.
Proof.
  intros Hp. induction s as [|c s IH]; intros Hs.
  - rewrite app_nil_l. cbn [replace].
    by rewrite prefix_refl, app_nil_l, substring_from_length.
  - cbn [occurs] in Hs. apply orb_false_elim in Hs as [Hpre Hs].
    rewrite app_cons. cbn [replace].
    destruct (String.prefix (String a p) (String c (s ++ String a p))) eqn:E.
    + rewrite <- app_cons in E. apply prefix_no_overlap in E as [E|E]; [done | | exact Hp].
      by rewrite E in Hpre.
    + by rewrite IH.
Qed.

Lemma configs_cases ph c :
  configs !! ph = Some c ->
  In (ph, c)
    [("research",
      mkAgentConfig "Research specialist for thorough analysis and requirement gathering"
        ["Read"; "Grep"; "Glob"; "WebSearch"; "WebFetch"; "Task"] (Some "opus"));
     ("plan",
      mkAgentConfig "Planning expert for creating detailed implementation plans"
        ["Read"; "Write"; "Grep"; "Glob"; "Task"] (Some "opus"));
     ("implement",
      mkAgentConfig "Expert developer for implementing code following specifications"
        ["Read"; "Write"; "Edit"; "Bash"; "Grep"; "Glob"; "TodoWrite"] (Some "sonnet"));
     ("correct",
      mkAgentConfig "Quality assurance expert for reviewing and correcting implementations"
        ["Read"; "Edit"; "Bash"; "Grep"; "Glob"; "TodoWrite"] (Some "opus"))].
Proof.
  unfold configs. intros H. apply elem_of_list_to_map_2 in H.
  by apply list_elem_of_In.
Qed.

Lemma substring_0_app (a b : string) :
  String.substring 0 (String.length a) (a ++ b) = a.
Proof.
  induction a as [|c a IH].
  - rewrite app_nil_l. by destruct b.
  - rewrite app_cons. cbn. by rewrite IH.
Qed.

Lemma length_preview (r : string) : (String.length (preview r) <= 1003)%nat.
Proof.
  unfold preview. destruct (Nat.ltb_spec 1000 (String.length r)) as [H|H]; [| lia].
  rewrite length_app, js_substring_0, length_substring_0. cbn [String.length]. lia.
Qed.

Lemma length_blocks (prior : list (string * string)) :
  (String.length (blocks prior) <= budget prior)%nat.
Proof.
  induction prior as [|e prior IH]; [done |].
  cbn [blocks budget]. unfold block.
  rewrite !length_app. pose proof (length_preview (snd e)).
  unfold LF. cbn [String.length]. lia.
Qed.

End TextFacts.

(** * The claims *)

Section Claims.
Import JsString Orchestrator Executor Controller Accumulator Calendar Run.

(** C4.  Truncation law.  A prior result of length [L] enters the payload
    as its first [min L 1000] units, followed by the marker ["..."] if and
    only if [L > 1000]; a result of length up to 1000, and so one of
    length exactly 1000, is included verbatim, without marker.  (The
    threshold is the constant 1000 of the source.) *)
Theorem preview_truncation_law (result : string) :
  let L := String.length result in
  let kept := String.substring 0 (Nat.min L 1000) result in
  Orchestrator.preview result
    = kept ++ (if (1000 <? L)%nat then "..." else EmptyString)
  /\ String.length kept = Nat.min L 1000
  /\ String.prefix kept result = true
  /\ (if (L <=? 1000)%nat then Orchestrator.preview result = result
      else Orchestrator.preview result = kept ++ "...").
Proof.
  intros L kept. subst kept L. unfold Orchestrator.preview. rewrite js_substring_0.
  remember (String.length result) as L eqn:HL.
  replace (Nat.min 1000 L) with (Nat.min L 1000) by lia.
  assert (Hlen : String.length (String.substring 0 (Nat.min L 1000) result) = Nat.min L 1000)
    by (rewrite length_substring_0; lia).
  repeat split.
  - destruct (Nat.ltb_spec 1000 L) as [H|H]; [done |].
    rewrite app_nil_r, substring_0_all; [done | lia].
  - exact Hlen.
  - apply prefix_substring_0.
  - destruct (Nat.leb_spec L 1000) as [H|H];
      destruct (Nat.ltb_spec 1000 L) as [H'|H']; try lia; done.
Qed.

Example preview_of_1000_units :
  Orchestrator.preview (JsString.repeat "a" 1000) = JsString.repeat "a" 1000.
Proof. by vm_compute. Qed.

Example preview_of_1001_units :
  Orchestrator.preview (JsString.repeat "a" 1001) = JsString.repeat "a" 1000 ++ "...".
Proof. by vm_compute. Qed.

Example constructor_demo clk :
  constructor "instructions" "outputs" (mkWorld ∅ clk 0 [] [] ∅)
  = (Ok Demo.this, Demo.world clk).
Proof. reflexivity. Qed.

Lemma demo_healthy clk : healthy Demo.this phases (fs (Demo.world clk)).
Proof.
  split; cbn [fs Demo.world].
  - done.
  - intros p [<- _]%lookup_singleton_Some. done.
  - intros ph _ [H _]%lookup_singleton_Some.
    by apply (f_equal String.length) in H; unfold instructionPath, NodePath.join in H;
      rewrite !length_app in H; cbn in H; lia.
Qed.

Lemma placeholder_nonempty ph : placeholder ph <> EmptyString.
Proof. unfold placeholder. by rewrite app_cons. Qed.

(** C1.  For every task, [orchestrate] returns a result map with exactly
    one entry per phase, in the order research, plan, implement, correct;
    every value is a non-empty string, and the map is the persisted
    summary.  (On a file system that raises no input or output error.) *)
Theorem orchestrate_one_entry_per_phase
    (this : MultiPhaseOrchestrator) (task : string) (w : World) :
  healthy this phases (fs w) ->
  exists results w',
    orchestrate this task w = (Ok results, w') /\
    JsObject.keys results = ["research"; "plan"; "implement"; "correct"] /\
    Forall (fun kv => snd kv <> EmptyString) results /\
    fs w' !! summaryPath this (reading w 8) = Some (File (Json.stringify_object results)).
Proof.
  intros Hh. destruct (orchestrate_healthy this task w Hh) as (w' & Hrun & Hpost).
  exists (map entry phases), w'. split; [done |]. split; [done |]. split.
  - repeat constructor; apply placeholder_nonempty.
  - rewrite (run_fs _ _ _ _ Hpost). apply lookup_insert_eq.
Qed.

Lemma orchestrate_one_entry_per_phase_witness :
  healthy Demo.this phases (fs (Demo.world Demo.ticking)) /\
  exists results w',
    orchestrate Demo.this "build X" (Demo.world Demo.ticking) = (Ok results, w') /\
    JsObject.keys results = ["research"; "plan"; "implement"; "correct"] /\
    Forall (fun kv => snd kv <> EmptyString) results /\
    fs w' !! summaryPath Demo.this (reading (Demo.world Demo.ticking) 8)
    = Some (File (Json.stringify_object results)).
Proof.
  split; [apply demo_healthy |].
  apply (orchestrate_one_entry_per_phase Demo.this "build X" (Demo.world Demo.ticking)).
  apply demo_healthy.
Defined.

Lemma preview_placeholder ph : In ph phases -> preview (placeholder ph) = placeholder ph.
Proof. intros H. repeat (destruct H as [<-|H]; [by vm_compute |]). done. Qed.

(** C5.  The payload of a phase is the task text, then one labeled block
    per earlier phase in completion order holding the (possibly
    truncated) result of that phase, then the instruction text of the
    phase, last and whole; a phase without earlier results gets no
    context block at all.  In a run, the four payloads hold the results
    of exactly the phases completed before, none of a later phase. *)
Theorem payload_assembly (this : MultiPhaseOrchestrator) (task : string) (w : World) :
  healthy this phases (fs w) ->
  (forall taskDescription previousResults phaseInstructions,
     fullPrompt taskDescription previousResults phaseInstructions
     = assemble taskDescription (entries_of previousResults) phaseInstructions) /\
  (forall taskDescription phaseInstructions,
     fullPrompt taskDescription None phaseInstructions
     = taskDescription ++ LF ++ LF ++ "## Phase Instructions:" ++ LF ++ phaseInstructions) /\
  (forall ph, In ph phases -> preview (snd (entry ph)) = snd (entry ph)) /\
  exists results w',
    orchestrate this task w = (Ok results, w') /\
    agent w' =
    (agent w ++
     [request "research"
        (assemble (researchTask task) [] (instructionsFor this "research" (fs w)));
      request "plan"
        (assemble (planTask task) [entry "research"] (instructionsFor this "plan" (fs w)));
      request "implement"
        (assemble (implementTask task) [entry "research"; entry "plan"]
           (instructionsFor this "implement" (fs w)));
      request "correct"
        (assemble (correctTask task) [entry "research"; entry "plan"; entry "implement"]
           (instructionsFor this "correct" (fs w)))])%list.
Proof.
  intros Hh. split; [apply fullPrompt_assemble |]. split; [done |].
  split; [apply preview_placeholder |].
  destruct (orchestrate_healthy this task w Hh) as (w' & Hrun & Hpost).
  exists (map entry phases), w'. split; [done |].
  rewrite (run_agent _ _ _ _ Hpost). by rewrite !fullPrompt_assemble.
Qed.

Lemma payload_assembly_witness :
  healthy Demo.this phases (fs (Demo.world Demo.ticking)) /\
  exists results w',
    orchestrate Demo.this "build X" (Demo.world Demo.ticking) = (Ok results, w') /\
    agent w' =
    [request "research"
       (assemble (researchTask "build X") []
          (instructionsFor Demo.this "research" (fs (Demo.world Demo.ticking))));
     request "plan"
       (assemble (planTask "build X") [entry "research"]
          (instructionsFor Demo.this "plan" (fs (Demo.world Demo.ticking))));
     request "implement"
       (assemble (implementTask "build X") [entry "research"; entry "plan"]
          (instructionsFor Demo.this "implement" (fs (Demo.world Demo.ticking))));
     request "correct"
       (assemble (correctTask "build X") [entry "research"; entry "plan"; entry "implement"]
          (instructionsFor Demo.this "correct" (fs (Demo.world Demo.ticking))))].
Proof.
  split; [apply demo_healthy |].
  apply (payload_assembly Demo.this "build X" (Demo.world Demo.ticking)).
  apply demo_healthy.
Defined.

(** C7.  When the instruction file of a phase is absent, the load does
    not fail: it returns the synthesized instruction and prints a
    warning, and the phase still creates and persists its record. *)
Theorem missing_instruction_is_not_fatal
    (this : MultiPhaseOrchestrator) (ph desc : string)
    (prev : option (list (string * string))) (w : World) :
  fs w !! instructionPath this ph = None ->
  JsObject.inherited ph = false ->
  writable (fs w) (locator this ph (clock w (S (ticks w)))) ->
  loadInstructionFile this (ph ++ "-phase.instructions.md") w
  = (Ok (defaultInstructions ph), print (missingWarning this ph) w) /\
  exists w',
    runPhase this ph desc prev w = (Ok (placeholder ph), w') /\
    In (missingWarning this ph) (console w') /\
    agent w' = (agent w ++ [request ph (fullPrompt desc prev (defaultInstructions ph))])%list /\
    fs w' !! locator this ph (clock w (S (ticks w)))
    = Some (persisted ph (clock w (ticks w))).
Proof.
  intros Hnone Hinh Hw. split; [by apply loadInstructionFile_missing |].
  destruct (runPhase_cases this ph desc prev w)
    as [(c & w' & _ & _ & _ & _ & Hrun & Hpost)|(e & w' & _ & _ & [H|[H|H]])];
    [| congruence ..].
  exists w'. split; [done |]. destruct Hpost as [F _ _ A (lines & Hc & Hin) _].
  split; [rewrite Hc; apply in_or_app; right; by apply Hin |]. split.
  - rewrite A. unfold instructionsFor. by rewrite Hnone.
  - rewrite F. apply lookup_insert_eq.
Qed.

Lemma missing_instruction_is_not_fatal_witness :
  let w := Demo.world Demo.ticking in
  fs w !! instructionPath Demo.this "research" = None /\
  JsObject.inherited "research" = false /\
  writable (fs w) (locator Demo.this "research" (clock w (S (ticks w)))) /\
  exists w',
    runPhase Demo.this "research" (researchTask "build X") None w
    = (Ok (placeholder "research"), w') /\
    In (missingWarning Demo.this "research") (console w') /\
    agent w' = [request "research"
                  (fullPrompt (researchTask "build X") None (defaultInstructions "research"))] /\
    fs w' !! "outputs/research_2026-01-08T12-30-00.124Z.json"
    = Some (persisted "research" 1767875400123).
Proof.
  intros w.
  assert (H1 : fs w !! instructionPath Demo.this "research" = None) by reflexivity.
  assert (H2 : JsObject.inherited "research" = false) by reflexivity.
  assert (H3 : writable (fs w) (locator Demo.this "research" (clock w (S (ticks w)))))
    by (split; by vm_compute).
  do 3 (split; [assumption |]).
  apply (missing_instruction_is_not_fatal Demo.this "research" (researchTask "build X") None
           w H1 H2 H3).
Defined.

(** C10.  The result of a phase is a fixed text determined by the phase
    name alone: two executions of the same phase with different
    orchestrators, task descriptions, earlier results and machines
    (hence instruction files) return the same text, the placeholder of
    the phase, and that text is the result their records carry. *)
Theorem result_depends_on_phase_name_only
    (this1 this2 : MultiPhaseOrchestrator) (ph desc1 desc2 : string)
    (prev1 prev2 : option (list (string * string))) (w1 w2 w1' w2' : World)
    (r1 r2 : string) :
  runPhase this1 ph desc1 prev1 w1 = (Ok r1, w1') ->
  runPhase this2 ph desc2 prev2 w2 = (Ok r2, w2') ->
  r1 = r2 /\ r1 = placeholder ph /\
  fs w1' !! locator this1 ph (clock w1 (S (ticks w1)))
  = Some (File (stringify_PhaseOutput
                  (mkPhaseOutput ph (JsDate.toISOString (clock w1 (ticks w1))) r1 None))) /\
  fs w2' !! locator this2 ph (clock w2 (S (ticks w2)))
  = Some (File (stringify_PhaseOutput
                  (mkPhaseOutput ph (JsDate.toISOString (clock w2 (ticks w2))) r2 None))).
Proof.
  intros H1 H2.
  destruct (runPhase_cases this1 ph desc1 prev1 w1)
    as [(c1 & x1 & _ & _ & _ & _ & Hrun1 & Hpost1)|(e1 & x1 & Hrun1 & _)];
    [| congruence].
  destruct (runPhase_cases this2 ph desc2 prev2 w2)
    as [(c2 & x2 & _ & _ & _ & _ & Hrun2 & Hpost2)|(e2 & x2 & Hrun2 & _)];
    [| congruence].
  rewrite H1 in Hrun1. rewrite H2 in Hrun2. simplify_eq.
  split; [done |]. split; [done |].
  rewrite (post_fs _ _ _ _ _ _ Hpost1), (post_fs _ _ _ _ _ _ Hpost2).
  split; apply lookup_insert_eq.
Qed.

Lemma result_depends_on_phase_name_only_witness :
  let w1 := Demo.world Demo.ticking in
  let w2 := Demo.world Demo.frozen in
  let this2 := mkOrchestrator "docs" "outputs" in
  let out1 := runPhase Demo.this "plan" (planTask "build X") (Some [entry "research"]) w1 in
  let out2 := runPhase this2 "plan" "Task: something else" None w2 in
  out1 = (Ok (placeholder "plan"), snd out1) /\
  out2 = (Ok (placeholder "plan"), snd out2) /\
  placeholder "plan" = placeholder "plan" /\
  placeholder "plan" = placeholder "plan" /\
  fs (snd out1) !! locator Demo.this "plan" (clock w1 (S (ticks w1)))
  = Some (File (stringify_PhaseOutput
                  (mkPhaseOutput "plan" (JsDate.toISOString (clock w1 (ticks w1)))
                     (placeholder "plan") None))) /\
  fs (snd out2) !! locator this2 "plan" (clock w2 (S (ticks w2)))
  = Some (File (stringify_PhaseOutput
                  (mkPhaseOutput "plan" (JsDate.toISOString (clock w2 (ticks w2)))
                     (placeholder "plan") None))).
Proof.
  intros w1 w2 this2 out1 out2.
  assert (H1 : out1 = (Ok (placeholder "plan"), snd out1))
    by (apply returns_eq; by vm_compute).
  assert (H2 : out2 = (Ok (placeholder "plan"), snd out2))
    by (apply returns_eq; by vm_compute).
  do 2 (split; [assumption |]).
  apply (result_depends_on_phase_name_only
           Demo.this this2 "plan" (planTask "build X") "Task: something else"
           (Some [entry "research"]) None w1 w2 (snd out1) (snd out2)
           (placeholder "plan") (placeholder "plan") H1 H2).
Defined.

(** C2 (as the code has it).  A phase execution either completes, and
    then its persisted record carries the result text (the placeholder)
    and no error text, or it throws to its caller, and then no record is
    written: nothing ever fills the error text, so no record carries
    both. *)
Theorem record_carries_result_and_no_error
    (this : MultiPhaseOrchestrator) (ph desc : string)
    (prev : option (list (string * string))) (w : World) :
  (exists w',
     runPhase this ph desc prev w = (Ok (placeholder ph), w') /\
     placeholder ph <> EmptyString /\
     fs w' !! locator this ph (clock w (S (ticks w)))
     = Some (File (stringify_PhaseOutput
                     (mkPhaseOutput ph (JsDate.toISOString (clock w (ticks w)))
                        (placeholder ph) None))))
  \/ (exists e w', runPhase this ph desc prev w = (Throw e, w') /\ fs w' = fs w).
Proof.
  destruct (runPhase_cases this ph desc prev w)
    as [(c & w' & _ & _ & _ & _ & Hrun & Hpost)|(e & w' & Hrun & Hfs & _)].
  - left. exists w'. split; [done |]. split; [apply placeholder_nonempty |].
    rewrite (post_fs _ _ _ _ _ _ Hpost). apply lookup_insert_eq.
  - right. eauto.
Qed.

(** C2, counterexample.  The phase named [constructor] fails inside the
    simulated agent execution (reading [tools] of the inherited
    [Object.prototype.constructor]); the failure is thrown to the caller
    and no record, hence no error text, is written.  The same happens
    when [implement] cannot read its instructions. *)
Lemma agent_failure_is_thrown_not_recorded :
  let out := runPhase Demo.this "constructor" "Task: build X" None (Demo.world Demo.ticking) in
  let out' := runPhase Demo.this "implement" (implementTask "build X") None
                (Demo.unreadable Demo.ticking) in
  fst out = Throw (TypeError "Cannot read properties of undefined (reading 'join')") /\
  fs (snd out) = fs (Demo.world Demo.ticking) /\
  agent (snd out) = [] /\
  fst out' = Throw (EISDIR "instructions/implement-phase.instructions.md") /\
  fs (snd out') = fs (Demo.unreadable Demo.ticking).
Proof.
  intros out out'.
  assert (H : fst out = Throw (TypeError "Cannot read properties of undefined (reading 'join')")
              /\ agent (snd out) = []) by by vm_compute.
  assert (H' : fst out' = Throw (EISDIR "instructions/implement-phase.instructions.md"))
    by by vm_compute.
  destruct H as [H1 H2].
  split; [exact H1 |]. split; [| split; [exact H2 |]; split; [exact H' |]].
  - destruct (runPhase_cases Demo.this "constructor" "Task: build X" None
                (Demo.world Demo.ticking))
      as [(c & w' & _ & _ & _ & _ & Hrun & _)|(e & w' & Hrun & Hfs & _)];
      fold out in Hrun; rewrite Hrun in *; [discriminate | exact Hfs].
  - destruct (runPhase_cases Demo.this "implement" (implementTask "build X") None
                (Demo.unreadable Demo.ticking))
      as [(c & w' & _ & _ & _ & _ & Hrun & _)|(e & w' & Hrun & Hfs & _)];
      fold out' in Hrun; rewrite Hrun in *; [discriminate | exact Hfs].
Qed.

(** C8, at the identifier [constructor]: the lookup finds the member that
    every object inherits from [Object.prototype] instead of falling back
    to the synthesized configuration, and the phase then throws. *)
Lemma getAgentConfig_inherited_member :
  getAgentConfig "constructor" = Inherited "constructor" /\
  getAgentConfig "toString" = Inherited "toString" /\
  fst (runPhase Demo.this "constructor" "Task: build X" None (Demo.world Demo.ticking))
  = Throw (TypeError "Cannot read properties of undefined (reading 'join')").
Proof. by vm_compute. Qed.

(** Apart from the twelve inherited names the lookup is total and gives a
    configuration: the registered one, or the synthesized default. *)
Lemma getAgentConfig_total (ph : string) :
  JsObject.inherited ph = false ->
  exists c, getAgentConfig ph = Config c /\
    (configs !! ph = None ->
     c = mkAgentConfig (toUpperCase (charAt0 ph) ++ slice1 ph ++ " phase specialist")
           ["Read"; "Write"; "Grep"; "Glob"] (Some "sonnet")).
Proof.
  intros Hinh. unfold getAgentConfig. rewrite Hinh.
  destruct (configs !! ph) as [c|]; eexists; split; try reflexivity; congruence.
Qed.

Lemma runPhase_unreadable this ph desc prev w :
  fs w !! instructionPath this ph = Some Dir ->
  exists w', runPhase this ph desc prev w = (Throw (EISDIR (instructionPath this ph)), w') /\
             fs w' = fs w /\ agent w' = agent w.
Proof.
  intros Hd. unfold runPhase. do 3 step.
  erewrite bind_throw by (by apply loadInstructionFile_dir).
  eexists. split; [reflexivity |]. done.
Qed.

(** C3 (as the code has it).  A failure of a phase aborts the pipeline
    at once; no policy is consulted.  Let [research] and [plan] find
    what they need.  Then [implement] is started on the machine [w2]
    that holds their two records, and whatever error [runPhase] throws
    there, [orchestrate] throws the same error and stops in the state
    in which the phase failed: the agent has been asked for [research]
    and [plan], and for [implement] when the phase failed after asking
    it; [correct] is never executed, and neither its record nor a
    summary is written.  Both causes of a failure of [implement] are
    covered: instructions that cannot be read (a directory at their
    path) fail the phase before the agent is asked, a record that
    cannot be written fails it after. *)
Theorem phase_failure_aborts_pipeline
    (this : MultiPhaseOrchestrator) (task : string) (w : World) :
  step_ok this w 0 "research" -> step_ok this w 1 "plan" ->
  exists w2,
    fs w2 = <[locator this "plan" (reading w 3) := persisted "plan" (reading w 2)]>
            (<[locator this "research" (reading w 1) := persisted "research" (reading w 0)]>
               (fs w)) /\
    clock w2 = clock w /\ ticks w2 = (ticks w + 4)%nat /\
    map req_phase (drop (length (agent w)) (agent w2)) = ["research"; "plan"] /\
    (forall e w3,
       runPhase this "implement" (implementTask task)
         (Some [entry "research"; entry "plan"]) w2 = (Throw e, w3) ->
       orchestrate this task w = (Throw e, w3) /\
       fs w3 = fs w2 /\
       (map req_phase (drop (length (agent w)) (agent w3)) = ["research"; "plan"] \/
        map req_phase (drop (length (agent w)) (agent w3)) = ["research"; "plan"; "implement"]) /\
       ~ In "correct" (map req_phase (drop (length (agent w)) (agent w3))) /\
       forall t, fs w3 !! summaryPath this t = fs w !! summaryPath this t) /\
    (fs w !! instructionPath this "implement" = Some Dir ->
     exists w3,
       runPhase this "implement" (implementTask task)
         (Some [entry "research"; entry "plan"]) w2
       = (Throw (EISDIR (instructionPath this "implement")), w3) /\
       map req_phase (drop (length (agent w)) (agent w3)) = ["research"; "plan"]) /\
    (fs w !! instructionPath this "implement" <> Some Dir ->
     ~ writable (fs w2) (locator this "implement" (reading w 5)) ->
     exists e w3,
       runPhase this "implement" (implementTask task)
         (Some [entry "research"; entry "plan"]) w2 = (Throw e, w3) /\
       map req_phase (drop (length (agent w)) (agent w3))
       = ["research"; "plan"; "implement"]).
Proof.
  intros H1 H2. unfold step_ok, record_writes, reading in H1, H2.
  cbn [take write_all fold_left fst snd Nat.mul Nat.add] in H1, H2.
  rewrite !(Nat.add_comm (ticks w)) in H1. rewrite !(Nat.add_comm (ticks w)) in H2.
  cbn [Nat.add] in H1, H2.
  unfold orchestrate. do 7 step.
  match goal with |- context [(runPhase _ _ ?d ?p ≫= _) ?x] =>
    destruct (runPhase_phase_cases this "research" d p x)
      as [(_ & _ & w1 & Hrun1 & Hp1)|(Hno & _)]; [cbn; tauto | | by destruct Hno]
  end.
  erewrite bind_ok by exact Hrun1. step.
  destruct Hp1 as [F1 C1 T1 A1 _ _]. cbn [fs clock ticks agent print] in *.
  match goal with |- context [(runPhase _ _ ?d ?p ≫= _) ?x] =>
    destruct (runPhase_phase_cases this "plan" d p x)
      as [(_ & _ & w2 & Hrun2 & Hp2)|(Hno & _)]; [cbn; tauto | |]
  end.
  2:{ cbn [fs clock ticks print] in Hno. rewrite F1, C1, T1 in Hno.
      exfalso. apply Hno. exact H2. }
  erewrite bind_ok by exact Hrun2. step.
  destruct Hp2 as [F2 C2 T2 A2 _ _]. cbn [fs clock ticks agent print] in *.
  rewrite F1, C1, T1 in *.
  match goal with |- context [(runPhase _ _ ?d ?p ≫= _) ?x] => set (x2 := x) end.
  assert (Hfs : fs x2
                = <[locator this "plan" (reading w 3) := persisted "plan" (reading w 2)]>
                  (<[locator this "research" (reading w 1) :=
                       persisted "research" (reading w 0)]> (fs w))).
  { subst x2. cbn [fs print]. rewrite F2. unfold reading.
    rewrite !(Nat.add_comm (ticks w)). reflexivity. }
  assert (Hag : agent x2 = (agent w ++
                  [request "research"
                     (fullPrompt (researchTask task) None
                        (instructionsFor this "research" (fs w)));
                   request "plan"
                     (fullPrompt (planTask task) (Some [entry "research"])
                        (instructionsFor this "plan"
                           (<[locator this "research" (clock w (S (ticks w))) :=
                                persisted "research" (clock w (ticks w))]> (fs w))))])%list).
  { subst x2. cbn [agent print]. rewrite A2, A1, <- List.app_assoc. reflexivity. }
  assert (Hinstr : fs x2 !! instructionPath this "implement"
                   = fs w !! instructionPath this "implement").
  { rewrite Hfs. by rewrite !lookup_insert_ne by apply locator_neq_instructionPath. }
  exists x2. split; [exact Hfs |]. split; [by subst x2; cbn [clock print] |].
  split; [subst x2; cbn [ticks print]; rewrite T2; lia |].
  split; [by rewrite Hag, drop_app_length |].
  split; [| split].
  - intros e w3 Hrun. erewrite bind_throw by exact Hrun. split; [reflexivity |].
    apply runPhase_throws in Hrun as (Hf & Hfs3 & _).
    split; [exact Hfs3 |].
    assert (Htr : map req_phase (drop (length (agent w)) (agent w3)) = ["research"; "plan"] \/
                  map req_phase (drop (length (agent w)) (agent w3))
                  = ["research"; "plan"; "implement"]).
    { destruct Hf as [_ _ _ Ha| _ _ _ _ Ha|loc' _ _ _ _ Ha]; rewrite Ha, Hag.
      - left. by rewrite drop_app_length.
      - left. by rewrite drop_app_length.
      - right. by rewrite <- List.app_assoc, drop_app_length. }
    split; [exact Htr |]. split.
    + destruct Htr as [-> | ->]; cbn; intros H; repeat destruct H as [H|H]; discriminate || done.
    + intros t. rewrite Hfs3, Hfs.
      by rewrite !lookup_insert_ne
        by (apply not_eq_sym, summaryPath_neq_locator; cbn; tauto).
  - intros Hd. rewrite <- Hinstr in Hd.
    destruct (runPhase_unreadable this "implement" (implementTask task)
                (Some [entry "research"; entry "plan"]) x2 Hd) as (w3 & Hrun & _ & Ha).
    exists w3. split; [exact Hrun |]. by rewrite Ha, Hag, drop_app_length.
  - intros Hnd Hnw. rewrite <- Hinstr in Hnd.
    destruct (runPhase_cases this "implement" (implementTask task)
                (Some [entry "research"; entry "plan"]) x2)
      as [(c & w3 & _ & _ & _ & W & _)|(e & w3 & Hrun & _)].
    + exfalso. apply Hnw. subst x2. cbn [fs clock ticks print] in *.
      rewrite C2, T2 in W. unfold reading.
      rewrite !(Nat.add_comm (ticks w)). exact W.
    + exists e, w3. split; [exact Hrun |].
      apply runPhase_throws in Hrun as (Hf & _).
      destruct Hf as [_ Hd _ _| _ _ Hi _ _|loc' _ _ _ _ Ha]; [done | done |].
      by rewrite Ha, Hag, <- List.app_assoc, drop_app_length.
Qed.

Lemma demo_unreadable_steps :
  step_ok Demo.this (Demo.unreadable Demo.ticking) 0 "research" /\
  step_ok Demo.this (Demo.unreadable Demo.ticking) 1 "plan".
Proof. unfold step_ok, writable. repeat split; by vm_compute. Qed.

Lemma phase_failure_aborts_pipeline_witness :
  step_ok Demo.this (Demo.unreadable Demo.ticking) 0 "research" /\
  step_ok Demo.this (Demo.unreadable Demo.ticking) 1 "plan" /\
  exists w2,
    fs w2 = <[locator Demo.this "plan" (reading (Demo.unreadable Demo.ticking) 3) :=
                persisted "plan" (reading (Demo.unreadable Demo.ticking) 2)]>
            (<[locator Demo.this "research" (reading (Demo.unreadable Demo.ticking) 1) :=
                 persisted "research" (reading (Demo.unreadable Demo.ticking) 0)]>
               (fs (Demo.unreadable Demo.ticking))) /\
    clock w2 = clock (Demo.unreadable Demo.ticking) /\
    ticks w2 = (ticks (Demo.unreadable Demo.ticking) + 4)%nat /\
    map req_phase (drop (length (agent (Demo.unreadable Demo.ticking))) (agent w2))
    = ["research"; "plan"] /\
    (forall e w3,
       runPhase Demo.this "implement" (implementTask "build X")
         (Some [entry "research"; entry "plan"]) w2 = (Throw e, w3) ->
       orchestrate Demo.this "build X" (Demo.unreadable Demo.ticking) = (Throw e, w3) /\
       fs w3 = fs w2 /\
       (map req_phase (drop (length (agent (Demo.unreadable Demo.ticking))) (agent w3))
        = ["research"; "plan"] \/
        map req_phase (drop (length (agent (Demo.unreadable Demo.ticking))) (agent w3))
        = ["research"; "plan"; "implement"]) /\
       ~ In "correct"
           (map req_phase (drop (length (agent (Demo.unreadable Demo.ticking))) (agent w3))) /\
       forall t, fs w3 !! summaryPath Demo.this t
                 = fs (Demo.unreadable Demo.ticking) !! summaryPath Demo.this t) /\
    (fs (Demo.unreadable Demo.ticking) !! instructionPath Demo.this "implement" = Some Dir ->
     exists w3,
       runPhase Demo.this "implement" (implementTask "build X")
         (Some [entry "research"; entry "plan"]) w2
       = (Throw (EISDIR (instructionPath Demo.this "implement")), w3) /\
       map req_phase (drop (length (agent (Demo.unreadable Demo.ticking))) (agent w3))
       = ["research"; "plan"]) /\
    (fs (Demo.unreadable Demo.ticking) !! instructionPath Demo.this "implement" <> Some Dir ->
     ~ writable (fs w2)
         (locator Demo.this "implement" (reading (Demo.unreadable Demo.ticking) 5)) ->
     exists e w3,
       runPhase Demo.this "implement" (implementTask "build X")
         (Some [entry "research"; entry "plan"]) w2 = (Throw e, w3) /\
       map req_phase (drop (length (agent (Demo.unreadable Demo.ticking))) (agent w3))
       = ["research"; "plan"; "implement"]).
Proof.
  split; [apply demo_unreadable_steps |]. split; [apply demo_unreadable_steps |].
  apply (phase_failure_aborts_pipeline Demo.this "build X" (Demo.unreadable Demo.ticking));
    apply demo_unreadable_steps.
Defined.

(** The other cause: with a directory at the locator of the record of
    [implement], the run of ["build X"] throws when that record is
    written; the agent has been asked for [implement] as well, and
    [correct] never ran. *)
Lemma implement_record_unwritable :
  fst (orchestrate Demo.this "build X" Trial.unwritable)
  = Throw (EISDIR "outputs/implement_2026-01-08T12-30-00.128Z.json") /\
  map req_phase (agent (snd (orchestrate Demo.this "build X" Trial.unwritable)))
  = ["research"; "plan"; "implement"].
Proof. by vm_compute. Qed.

(** C3, counterexample.  With a directory in the place of the
    instructions of [implement], the run of ["build X"] throws during
    [implement]; the agent was asked for [research] and [plan] only, so
    [correct] never ran, for want of any policy that would continue. *)
Lemma implement_failure_stops_the_run :
  let out := orchestrate Demo.this "build X" (Demo.unreadable Demo.ticking) in
  fst out = Throw (EISDIR "instructions/implement-phase.instructions.md") /\
  map req_phase (agent (snd out)) = ["research"; "plan"] /\
  ~ In "correct" (map req_phase (agent (snd out))).
Proof.
  intros out.
  assert (H : fst out = Throw (EISDIR "instructions/implement-phase.instructions.md") /\
              map req_phase (agent (snd out)) = ["research"; "plan"]) by by vm_compute.
  clearbody out. destruct H as [H1 H2]. rewrite H2. split; [exact H1 |]. split; [reflexivity |].
  cbn. intros [H|[H|[]]]; discriminate.
Qed.

Lemma locator_eq_iff this ph1 ph2 t1 t2 :
  valid_time t1 -> valid_time t2 ->
  locator this ph1 t1 = locator this ph2 t2 <-> ph1 = ph2 /\ t1 = t2.
Proof.
  intros H1 H2. split; [| by intros [-> ->]].
  intros E. apply join_inj in E.
  apply app_inv_same_length in E as [Hph E].
  2:{ rewrite !app_cons, !app_nil_l. cbn [String.length].
      by rewrite !length_app, !length_stamp. }
  split; [done |].
  rewrite !app_cons, !app_nil_l in E. injection E as E.
  apply app_inv_same_length in E as [E _]; [| done].
  by apply stamp_inj.
Qed.

Lemma locator_lt this ph t1 t2 :
  valid_time t1 -> valid_time t2 -> (t1 < t2)%Z ->
  String.ltb (locator this ph t1) (locator this ph t2) = true.
Proof.
  intros H1 H2 Hlt. unfold String.ltb, locator, NodePath.join.
  rewrite <- !(app_assoc ph "_"), <- !(app_assoc "/"), <- !(app_assoc (outputDir this)).
  rewrite compare_app_l, compare_app_lt; [done | |].
  - by rewrite !length_stamp.
  - by apply stamp_lt.
Qed.

(** C6 (as the code has it).  For an output directory in simple form
    and phase names without separator, a persisted record gets the
    locator [<outputDir>/<phase>_<instant>.json] (what [path.join]
    returns for them), the instant being the clock reading of the call
    printed to the millisecond.  Two calls yield distinct locators
    exactly when they differ in the phase or in the clock reading, and
    the locators of one phase are ordered as their instants (for
    instants in the years 0 to 9999). *)
Theorem locator_names_phase_and_instant
    (this : MultiPhaseOrchestrator) (po1 po2 : PhaseOutput) (w1 w2 : World) :
  let t1 := clock w1 (ticks w1) in
  let t2 := clock w2 (ticks w2) in
  PosixPath.simple (outputDir this) = true ->
  no_slash (phase po1) = true -> no_slash (phase po2) = true ->
  writable (fs w1) (locator this (phase po1) t1) ->
  writable (fs w2) (locator this (phase po2) t2) ->
  valid_time t1 -> valid_time t2 ->
  exists l1 l2 w1' w2',
    savePhaseOutput this po1 w1 = (Ok l1, w1') /\
    savePhaseOutput this po2 w2 = (Ok l2, w2') /\
    l1 = PosixPath.join (outputDir this) (phase po1 ++ "_" ++ stamp t1 ++ ".json") /\
    l2 = PosixPath.join (outputDir this) (phase po2 ++ "_" ++ stamp t2 ++ ".json") /\
    l1 = outputDir this ++ "/" ++ phase po1 ++ "_" ++ stamp t1 ++ ".json" /\
    l2 = outputDir this ++ "/" ++ phase po2 ++ "_" ++ stamp t2 ++ ".json" /\
    (l1 <> l2 <-> phase po1 <> phase po2 \/ t1 <> t2) /\
    (phase po1 = phase po2 -> (t1 < t2)%Z -> String.ltb l1 l2 = true).
Proof.
  intros t1 t2 Hd Hn1 Hn2 Hw1 Hw2 Hv1 Hv2.
  destruct (savePhaseOutput_cases this po1 w1) as [[_ Hs1]|[Hn _]]; [| done].
  destruct (savePhaseOutput_cases this po2 w2) as [[_ Hs2]|[Hn _]]; [| done].
  assert (Hj : forall ph t, no_slash ph = true ->
                 PosixPath.join (outputDir this) (ph ++ "_" ++ stamp t ++ ".json")
                 = locator this ph t).
  { intros ph t Hph. apply join_simple; [exact Hd | by apply no_slash_record_name |].
    apply plain_long. rewrite !length_app. cbn [String.length]. lia. }
  do 4 eexists. split; [exact Hs1 |]. split; [exact Hs2 |]. fold t1 t2.
  split; [by rewrite Hj |]. split; [by rewrite Hj |].
  split; [reflexivity |]. split; [reflexivity |]. split.
  - rewrite (locator_eq_iff this _ _ t1 t2 Hv1 Hv2).
    destruct (decide (phase po1 = phase po2)), (decide (t1 = t2)); tauto.
  - intros -> Hlt. by apply locator_lt.
Qed.

Lemma locator_names_phase_and_instant_witness :
  let this := Demo.this in
  let w1 := Demo.world Demo.ticking in
  let w2 := tick (tick (Demo.world Demo.ticking)) in
  let po := record "research" 1767875400123 in
  PosixPath.simple (outputDir this) = true /\
  no_slash "research" = true /\
  writable (fs w1) (locator this "research" 1767875400123) /\
  writable (fs w2) (locator this "research" 1767875400125) /\
  valid_time 1767875400123 /\ valid_time 1767875400125 /\
  exists l1 l2 w1' w2',
    savePhaseOutput this po w1 = (Ok l1, w1') /\
    savePhaseOutput this po w2 = (Ok l2, w2') /\
    l1 = PosixPath.join (outputDir this) ("research" ++ "_" ++ stamp 1767875400123 ++ ".json") /\
    l2 = PosixPath.join (outputDir this) ("research" ++ "_" ++ stamp 1767875400125 ++ ".json") /\
    l1 = outputDir this ++ "/" ++ "research" ++ "_" ++ stamp 1767875400123 ++ ".json" /\
    l2 = outputDir this ++ "/" ++ "research" ++ "_" ++ stamp 1767875400125 ++ ".json" /\
    (l1 <> l2 <-> "research" <> "research" \/ 1767875400123%Z <> 1767875400125%Z) /\
    ("research" = "research" -> (1767875400123 < 1767875400125)%Z -> String.ltb l1 l2 = true).
Proof.
  intros this w1 w2 po.
  assert (H1 : writable (fs w1) (locator this "research" 1767875400123))
    by (split; by vm_compute).
  assert (H2 : writable (fs w2) (locator this "research" 1767875400125))
    by (split; by vm_compute).
  assert (H3 : valid_time 1767875400123) by (split; by vm_compute).
  assert (H4 : valid_time 1767875400125) by (split; by vm_compute).
  split; [reflexivity |]. split; [reflexivity |].
  do 4 (split; [assumption |]).
  apply (locator_names_phase_and_instant this po po w1 w2
           eq_refl eq_refl eq_refl H1 H2 H3 H4).
Defined.

(** C6, counterexample.  Two records of the same phase persisted within
    one millisecond get the same locator, and the second replaces the
    first; and the names of a run sort by phase, not by time: the record
    of [correct], written last, sorts before that of [research], written
    first. *)
Lemma same_millisecond_same_locator :
  let w0 := Demo.world Demo.frozen in
  let first := mkPhaseOutput "research" "2026-01-08T12:30:00.123Z" "first" None in
  let second := mkPhaseOutput "research" "2026-01-08T12:30:00.123Z" "second" None in
  let out1 := savePhaseOutput Demo.this first w0 in
  let out2 := savePhaseOutput Demo.this second (snd out1) in
  fst out1 = Ok "outputs/research_2026-01-08T12-30-00.123Z.json" /\
  fst out2 = Ok "outputs/research_2026-01-08T12-30-00.123Z.json" /\
  fs (snd out2) !! "outputs/research_2026-01-08T12-30-00.123Z.json"
  = Some (File (stringify_PhaseOutput second)) /\
  String.ltb (locator Demo.this "correct" 1767875400130)
             (locator Demo.this "research" 1767875400124) = true.
Proof. by vm_compute. Qed.

(** C9 (as the code has it).  The record of each phase is stamped with
    the clock reading taken when it is created, and the readings are
    taken in the order of execution (the even readings of the run).  The
    time stamps of two phases increase strictly when their readings do
    (for instants in the years 0 to 9999), and are equal when the two
    readings are. *)
Theorem timestamps_follow_the_clock
    (this : MultiPhaseOrchestrator) (task : string) (w : World) :
  healthy this phases (fs w) ->
  exists results w',
    orchestrate this task w = (Ok results, w') /\
    Forall2
      (fun ph k =>
         fs w' !! locator this ph (reading w (2 * k + 1))
         = Some (File (stringify_PhaseOutput
                         (mkPhaseOutput ph (JsDate.toISOString (reading w (2 * k)))
                            (placeholder ph) None))))
      phases [0; 1; 2; 3]%nat /\
    (forall i j : nat,
        valid_time (reading w (2 * i)) -> valid_time (reading w (2 * j)) ->
        (reading w (2 * i) < reading w (2 * j))%Z ->
        String.ltb (JsDate.toISOString (reading w (2 * i)))
                   (JsDate.toISOString (reading w (2 * j))) = true) /\
    (forall i j : nat,
        reading w (2 * i) = reading w (2 * j) ->
        JsDate.toISOString (reading w (2 * i)) = JsDate.toISOString (reading w (2 * j))).
Proof.
  intros Hh. destruct (orchestrate_healthy this task w Hh) as (w' & Hrun & Hpost).
  exists (map entry phases), w'. split; [done |]. split; [| split].
  - rewrite (run_fs _ _ _ _ Hpost). unfold summaryPath, persisted, record.
    repeat constructor; cbn [Nat.mul Nat.add].
    + rewrite lookup_insert_ne
        by (intros E; apply join_inj in E; rewrite ?app_cons in E; discriminate).
      rewrite !lookup_insert_ne by (apply locators_of_phases_differ; cbn; intuition congruence).
      apply lookup_insert_eq.
    + rewrite lookup_insert_ne
        by (intros E; apply join_inj in E; rewrite ?app_cons in E; discriminate).
      rewrite !lookup_insert_ne by (apply locators_of_phases_differ; cbn; intuition congruence).
      apply lookup_insert_eq.
    + rewrite lookup_insert_ne
        by (intros E; apply join_inj in E; rewrite ?app_cons in E; discriminate).
      rewrite !lookup_insert_ne by (apply locators_of_phases_differ; cbn; intuition congruence).
      apply lookup_insert_eq.
    + rewrite lookup_insert_ne
        by (intros E; apply join_inj in E; rewrite ?app_cons in E; discriminate).
      apply lookup_insert_eq.
  - intros i j Hi Hj Hlt. unfold String.ltb. by rewrite toISOString_lt.
  - intros i j E. by rewrite E.
Qed.

Lemma timestamps_follow_the_clock_witness :
  let w := Demo.world Demo.ticking in
  healthy Demo.this phases (fs w) /\
  exists results w',
    orchestrate Demo.this "build X" w = (Ok results, w') /\
    Forall2
      (fun ph k =>
         fs w' !! locator Demo.this ph (reading w (2 * k + 1))
         = Some (File (stringify_PhaseOutput
                         (mkPhaseOutput ph (JsDate.toISOString (reading w (2 * k)))
                            (placeholder ph) None))))
      phases [0; 1; 2; 3]%nat /\
    (forall i j : nat,
        valid_time (reading w (2 * i)) -> valid_time (reading w (2 * j)) ->
        (reading w (2 * i) < reading w (2 * j))%Z ->
        String.ltb (JsDate.toISOString (reading w (2 * i)))
                   (JsDate.toISOString (reading w (2 * j))) = true) /\
    (forall i j : nat,
        reading w (2 * i) = reading w (2 * j) ->
        JsDate.toISOString (reading w (2 * i)) = JsDate.toISOString (reading w (2 * j))).
Proof.
  intros w. split; [apply demo_healthy |].
  apply (timestamps_follow_the_clock Demo.this "build X" w). apply demo_healthy.
Defined.

(** C9, counterexample.  When the whole run takes place within one
    millisecond, the records of [research] and of [plan], executed one
    after the other, carry the same time stamp. *)
Lemma same_millisecond_same_timestamp :
  let out := orchestrate Demo.this "build X" (Demo.world Demo.frozen) in
  fs (snd out) !! "outputs/research_2026-01-08T12-30-00.123Z.json"
  = Some (File (stringify_PhaseOutput
                  (mkPhaseOutput "research" "2026-01-08T12:30:00.123Z"
                     (placeholder "research") None))) /\
  fs (snd out) !! "outputs/plan_2026-01-08T12-30-00.123Z.json"
  = Some (File (stringify_PhaseOutput
                  (mkPhaseOutput "plan" "2026-01-08T12:30:00.123Z"
                     (placeholder "plan") None))) /\
  String.ltb "2026-01-08T12:30:00.123Z" "2026-01-08T12:30:00.123Z" = false.
Proof. by vm_compute. Qed.

End Claims.

(** * Further properties of the code *)

(** ** The properties *)

Section Properties.
Import JsString Orchestrator Executor Controller Accumulator Run Text Cli.

Local Arguments JsDate.toISOString : simpl never.
Local Arguments placeholder : simpl never.
Local Arguments fullPrompt : simpl never.
Local Arguments stringify_PhaseOutput : simpl never.
Local Arguments orchestrate : simpl never.
Local Arguments constructor : simpl never.

Lemma main_usage_lines d argv w :
  (length argv <= 2)%nat ->
  Cli.main d argv w
  = (Cli.Exit 1,
     print (Log ("  ts-node orchestrator.ts " ++ DQ ++
                 "Create a REST API with authentication" ++ DQ))
       (print (Log (LF ++ "Example:"))
          (print (Log ("Usage: ts-node orchestrator.ts " ++ DQ ++ "<task description>" ++
                       DQ)) w))).
Proof.
  intros H. unfold Cli.main.
  assert (E : skipn 2 argv = []) by (destruct argv as [|a [|b [|c r]]]; cbn in *; done || lia).
  rewrite E. reflexivity.
Qed.

(** X1.  [orchestrate] returns only on a machine that is ready for
    it: the output directory is a directory, and none of the four
    instruction paths and of the five paths written to is one.  (The
    directories are in simple form, so that the paths are those of
    [path.join].) *)
Theorem orchestrate_returns_only_if_ready this task w results w' :
  plain_dirs this ->
  orchestrate this task w = (Ok results, w') -> ready this w.
Proof. intros _ H. by apply orchestrate_ok_inv in H as (_ & H & _). Qed.

Lemma orchestrate_returns_only_if_ready_witness :
  plain_dirs Demo.this /\
  orchestrate Demo.this "build X" (Demo.world Demo.ticking)
  = (Ok (map entry phases), snd (orchestrate Demo.this "build X" (Demo.world Demo.ticking))) /\
  ready Demo.this (Demo.world Demo.ticking).
Proof.
  assert (H : orchestrate Demo.this "build X" (Demo.world Demo.ticking)
              = (Ok (map entry phases),
                 snd (orchestrate Demo.this "build X" (Demo.world Demo.ticking))))
    by (apply pair_fst; vm_compute; reflexivity).
  split; [by split |]. split; [exact H |].
  exact (orchestrate_returns_only_if_ready Demo.this "build X" (Demo.world Demo.ticking)
           _ _ (conj eq_refl eq_refl) H).
Defined.

(** X2.  A run that fails leaves behind the records of the first k
    phases and nothing else: no summary is written.  The agent was
    asked for those k phases and for at most one more, the phase that
    failed.  (The directories are in simple form.) *)
Theorem orchestrate_failure_keeps_prefix this task w e w' :
  plain_dirs this ->
  orchestrate this task w = (Throw e, w') ->
  exists k j, (k <= 4)%nat /\ (j = k \/ j = S k /\ (k < 4)%nat) /\
    fs w' = write_all (fs w) (take k (record_writes this w)) /\
    map req_phase (agent w') = (map req_phase (agent w) ++ take j phases)%list /\
    forall t, fs w' !! summaryPath this t = fs w !! summaryPath this t.
Proof.
  intros _ H. apply orchestrate_throw_inv in H as (_ & _ & k & j & Hk & Hj & Hfs & Hag).
  exists k, j. do 4 (split; [done |]).
  intros t. rewrite Hfs. apply summary_untouched.
Qed.

Lemma orchestrate_failure_keeps_prefix_witness :
  plain_dirs Demo.this /\
  orchestrate Demo.this "build X" (Demo.unreadable Demo.ticking)
  = (Throw (EISDIR "instructions/implement-phase.instructions.md"),
     snd (orchestrate Demo.this "build X" (Demo.unreadable Demo.ticking))) /\
  exists k j, (k <= 4)%nat /\ (j = k \/ j = S k /\ (k < 4)%nat) /\
    fs (snd (orchestrate Demo.this "build X" (Demo.unreadable Demo.ticking)))
    = write_all (fs (Demo.unreadable Demo.ticking))
        (take k (record_writes Demo.this (Demo.unreadable Demo.ticking))) /\
    map req_phase (agent (snd (orchestrate Demo.this "build X" (Demo.unreadable Demo.ticking))))
    = (map req_phase (agent (Demo.unreadable Demo.ticking)) ++ take j phases)%list /\
    forall t,
      fs (snd (orchestrate Demo.this "build X" (Demo.unreadable Demo.ticking)))
      !! summaryPath Demo.this t
      = fs (Demo.unreadable Demo.ticking) !! summaryPath Demo.this t.
Proof.
  assert (H : orchestrate Demo.this "build X" (Demo.unreadable Demo.ticking)
              = (Throw (EISDIR "instructions/implement-phase.instructions.md"),
                 snd (orchestrate Demo.this "build X" (Demo.unreadable Demo.ticking))))
    by (apply pair_fst; vm_compute; reflexivity).
  split; [by split |]. split; [exact H |].
  exact (orchestrate_failure_keeps_prefix Demo.this "build X" (Demo.unreadable Demo.ticking)
           _ _ (conj eq_refl eq_refl) H).
Defined.

(** X3.  A run that returns has written five files at five different
    paths, whatever the clock showed: the four records, each holding
    what was persisted for its phase, and the summary of the returned
    results.  No other path of the file system has changed. *)
Theorem orchestrate_writes_exactly_targets this task w results w' :
  orchestrate this task w = (Ok results, w') ->
  NoDup (targets this w) /\
  Forall (fun kv => fs w' !! fst kv = Some (snd kv)) (record_writes this w) /\
  fs w' !! summaryPath this (reading w 8) = Some (File (Json.stringify_object results)) /\
  forall p, ~ In p (targets this w) -> fs w' !! p = fs w !! p.
Proof.
  intros H. apply orchestrate_ok_inv in H as (-> & _ & Hpost & _).
  split; [apply targets_NoDup |]. by apply (run_post_files this task).
Qed.

Lemma orchestrate_writes_exactly_targets_witness :
  orchestrate Demo.this "build X" (Demo.world Demo.frozen)
  = (Ok (map entry phases), snd (orchestrate Demo.this "build X" (Demo.world Demo.frozen))) /\
  (NoDup (targets Demo.this (Demo.world Demo.frozen)) /\
   Forall (fun kv =>
             fs (snd (orchestrate Demo.this "build X" (Demo.world Demo.frozen))) !! fst kv
             = Some (snd kv))
     (record_writes Demo.this (Demo.world Demo.frozen)) /\
   fs (snd (orchestrate Demo.this "build X" (Demo.world Demo.frozen)))
   !! summaryPath Demo.this (reading (Demo.world Demo.frozen) 8)
   = Some (File (Json.stringify_object (map entry phases))) /\
   forall p, ~ In p (targets Demo.this (Demo.world Demo.frozen)) ->
             fs (snd (orchestrate Demo.this "build X" (Demo.world Demo.frozen))) !! p
             = fs (Demo.world Demo.frozen) !! p).
Proof.
  assert (H : orchestrate Demo.this "build X" (Demo.world Demo.frozen)
              = (Ok (map entry phases),
                 snd (orchestrate Demo.this "build X" (Demo.world Demo.frozen))))
    by (apply pair_fst; vm_compute; reflexivity).
  split; [exact H |].
  exact (orchestrate_writes_exactly_targets Demo.this "build X" (Demo.world Demo.frozen)
           _ _ H).
Defined.

(** X4.  After a run that returns, the results kept on the object are
    the results returned: every returned entry is stored under its
    phase, and the other keys are as before. *)
Theorem orchestrate_keeps_results this task w results w' :
  orchestrate this task w = (Ok results, w') ->
  (forall ph r, In (ph, r) results -> phaseResults w' !! ph = Some r) /\
  (forall ph, ~ In ph (map fst results) -> phaseResults w' !! ph = phaseResults w !! ph).
Proof.
  intros H. apply orchestrate_ok_inv in H as (-> & _ & _ & Hres). rewrite Hres. split.
  - intros ph r Hin. unfold entry in Hin. cbn [map phases In] in Hin.
    repeat (destruct Hin as [Hin|Hin];
            [injection Hin as <- <-;
             rewrite ?lookup_insert_ne by discriminate; by rewrite lookup_insert_eq |]).
    done.
  - intros ph Hph. cbn [map phases fst entry In] in Hph.
    rewrite !lookup_insert_ne; [done | | | |]; intros E; apply Hph; tauto.
Qed.

Lemma orchestrate_keeps_results_witness :
  orchestrate Demo.this "build X" (Demo.world Demo.ticking)
  = (Ok (map entry phases), snd (orchestrate Demo.this "build X" (Demo.world Demo.ticking))) /\
  ((forall ph r, In (ph, r) (map entry phases) ->
      phaseResults (snd (orchestrate Demo.this "build X" (Demo.world Demo.ticking))) !! ph
      = Some r) /\
   (forall ph, ~ In ph (map fst (map entry phases)) ->
      phaseResults (snd (orchestrate Demo.this "build X" (Demo.world Demo.ticking))) !! ph
      = phaseResults (Demo.world Demo.ticking) !! ph)).
Proof.
  assert (H : orchestrate Demo.this "build X" (Demo.world Demo.ticking)
              = (Ok (map entry phases),
                 snd (orchestrate Demo.this "build X" (Demo.world Demo.ticking))))
    by (apply pair_fst; vm_compute; reflexivity).
  split; [exact H |].
  exact (orchestrate_keeps_results Demo.this "build X" (Demo.world Demo.ticking) _ _ H).
Defined.

(** X5.  For a phase name without separator and directories in simple
    form, [runPhase] returns only if the instruction path of the phase
    is not a directory, the name is not a member of
    [Object.prototype], and the locator of its record is writable. *)
Theorem runPhase_returns_only_if this ph desc prev w r w' :
  plain_dirs this -> no_slash ph = true ->
  runPhase this ph desc prev w = (Ok r, w') ->
  fs w !! instructionPath this ph <> Some Dir /\
  JsObject.inherited ph = false /\
  writable (fs w) (locator this ph (clock w (S (ticks w)))).
Proof.
  intros _ _ H.
  destruct (runPhase_cases this ph desc prev w)
    as [(c & w0 & I & _ & Hi & W & _)|(e & w0 & Hrun & _)]; [done | congruence].
Qed.

Lemma runPhase_returns_only_if_witness :
  plain_dirs Demo.this /\ no_slash "deploy" = true /\
  runPhase Demo.this "deploy" "Task: build X" None (Demo.world Demo.frozen)
  = (Ok (placeholder "deploy"),
     snd (runPhase Demo.this "deploy" "Task: build X" None (Demo.world Demo.frozen))) /\
  fs (Demo.world Demo.frozen) !! instructionPath Demo.this "deploy" <> Some Dir /\
  JsObject.inherited "deploy" = false /\
  writable (fs (Demo.world Demo.frozen))
    (locator Demo.this "deploy"
       (clock (Demo.world Demo.frozen) (S (ticks (Demo.world Demo.frozen))))).
Proof.
  assert (H : runPhase Demo.this "deploy" "Task: build X" None (Demo.world Demo.frozen)
              = (Ok (placeholder "deploy"),
                 snd (runPhase Demo.this "deploy" "Task: build X" None
                        (Demo.world Demo.frozen))))
    by (apply pair_fst; vm_compute; reflexivity).
  split; [by split |]. split; [reflexivity |]. split; [exact H |].
  exact (runPhase_returns_only_if Demo.this "deploy" "Task: build X" None
           (Demo.world Demo.frozen) _ _ (conj eq_refl eq_refl) eq_refl H).
Defined.

(** X6.  When the record of a phase cannot be written (its locator is
    a directory, or the output directory is not one), the work of the
    agent is lost: for a phase name without separator whose
    instructions can be loaded, and directories in simple form,
    [runPhase] asks the agent with the full prompt and then throws; two
    clock readings are spent, and neither the file system nor the
    results kept on the object have changed. *)
Theorem runPhase_unwritable_record this ph desc prev w :
  plain_dirs this -> no_slash ph = true ->
  fs w !! instructionPath this ph <> Some Dir ->
  JsObject.inherited ph = false ->
  ~ writable (fs w) (locator this ph (clock w (S (ticks w)))) ->
  exists e w',
    runPhase this ph desc prev w = (Throw e, w') /\
    fs w' = fs w /\ ticks w' = S (S (ticks w)) /\ phaseResults w' = phaseResults w /\
    exists r, agent w' = (agent w ++ [r])%list /\ req_phase r = ph /\
              req_prompt r = fullPrompt desc prev (instructionsFor this ph (fs w)).
Proof.
  intros _ _ Hi Hinh Hw.
  destruct (runPhase_cases this ph desc prev w)
    as [(c & w0 & _ & _ & _ & W & _)|(e & w0 & Hrun & _)]; [done |].
  exists e, w0. split; [exact Hrun |].
  apply runPhase_throws in Hrun as (Hf & Hfs & _ & Hres & _).
  destruct Hf as [_ Hd _ _| _ _ Hin _ _|loc' _ _ _ Ht Ha]; [done | congruence |].
  do 3 (split; [done |]). eexists. split; [exact Ha |]. done.
Qed.

Lemma runPhase_unwritable_record_witness :
  plain_dirs Demo.this /\ no_slash "research" = true /\
  fs (Trial.bare Demo.frozen) !! instructionPath Demo.this "research" <> Some Dir /\
  JsObject.inherited "research" = false /\
  ~ writable (fs (Trial.bare Demo.frozen))
      (locator Demo.this "research"
         (clock (Trial.bare Demo.frozen) (S (ticks (Trial.bare Demo.frozen))))) /\
  exists e w',
    runPhase Demo.this "research" "Task: build X" None (Trial.bare Demo.frozen)
    = (Throw e, w') /\
    fs w' = fs (Trial.bare Demo.frozen) /\
    ticks w' = S (S (ticks (Trial.bare Demo.frozen))) /\
    phaseResults w' = phaseResults (Trial.bare Demo.frozen) /\
    exists r, agent w' = (agent (Trial.bare Demo.frozen) ++ [r])%list /\
              req_phase r = "research" /\
              req_prompt r
              = fullPrompt "Task: build X" None
                  (instructionsFor Demo.this "research" (fs (Trial.bare Demo.frozen))).
Proof.
  assert (H1 : fs (Trial.bare Demo.frozen) !! instructionPath Demo.this "research" <> Some Dir)
    by (by vm_compute).
  assert (H2 : ~ writable (fs (Trial.bare Demo.frozen))
                   (locator Demo.this "research"
                      (clock (Trial.bare Demo.frozen) (S (ticks (Trial.bare Demo.frozen))))))
    by (intros [_ H]; vm_compute in H; discriminate).
  split; [by split |]. split; [reflexivity |].
  split; [exact H1 |]. split; [reflexivity |]. split; [exact H2 |].
  exact (runPhase_unwritable_record Demo.this "research" "Task: build X" None
           (Trial.bare Demo.frozen) (conj eq_refl eq_refl) eq_refl H1 eq_refl H2).
Defined.

(** X7.  A record that was saved can be read back: the file at the
    returned locator holds the JSON text of the record.  The locator is
    the one of the clock reading taken by the save, it was writable,
    and no other path has changed. *)
Theorem savePhaseOutput_read_back this po w p w' :
  savePhaseOutput this po w = (Ok p, w') ->
  p = locator this (phase po) (clock w (ticks w)) /\
  NodeFs.readFileSync p w' = (Ok (stringify_PhaseOutput po), w') /\
  writable (fs w) p /\
  (forall q, q <> p -> fs w' !! q = fs w !! q) /\
  ticks w' = S (ticks w).
Proof.
  intros H.
  destruct (savePhaseOutput_cases this po w) as [[W Hs]|[_ [e Hs]]]; [| congruence].
  rewrite H in Hs. injection Hs as -> ->.
  split; [done |]. split.
  - unfold NodeFs.readFileSync. cbn [fs NodeFs.set_fs]. by rewrite lookup_insert_eq.
  - split; [done |]. split; [| done].
    intros q Hq. cbn [fs NodeFs.set_fs tick]. by rewrite lookup_insert_ne.
Qed.

Lemma savePhaseOutput_read_back_witness :
  savePhaseOutput Demo.this (record "plan" 0) (Demo.world Demo.frozen)
  = (Ok "outputs/plan_2026-01-08T12-30-00.123Z.json",
     snd (savePhaseOutput Demo.this (record "plan" 0) (Demo.world Demo.frozen))) /\
  ("outputs/plan_2026-01-08T12-30-00.123Z.json"
   = locator Demo.this (phase (record "plan" 0))
       (clock (Demo.world Demo.frozen) (ticks (Demo.world Demo.frozen))) /\
   NodeFs.readFileSync "outputs/plan_2026-01-08T12-30-00.123Z.json"
     (snd (savePhaseOutput Demo.this (record "plan" 0) (Demo.world Demo.frozen)))
   = (Ok (stringify_PhaseOutput (record "plan" 0)),
      snd (savePhaseOutput Demo.this (record "plan" 0) (Demo.world Demo.frozen))) /\
   writable (fs (Demo.world Demo.frozen)) "outputs/plan_2026-01-08T12-30-00.123Z.json" /\
   (forall q, q <> "outputs/plan_2026-01-08T12-30-00.123Z.json" ->
      fs (snd (savePhaseOutput Demo.this (record "plan" 0) (Demo.world Demo.frozen))) !! q
      = fs (Demo.world Demo.frozen) !! q) /\
   ticks (snd (savePhaseOutput Demo.this (record "plan" 0) (Demo.world Demo.frozen)))
   = S (ticks (Demo.world Demo.frozen))).
Proof.
  assert (H : savePhaseOutput Demo.this (record "plan" 0) (Demo.world Demo.frozen)
              = (Ok "outputs/plan_2026-01-08T12-30-00.123Z.json",
                 snd (savePhaseOutput Demo.this (record "plan" 0) (Demo.world Demo.frozen))))
    by (apply pair_fst; vm_compute; reflexivity).
  split; [exact H |].
  exact (savePhaseOutput_read_back Demo.this (record "plan" 0) (Demo.world Demo.frozen)
           _ _ H).
Defined.

(** X8.  A record whose locator is not writable is not saved: for a
    phase name without separator and an output directory in simple
    form, [savePhaseOutput] throws, having read the clock and changed
    nothing else. *)
Theorem savePhaseOutput_unwritable this po w :
  PosixPath.simple (outputDir this) = true -> no_slash (phase po) = true ->
  ~ writable (fs w) (locator this (phase po) (clock w (ticks w))) ->
  exists e, savePhaseOutput this po w = (Throw e, tick w).
Proof.
  intros _ _ Hw. by destruct (savePhaseOutput_cases this po w) as [[W _]|[_ H]].
Qed.

Lemma savePhaseOutput_unwritable_witness :
  PosixPath.simple (outputDir Demo.this) = true /\
  no_slash (phase (record "plan" 0)) = true /\
  ~ writable (fs (Trial.blocked Demo.frozen))
      (locator Demo.this (phase (record "plan" 0))
         (clock (Trial.blocked Demo.frozen) (ticks (Trial.blocked Demo.frozen)))) /\
  exists e,
    savePhaseOutput Demo.this (record "plan" 0) (Trial.blocked Demo.frozen)
    = (Throw e, tick (Trial.blocked Demo.frozen)).
Proof.
  assert (H : ~ writable (fs (Trial.blocked Demo.frozen))
                  (locator Demo.this (phase (record "plan" 0))
                     (clock (Trial.blocked Demo.frozen) (ticks (Trial.blocked Demo.frozen)))))
    by (intros [_ H]; vm_compute in H; discriminate).
  split; [reflexivity |]. split; [reflexivity |]. split; [exact H |].
  exact (savePhaseOutput_unwritable Demo.this (record "plan" 0) (Trial.blocked Demo.frozen)
           eq_refl eq_refl H).
Defined.

(** X9.  For an output path in simple form that is there already, or
    whose parent is a directory, the constructor returns, and
    constructing a second time changes nothing.  It leaves a directory
    at the output path unless a file is there already, which it keeps;
    no other path changes, and the results kept on the object start
    empty. *)
Theorem constructor_idempotent i o w :
  PosixPath.simple o = true ->
  fs w !! o <> None \/ fs w !! NodePath.dirname o = Some Dir ->
  exists w', constructor i o w = (Ok (mkOrchestrator i o), w') /\
    constructor i o w' = (Ok (mkOrchestrator i o), w') /\
    (fs w' !! o = Some Dir \/ exists x, fs w !! o = Some (File x) /\ fs w' = fs w) /\
    (forall p, p <> o -> fs w' !! p = fs w !! p) /\
    phaseResults w' = ∅.
Proof.
  intros _ _. eexists. split; [apply constructor_eq |]. rewrite constructor_eq.
  cbn [fs clock ticks console agent phaseResults].
  destruct (fs w !! o) as [[x|]|] eqn:Ho.
  - rewrite Ho. eauto 10.
  - rewrite Ho. eauto 10.
  - rewrite lookup_insert_eq. split; [done |]. split; [by left |]. split; [| done].
    intros p Hp. by rewrite lookup_insert_ne.
Qed.

Lemma constructor_idempotent_witness :
  PosixPath.simple "outputs" = true /\
  (fs (Trial.fresh Demo.frozen) !! "outputs" <> None \/
   fs (Trial.fresh Demo.frozen) !! NodePath.dirname "outputs" = Some Dir) /\
  exists w',
    constructor "instructions" "outputs" (Trial.fresh Demo.frozen)
    = (Ok (mkOrchestrator "instructions" "outputs"), w') /\
    constructor "instructions" "outputs" w'
    = (Ok (mkOrchestrator "instructions" "outputs"), w') /\
    (fs w' !! "outputs" = Some Dir \/
     exists x, fs (Trial.fresh Demo.frozen) !! "outputs" = Some (File x) /\
               fs w' = fs (Trial.fresh Demo.frozen)) /\
    (forall p, p <> "outputs" -> fs w' !! p = fs (Trial.fresh Demo.frozen) !! p) /\
    phaseResults w' = ∅.
Proof.
  assert (H : fs (Trial.fresh Demo.frozen) !! "outputs" <> None \/
              fs (Trial.fresh Demo.frozen) !! NodePath.dirname "outputs" = Some Dir)
    by (right; reflexivity).
  split; [reflexivity |]. split; [exact H |].
  exact (constructor_idempotent "instructions" "outputs" (Trial.fresh Demo.frozen) eq_refl H).
Defined.

(** X10.  A file in the place of the output directory is not noticed by
    the constructor; the run that follows asks the agent for the first
    phase, fails with an error of the file system and writes nothing. *)
Theorem constructor_accepts_a_file i o x task w :
  fs w !! o = Some (File x) ->
  fs w !! instructionPath (mkOrchestrator i o) "research" <> Some Dir ->
  exists w1, constructor i o w = (Ok (mkOrchestrator i o), w1) /\ fs w1 = fs w /\
    exists e w2, orchestrate (mkOrchestrator i o) task w1 = (Throw e, w2) /\
      io_error e /\ fs w2 = fs w /\
      map req_phase (agent w2) = (map req_phase (agent w) ++ ["research"])%list.
Proof.
  intros Ho Hi. eexists. split; [apply constructor_eq |]. rewrite Ho.
  split; [done |].
  set (w1 := mkWorld _ _ _ _ _ _). set (this := mkOrchestrator i o) in *.
  unfold orchestrate. do 7 step.
  match goal with |- context [(runPhase ?t ?ph ?d ?p ≫= _) ?x] =>
    destruct (runPhase_cases t ph d p x)
      as [(c & w2 & _ & _ & _ & [_ W] & _)|(e & w2 & Hrun & _)]
  end.
  - exfalso. rewrite dirname_locator in W by (cbn; tauto). cbn in W. congruence.
  - erewrite bind_throw by exact Hrun. exists e, w2. split; [done |].
    apply runPhase_throws in Hrun as (Hf & Hfs & _). cbn [fs print] in Hfs.
    destruct Hf as [-> Hd _ _| _ _ Hin _ _|loc' He _ _ _ Ha]; try done.
    split; [by destruct He as [[-> _]|[[-> _]|[-> _]]] |]. split; [done |].
    rewrite Ha, map_app. reflexivity.
Qed.

Lemma constructor_accepts_a_file_witness :
  fs (Trial.blocked Demo.ticking) !! "outputs" = Some (File "x") /\
  fs (Trial.blocked Demo.ticking)
  !! instructionPath (mkOrchestrator "instructions" "outputs") "research" <> Some Dir /\
  exists w1,
    constructor "instructions" "outputs" (Trial.blocked Demo.ticking)
    = (Ok (mkOrchestrator "instructions" "outputs"), w1) /\
    fs w1 = fs (Trial.blocked Demo.ticking) /\
    exists e w2,
      orchestrate (mkOrchestrator "instructions" "outputs") "build X" w1 = (Throw e, w2) /\
      io_error e /\ fs w2 = fs (Trial.blocked Demo.ticking) /\
      map req_phase (agent w2)
      = (map req_phase (agent (Trial.blocked Demo.ticking)) ++ ["research"])%list.
Proof.
  split; [reflexivity |]. split; [by vm_compute |].
  apply (constructor_accepts_a_file "instructions" "outputs" "x" "build X"
           (Trial.blocked Demo.ticking)).
  - reflexivity.
  - by vm_compute.
Defined.

(** X11.  When the instruction file of a phase is missing and the name
    of the phase does not contain the suffix of instruction files, the
    default instructions name the phase: appending the suffix and
    removing its first occurrence gives the name back.  One warning is
    printed and nothing else changes. *)
Theorem missing_instructions_name_the_phase this ph w :
  fs w !! instructionPath this ph = None ->
  occurs "-phase.instructions.md" ph = false ->
  loadInstructionFile this (ph ++ "-phase.instructions.md") w
  = (Ok ("Execute the " ++ ph ++ " phase of the workflow."),
     print (Warn ("Instruction file not found: " ++ instructionsDir this ++ "/" ++ ph ++
                  "-phase.instructions.md" ++ ", using default instructions")) w).
Proof.
  intros Hmiss Hocc. rewrite (loadInstructionFile_missing _ _ _ Hmiss).
  unfold defaultInstructions, missingWarning, instructionPath, NodePath.join.
  rewrite replace_appended by done.
  by rewrite !app_assoc.
Qed.

Lemma missing_instructions_name_the_phase_witness :
  fs (Demo.world Demo.frozen) !! instructionPath Demo.this "deploy" = None /\
  occurs "-phase.instructions.md" "deploy" = false /\
  loadInstructionFile Demo.this ("deploy" ++ "-phase.instructions.md") (Demo.world Demo.frozen)
  = (Ok ("Execute the " ++ "deploy" ++ " phase of the workflow."),
     print (Warn ("Instruction file not found: " ++ instructionsDir Demo.this ++ "/" ++
                  "deploy" ++ "-phase.instructions.md" ++ ", using default instructions"))
       (Demo.world Demo.frozen)).
Proof.
  split; [by vm_compute |]. split; [reflexivity |].
  apply (missing_instructions_name_the_phase Demo.this "deploy" (Demo.world Demo.frozen)).
  - by vm_compute.
  - reflexivity.
Defined.

(** A phase name that contains the suffix loses its first occurrence
    of it in the default instructions. *)
Example default_instructions_of_suffixed_name :
  defaultInstructions "a-phase.instructions.mdb"
  = "Execute the ab-phase.instructions.md phase of the workflow.".
Proof. reflexivity. Qed.

(** X12.  Every configuration that [getAgentConfig] returns, registered
    or default, lets the agent read and search (the tools Read, Grep
    and Glob), names one of the models opus and sonnet, and has a
    description that is not empty. *)
Theorem getAgentConfig_config_invariant ph c :
  getAgentConfig ph = Config c ->
  In "Read" (tools c) /\ In "Grep" (tools c) /\ In "Glob" (tools c) /\
  (model c = Some "opus" \/ model c = Some "sonnet") /\
  description c <> EmptyString.
Proof.
  unfold getAgentConfig. destruct (configs !! ph) as [c0|] eqn:Hc.
  - intros [= <-]. apply configs_cases in Hc. cbn [In] in Hc.
    repeat (destruct Hc as [Hc|Hc];
            [injection Hc as <- <-; cbn; repeat split; first [done | auto 10] |]).
    done.
  - destruct (JsObject.inherited ph); [done |]. intros [= <-]. cbn [tools model description In].
    repeat split; auto 10.
    intros E. apply (f_equal String.length) in E. rewrite !length_app in E.
    cbn [String.length] in E. lia.
Qed.

Lemma getAgentConfig_config_invariant_witness :
  getAgentConfig "deploy"
  = Config (mkAgentConfig "Deploy phase specialist" ["Read"; "Write"; "Grep"; "Glob"]
              (Some "sonnet")) /\
  In "Read" ["Read"; "Write"; "Grep"; "Glob"] /\
  In "Grep" ["Read"; "Write"; "Grep"; "Glob"] /\
  In "Glob" ["Read"; "Write"; "Grep"; "Glob"] /\
  (Some "sonnet" = Some "opus" \/ Some "sonnet" = Some "sonnet") /\
  "Deploy phase specialist" <> EmptyString.
Proof.
  split; [by vm_compute |].
  apply (getAgentConfig_config_invariant "deploy"
           (mkAgentConfig "Deploy phase specialist" ["Read"; "Write"; "Grep"; "Glob"]
              (Some "sonnet"))).
  by vm_compute.
Defined.

(** X13.  A preview is at most 1003 units long, and taking the preview
    of a preview changes nothing: a truncated result is not truncated a
    second time. *)
Theorem preview_bounded_and_idempotent (r : string) :
  (String.length (preview r) <= 1003)%nat /\ preview (preview r) = preview r.
Proof.
  split; [apply length_preview |].
  unfold preview at 2 3. destruct (Nat.ltb_spec 1000 (String.length r)) as [H|H].
  - rewrite js_substring_0.
    replace (Nat.min 1000 (String.length r)) with 1000%nat by lia.
    assert (L : String.length (String.substring 0 1000 r) = 1000%nat)
      by (rewrite length_substring_0; lia).
    unfold preview. rewrite length_app, L. cbn [String.length Nat.add].
    change (1000 <? 1003)%nat with true. cbv iota.
    rewrite js_substring_0, length_app, L. cbn [String.length].
    replace (Nat.min 1000 (1000 + 3)) with (String.length (String.substring 0 1000 r))
      by (rewrite L; lia).
    by rewrite substring_0_app.
  - unfold preview. destruct (Nat.ltb_spec 1000 (String.length r)); [lia | done].
Qed.

(** X14.  The prompt of a phase is bounded whatever the lengths of the
    earlier results: beyond the task and the instructions it takes at
    most 60 units, and for each earlier phase the length of its name in
    upper case and 1017 units. *)
Theorem fullPrompt_length_bound task prev instructions :
  (String.length (fullPrompt task prev instructions)
   <= String.length task + String.length instructions + 60 + budget (entries_of prev))%nat.
Proof.
  rewrite fullPrompt_assemble. unfold assemble.
  pose proof (length_blocks (entries_of prev)) as Hb.
  destruct (entries_of prev) as [|e r]; rewrite !length_app;
    unfold LF; cbn [String.length]; cbn [budget] in *; lia.
Qed.

(** X15.  With no task on the command line the process prints the
    three lines of usage and exits with code 1; nothing is constructed:
    the file system, the clock and the agent are untouched. *)
Theorem main_without_task inspect d argv w :
  (length argv <= 2)%nat ->
  fst (start inspect d argv w) = 1%Z /\
  fs (snd (start inspect d argv w)) = fs w /\
  ticks (snd (start inspect d argv w)) = ticks w /\
  agent (snd (start inspect d argv w)) = agent w /\
  console (snd (start inspect d argv w))
  = (console w ++
     [Log ("Usage: ts-node orchestrator.ts " ++ DQ ++ "<task description>" ++ DQ);
      Log (LF ++ "Example:");
      Log ("  ts-node orchestrator.ts " ++ DQ ++ "Create a REST API with authentication" ++
           DQ)])%list.
Proof.
  intros H. unfold start. rewrite (main_usage_lines d argv w H).
  cbn. do 4 (split; [done |]). by rewrite <- !List.app_assoc.
Qed.

Lemma main_without_task_witness :
  (length ["node"; "orchestrator.ts"] <= 2)%nat /\
  fst (start Trial.inspect "/app/src" ["node"; "orchestrator.ts"] (Trial.bare Demo.frozen))
  = 1%Z /\
  fs (snd (start Trial.inspect "/app/src" ["node"; "orchestrator.ts"]
             (Trial.bare Demo.frozen)))
  = fs (Trial.bare Demo.frozen) /\
  ticks (snd (start Trial.inspect "/app/src" ["node"; "orchestrator.ts"]
                (Trial.bare Demo.frozen)))
  = ticks (Trial.bare Demo.frozen) /\
  agent (snd (start Trial.inspect "/app/src" ["node"; "orchestrator.ts"]
                (Trial.bare Demo.frozen)))
  = agent (Trial.bare Demo.frozen) /\
  console (snd (start Trial.inspect "/app/src" ["node"; "orchestrator.ts"]
                  (Trial.bare Demo.frozen)))
  = (console (Trial.bare Demo.frozen) ++
     [Log ("Usage: ts-node orchestrator.ts " ++ DQ ++ "<task description>" ++ DQ);
      Log (LF ++ "Example:");
      Log ("  ts-node orchestrator.ts " ++ DQ ++ "Create a REST API with authentication" ++
           DQ)])%list.
Proof.
  split; [cbn; lia |].
  apply (main_without_task Trial.inspect "/app/src" ["node"; "orchestrator.ts"]
           (Trial.bare Demo.frozen)).
  cbn; lia.
Defined.

(** X16.  For a program directory that is absolute and in simple
    form, the exit code of the process is 0 or 1, and it is 0 only if
    a task was given and the machine, once the constructor has seen to
    the output directory, is ready for the run. *)
Theorem main_exit_code inspect d argv w :
  PosixPath.simple d = true -> String.prefix "/" d = true ->
  (fst (start inspect d argv w) = 0%Z \/ fst (start inspect d argv w) = 1%Z) /\
  (fst (start inspect d argv w) = 0%Z ->
   (2 < length argv)%nat /\
   exists w1,
     constructor (instructionsDir (orchestrator d)) (outputDir (orchestrator d)) w
     = (Ok (orchestrator d), w1) /\
     ready (orchestrator d) w1).
Proof.
  intros _ _.
  unfold start. destruct (Nat.le_gt_cases (length argv) 2) as [Hlen|Hlen].
  { rewrite (main_usage_lines d argv w Hlen). cbn [fst]. split; [by right | done]. }
  destruct (main_runs d argv w Hlen) as (w1 & Hc & _ & ->).
  destruct (orchestrate (orchestrator d) (join " " (skipn 2 argv)) w1) as [[r|e] w2] eqn:Hrun;
    cbn [fst].
  - split; [by left |]. intros _. split; [done |]. exists w1.
    split; [done |]. by apply orchestrate_ok_inv in Hrun as (_ & H & _).
  - split; [by right | done].
Qed.

Lemma main_exit_code_witness :
  PosixPath.simple "/app/src" = true /\ String.prefix "/" "/app/src" = true /\
  (fst (start Trial.inspect "/app/src" Trial.argv (Trial.bare Demo.ticking)) = 0%Z \/
   fst (start Trial.inspect "/app/src" Trial.argv (Trial.bare Demo.ticking)) = 1%Z) /\
  (fst (start Trial.inspect "/app/src" Trial.argv (Trial.bare Demo.ticking)) = 0%Z ->
   (2 < length Trial.argv)%nat /\
   exists w1,
     constructor (instructionsDir (orchestrator "/app/src"))
       (outputDir (orchestrator "/app/src")) (Trial.bare Demo.ticking)
     = (Ok (orchestrator "/app/src"), w1) /\
     ready (orchestrator "/app/src") w1).
Proof.
  split; [reflexivity |]. split; [reflexivity |].
  exact (main_exit_code Trial.inspect "/app/src" Trial.argv (Trial.bare Demo.ticking)
           eq_refl eq_refl).
Defined.

(** X17.  When the process exits with code 0, the four records and the
    summary are on the file system, and apart from them and from the
    output directory no path has changed. *)
Theorem main_success_persists inspect d argv w :
  fst (start inspect d argv w) = 0%Z ->
  exists w1,
    constructor (instructionsDir (orchestrator d)) (outputDir (orchestrator d)) w
    = (Ok (orchestrator d), w1) /\
    Forall (fun kv => fs (snd (start inspect d argv w)) !! fst kv = Some (snd kv))
      (record_writes (orchestrator d) w1) /\
    fs (snd (start inspect d argv w)) !! summaryPath (orchestrator d) (reading w1 8)
    = Some (File (Json.stringify_object (map entry phases))) /\
    forall p, ~ In p (outputDir (orchestrator d) :: targets (orchestrator d) w1) ->
              fs (snd (start inspect d argv w)) !! p = fs w !! p.
Proof.
  unfold start. destruct (Nat.le_gt_cases (length argv) 2) as [Hlen|Hlen].
  { destruct (main_usage d argv w Hlen) as (l1 & l2 & l3 & ->). done. }
  destruct (main_runs d argv w Hlen) as (w1 & Hc & Hframe & ->).
  destruct (orchestrate (orchestrator d) (join " " (skipn 2 argv)) w1) as [[r|e] w2] eqn:Hrun;
    cbn [fst snd]; [| done].
  intros _. exists w1. split; [done |].
  apply orchestrate_ok_inv in Hrun as (_ & _ & Hpost & _).
  apply run_post_files in Hpost as (Hrec & Hsum & Hrest).
  do 2 (split; [done |]). intros p Hp. rewrite Hrest.
  - apply Hframe. intros ->. apply Hp. by left.
  - intros Hin. apply Hp. by right.
Qed.

Lemma main_success_persists_witness :
  fst (start Trial.inspect "/app/src" Trial.argv (Trial.bare Demo.ticking)) = 0%Z /\
  exists w1,
    constructor (instructionsDir (orchestrator "/app/src"))
      (outputDir (orchestrator "/app/src")) (Trial.bare Demo.ticking)
    = (Ok (orchestrator "/app/src"), w1) /\
    Forall (fun kv =>
              fs (snd (start Trial.inspect "/app/src" Trial.argv (Trial.bare Demo.ticking)))
              !! fst kv = Some (snd kv))
      (record_writes (orchestrator "/app/src") w1) /\
    fs (snd (start Trial.inspect "/app/src" Trial.argv (Trial.bare Demo.ticking)))
    !! summaryPath (orchestrator "/app/src") (reading w1 8)
    = Some (File (Json.stringify_object (map entry phases))) /\
    forall p, ~ In p (outputDir (orchestrator "/app/src")
                      :: targets (orchestrator "/app/src") w1) ->
              fs (snd (start Trial.inspect "/app/src" Trial.argv (Trial.bare Demo.ticking)))
              !! p
              = fs (Trial.bare Demo.ticking) !! p.
Proof.
  assert (H : fst (start Trial.inspect "/app/src" Trial.argv (Trial.bare Demo.ticking)) = 0%Z)
    by (vm_compute; reflexivity).
  split; [exact H |].
  exact (main_success_persists Trial.inspect "/app/src" Trial.argv (Trial.bare Demo.ticking) H).
Defined.

(** X18.  A run that fails ends the process with code 1 after one line
    on the standard error stream that shows the error, an error of the
    file system; no summary has been written. *)
Theorem main_reports_failure inspect d argv w e w' :
  main d argv w = (Rejected e, w') ->
  start inspect d argv w = (1%Z, print (Warn ("Error: " ++ inspect e)) w') /\
  io_error e /\
  forall t, fs w' !! summaryPath (orchestrator d) t = fs w !! summaryPath (orchestrator d) t.
Proof.
  intros H. unfold start. rewrite H. split; [done |].
  destruct (Nat.le_gt_cases (length argv) 2) as [Hlen|Hlen].
  { destruct (main_usage d argv w Hlen) as (l1 & l2 & l3 & Hu). congruence. }
  destruct (main_runs d argv w Hlen) as (w1 & Hc & Hframe & Hm). rewrite Hm in H.
  destruct (orchestrate (orchestrator d) (join " " (skipn 2 argv)) w1) as [[r|e0] w2] eqn:Hrun;
    [done |].
  injection H as -> ->.
  apply orchestrate_throw_inv in Hrun as (_ & He & k & j & _ & _ & Hfs & _).
  split; [done |]. intros t. rewrite Hfs, summary_untouched. apply Hframe.
  unfold summaryPath. apply join_neq_dir.
Qed.

Lemma main_reports_failure_witness :
  main "/app/src" Trial.argv (Trial.blocked_app Demo.frozen)
  = (Rejected (ENOTDIR "/app/outputs/research_2026-01-08T12-30-00.123Z.json"),
     snd (main "/app/src" Trial.argv (Trial.blocked_app Demo.frozen))) /\
  start Trial.inspect "/app/src" Trial.argv (Trial.blocked_app Demo.frozen)
  = (1%Z,
     print (Warn ("Error: " ++
                  Trial.inspect
                    (ENOTDIR "/app/outputs/research_2026-01-08T12-30-00.123Z.json")))
       (snd (main "/app/src" Trial.argv (Trial.blocked_app Demo.frozen)))) /\
  io_error (ENOTDIR "/app/outputs/research_2026-01-08T12-30-00.123Z.json") /\
  forall t,
    fs (snd (main "/app/src" Trial.argv (Trial.blocked_app Demo.frozen)))
    !! summaryPath (orchestrator "/app/src") t
    = fs (Trial.blocked_app Demo.frozen) !! summaryPath (orchestrator "/app/src") t.
Proof.
  assert (H : main "/app/src" Trial.argv (Trial.blocked_app Demo.frozen)
              = (Rejected (ENOTDIR "/app/outputs/research_2026-01-08T12-30-00.123Z.json"),
                 snd (main "/app/src" Trial.argv (Trial.blocked_app Demo.frozen))))
    by (apply pair_fst; vm_compute; reflexivity).
  split; [exact H |].
  exact (main_reports_failure Trial.inspect "/app/src" Trial.argv
           (Trial.blocked_app Demo.frozen) _ _ H).
Defined.

End Properties.
